(** * Capability-scenario worksheet of the risk dashboard

    A shallow embedding of the client-side worksheet engine:
    the selection state held by [DashboardCore], the tree renderer's
    activation status and toggles ([DashboardTreeRenderer]), the metrics
    recalculation ([DashboardMetrics]), the draft store ([DraftManager]),
    the scenario client ([ScenarioManager]) and the scenario workflow
    ([DashboardScenarios]).

    The browser is modelled by explicit state passing: the fields of
    [this] form the record [Dashboard]; everything the page shows or
    sends (status messages, save-status icon, error banner, HTTP requests,
    local-storage calls, metric animations) is appended to [log] (console
    output is not recorded); what the
    outside answers (server responses, [confirm], storage quota, the clock,
    which metric cards exist in the DOM) is read from a [World]. *)

From Stdlib Require Import List String ZArith Bool Lia DecimalString.
Import ListNotations.
Local Open Scope string_scope.
Local Open Scope list_scope.

(** ** JavaScript values *)

(** Truthiness of a string id: only the empty string is falsy. *)
Definition truthy (s : string) : bool := negb (String.eqb s EmptyString).

(** Truthiness of a numeric id that may be [null]: [null] and [0] are falsy. *)
Definition truthy_num (o : option Z) : bool :=
  match o with
  | Some z => negb (Z.eqb z 0)
  | None => false
  end.

(** [x || 0] on a number that may be [undefined]. *)
Definition orZero (o : option Z) : Z :=
  match o with
  | Some z => z
  | None => 0%Z
  end.

(** Template-literal rendering of an integer. *)
Definition string_of_Z (z : Z) : string := NilZero.string_of_int (Z.to_int z).

(** ** [Set] of string ids

    A JavaScript [Set] iterates in insertion order and holds each value
    once; [Array.from] lists it in that order. *)
Module JSSet.

Definition t := list string.

Definition empty : t := [].

Definition has (s : t) (x : string) : bool := existsb (String.eqb x) s.

Definition add (s : t) (x : string) : t := if has s x then s else s ++ [x].

Definition delete (s : t) (x : string) : t :=
  filter (fun y => negb (String.eqb x y)) s.

Definition clear (s : t) : t := [].

(** [new Set(array)] *)
Definition of_list (l : list string) : t := fold_left add l empty.

(** [Array.from(set)] *)
Definition to_list (s : t) : list string := s.

Definition size (s : t) : nat := List.length s.

(** [forEach(v => set.add(v))] and [forEach(v => set.delete(v))] *)
Definition add_all (s : t) (l : list string) : t := fold_left add l s.
Definition delete_all (s : t) (l : list string) : t := fold_left delete l s.

End JSSet.

(** ** Reference data: the capability tree *)

Record ControlRef := {
  control_id : string;
  control_title : string
}.

(** [controls] may be missing on a capability ([capability.controls || []]). *)
Record Capability := {
  capability_id : string;
  capability_name : string;
  controls : option (list ControlRef)
}.

Definition control_ids_of (cs : list ControlRef) : list string := map control_id cs.

(** [treeData.find(cap => cap.capability_id === capabilityId)] *)
Definition findCapability (tree : list Capability) (capabilityId : string)
  : option Capability :=
  find (fun cap => String.eqb (capability_id cap) capabilityId) tree.

(** ** Scenario records and serialized selections *)

Module CapSel.
Record t := { capability_id : string; is_active : bool }.
End CapSel.

Module CtlSel.
Record t := { control_id : string; is_active : bool }.
End CtlSel.

(** What [serializeSelections] returns and [PUT /api/capability-scenarios/id] sends. *)
Record Selections := {
  selections : list CapSel.t;
  control_selections : list CtlSel.t
}.

(** A scenario as the server returns it; [control_selections] is missing on
    scenarios saved before per-control tracking. *)
Module Scenario.
Record t := {
  scenario_id : Z;
  scenario_name : string;
  is_default : bool;
  selections : list CapSel.t;
  control_selections : option (list CtlSel.t)
}.
End Scenario.

(** ** Metrics *)

(** Response of [POST /api/capability-analysis]; a count may be missing,
    the code reads each one as [metrics.x || 0]. *)
Record Metrics := {
  total_controls : option Z;
  controls_in_capabilities : option Z;
  active_controls : option Z;
  active_risks : option Z;
  partially_covered_risks : option Z;
  exposed_risks : option Z
}.

(** [this.previousMetrics]: [null] until the first update of each card. *)
Module Previous.
Record t := {
  active_controls : option Z;
  exposed_risks : option Z;
  partially_covered_risks : option Z;
  active_risks : option Z
}.
Definition initial : t :=
  {| active_controls := None; exposed_risks := None;
     partially_covered_risks := None; active_risks := None |}.
End Previous.

(** Body of the analysis request: [control_ids] is a field that may be absent. *)
Record AnalysisRequest := {
  capability_ids : list string;
  control_ids : option (list string)
}.

(** ** What the page emits *)

Inductive Level := success | error | warning | info.

Inductive SaveStatus := saved | saving | unsaved | save_error | none.

Inductive Color := green | yellow | red.

Inductive Card := card_active_controls | card_partially_covered | card_exposed_risks.

(** The unnamed local draft, JSON-encoded under one key per user. *)
Record Draft := {
  activeCapabilityIds : list string;
  activeControlIds : list string;
  updatedAt : string
}.

Inductive Request :=
| PostCapabilityAnalysis (payload : AnalysisRequest)
| GetCapabilityTree
| GetCurrentUser
| GetScenarios (user_id : Z)
| GetScenario (id : Z)
| PutScenario (id : Z) (body : Selections)
| DeleteScenario (id : Z).

Inductive Event :=
| StatusMessage (message : string) (type : Level)   (* statusMessage.show *)
| SaveStatusUpdate (status : SaveStatus)            (* saveStatus.update *)
| ErrorBanner (message : string)                    (* showError *)
| Fetch (request : Request)                         (* fetch(...) *)
| StorageSetItem (key : string) (value : Draft)     (* localStorage.setItem *)
| StorageRemoveItem (key : string)                  (* localStorage.removeItem *)
| TreeRendered                                      (* createVerticalTree drew the cards *)
| MetricAnimated (card : Card) (change : Z) (color : Color).

(** ** What the outside answers *)

(** Outcome of a [fetch]: a 2xx body, a non-2xx status (with the text that
    [extractErrorDetail] derives from the body), or a rejected promise. *)
Inductive Response (A : Type) :=
| Ok (body : A)
| NotOk (status : Z) (detail : string)
| Rejected (message : string).
Arguments Ok {A} body.
Arguments NotOk {A} status detail.
Arguments Rejected {A} message.

Record World := {
  capabilityAnalysis : AnalysisRequest -> Response Metrics;
  capabilityTree : Response (list Capability);
  scenarioList : Z -> Response (list Scenario.t);
  scenarioById : Z -> Response Scenario.t;
  scenarioUpdate : Z -> Selections -> Response unit;
  scenarioDelete : Z -> Response unit;
  currentUser : Response (option Z);
  confirmAnswer : bool;          (* window.confirm *)
  storageThrows : bool;          (* localStorage unavailable or over quota *)
  clock : string;                (* new Date().toISOString() *)
  hasActiveControlsCard : bool;  (* #metric-active-controls is in the page *)
  hasPartiallyCoveredCard : bool;
  hasExposedRisksCard : bool
}.

(** An awaited call either resolves or throws an [Error] with a message. *)
Inductive Completion (A : Type) :=
| Resolved (value : A)
| Threw (message : string).
Arguments Resolved {A} value.
Arguments Threw {A} message.

(** [`HTTP error! status: ${response.status}`] *)
Definition httpErrorMessage (status : Z) : string :=
  String.append "HTTP error! status: " (string_of_Z status).

(** ** [ScenarioManager]: the scenario client *)
Module ScenarioManager.

Record t := {
  userId : Z;
  scenarios : list Scenario.t;
  currentScenarioId : option Z
}.

Definition new (userId : Z) : t :=
  {| userId := userId; scenarios := []; currentScenarioId := None |}.

Definition getCurrentScenarioId (m : t) : option Z := currentScenarioId m.

Definition setCurrentScenarioId (scenarioId : option Z) (m : t) : t :=
  {| userId := userId m; scenarios := scenarios m; currentScenarioId := scenarioId |}.

Definition getDefaultScenario (m : t) : option Scenario.t :=
  find Scenario.is_default (scenarios m).

Definition getScenario (m : t) (scenarioId : Z) : option Scenario.t :=
  find (fun s => Z.eqb (Scenario.scenario_id s) scenarioId) (scenarios m).

(** Each awaited method returns its completion, the manager afterwards and
    the requests it sent. *)
Definition Async (A : Type) : Type := Completion A * t * list Event.

Definition loadScenarios (w : World) (m : t) : Async (list Scenario.t) :=
  let sent := [Fetch (GetScenarios (userId m))] in
  match scenarioList w (userId m) with
  | Ok body =>
      (Resolved body,
       {| userId := userId m; scenarios := body;
          currentScenarioId := currentScenarioId m |}, sent)
  | NotOk status _ => (Threw (httpErrorMessage status), m, sent)
  | Rejected message => (Threw message, m, sent)
  end.

Definition loadScenario (w : World) (scenarioId : option Z) (m : t)
  : Async (option Scenario.t) :=
  match scenarioId with
  | None => (Resolved None, setCurrentScenarioId None m, [])
  | Some id =>
      if Z.eqb id 0 then (Resolved None, setCurrentScenarioId None m, [])
      else
        let sent := [Fetch (GetScenario id)] in
        match scenarioById w id with
        | Ok scenario =>
            (Resolved (Some scenario), setCurrentScenarioId (Some id) m, sent)
        | NotOk status _ => (Threw (httpErrorMessage status), m, sent)
        | Rejected message => (Threw message, m, sent)
        end
  end.

Definition updateScenario (w : World) (scenarioId : Z) (body : Selections) (m : t)
  : Async unit :=
  let sent := [Fetch (PutScenario scenarioId body)] in
  match scenarioUpdate w scenarioId body with
  | Ok _ => (Resolved tt, m, sent)
  | NotOk _ detail =>
      (Threw (String.append "Failed to save selections: " detail), m, sent)
  | Rejected message => (Threw message, m, sent)
  end.

Definition deleteScenario (w : World) (scenarioId : Z) (m : t) : Async bool :=
  let sent := [Fetch (DeleteScenario scenarioId)] in
  match scenarioDelete w scenarioId with
  | Ok _ =>
      let m1 :=
        match currentScenarioId m with
        | Some cur => if Z.eqb cur scenarioId then setCurrentScenarioId None m else m
        | None => m
        end in
      match loadScenarios w m1 with
      | (Resolved _, m2, sent2) => (Resolved true, m2, sent ++ sent2)
      | (Threw message, m2, sent2) => (Threw message, m2, sent ++ sent2)
      end
  | NotOk status _ => (Threw (httpErrorMessage status), m, sent)
  | Rejected message => (Threw message, m, sent)
  end.

End ScenarioManager.

(** ** [DraftManager]: the local draft, one storage key per user *)
Module DraftManager.

Record t := { userId : Z }.

(** [localStorage], restricted to draft entries. *)
Definition Storage := list (string * Draft).

Definition getItem (s : Storage) (key : string) : option Draft :=
  option_map snd (find (fun kv => String.eqb (fst kv) key) s).

Definition removeItem (s : Storage) (key : string) : Storage :=
  filter (fun kv => negb (String.eqb (fst kv) key)) s.

Definition setItem (s : Storage) (key : string) (value : Draft) : Storage :=
  (key, value) :: removeItem s key.

(** [const uid = this.userId || 0] leaves a number as it is. *)
Definition getDraftKey (d : t) : string :=
  String.append "capabilityWorksheetDraft:v1:user:" (string_of_Z (userId d)).

Definition hasDraft (w : World) (d : t) (s : Storage) : bool :=
  if storageThrows w then false
  else match getItem s (getDraftKey d) with Some _ => true | None => false end.

Definition orEmpty (o : option JSSet.t) : list string :=
  match o with
  | Some s => JSSet.to_list s
  | None => []
  end.

(** Returns the success flag, the storage afterwards and the storage call made. *)
Definition persistDraft (w : World) (d : t)
    (activeCapabilities activeControls : option JSSet.t) (s : Storage)
  : bool * Storage * list Event :=
  let data := {| activeCapabilityIds := orEmpty activeCapabilities;
                 activeControlIds := orEmpty activeControls;
                 updatedAt := clock w |} in
  let called := [StorageSetItem (getDraftKey d) data] in
  if storageThrows w then (false, s, called)
  else (true, setItem s (getDraftKey d) data, called).

Definition restoreDraft (w : World) (d : t) (s : Storage)
  : option (list string * list string) :=
  if storageThrows w then None
  else match getItem s (getDraftKey d) with
       | None => None
       | Some data => Some (activeCapabilityIds data, activeControlIds data)
       end.

Definition clearDraft (w : World) (d : t) (s : Storage) : Storage * list Event :=
  let called := [StorageRemoveItem (getDraftKey d)] in
  if storageThrows w then (s, called) else (removeItem s (getDraftKey d), called).

End DraftManager.

(** ** The dashboard object *)

Record Dashboard := {
  treeData : option (list Capability);
  activeCapabilities : option JSSet.t;
  activeControls : option JSSet.t;
  previousMetrics : Previous.t;
  scenarioManager : option ScenarioManager.t;
  currentScenarioId : option Z;
  userId : option Z;
  draftManager : DraftManager.t;
  localStorage : DraftManager.Storage;
  autoSaveTimer : bool;            (* a debounced save is pending *)
  log : list Event
}.

(** State of a freshly constructed dashboard ([DashboardCore],
    [DashboardMetrics] and [DashboardScenarios] constructors). *)
Definition newDashboard (storage : DraftManager.Storage) : Dashboard :=
  {| treeData := None;
     activeCapabilities := Some JSSet.empty;
     activeControls := Some JSSet.empty;
     previousMetrics := Previous.initial;
     scenarioManager := None;
     currentScenarioId := None;
     userId := None;
     draftManager := {| DraftManager.userId := 1 |};
     localStorage := storage;
     autoSaveTimer := false;
     log := [] |}.

Definition set_treeData (v : option (list Capability)) (st : Dashboard) : Dashboard :=
  {| treeData := v; activeCapabilities := activeCapabilities st;
     activeControls := activeControls st; previousMetrics := previousMetrics st;
     scenarioManager := scenarioManager st; currentScenarioId := currentScenarioId st;
     userId := userId st; draftManager := draftManager st;
     localStorage := localStorage st; autoSaveTimer := autoSaveTimer st;
     log := log st |}.

Definition set_activeCapabilities (v : option JSSet.t) (st : Dashboard) : Dashboard :=
  {| treeData := treeData st; activeCapabilities := v;
     activeControls := activeControls st; previousMetrics := previousMetrics st;
     scenarioManager := scenarioManager st; currentScenarioId := currentScenarioId st;
     userId := userId st; draftManager := draftManager st;
     localStorage := localStorage st; autoSaveTimer := autoSaveTimer st;
     log := log st |}.

Definition set_activeControls (v : option JSSet.t) (st : Dashboard) : Dashboard :=
  {| treeData := treeData st; activeCapabilities := activeCapabilities st;
     activeControls := v; previousMetrics := previousMetrics st;
     scenarioManager := scenarioManager st; currentScenarioId := currentScenarioId st;
     userId := userId st; draftManager := draftManager st;
     localStorage := localStorage st; autoSaveTimer := autoSaveTimer st;
     log := log st |}.

Definition set_previousMetrics (v : Previous.t) (st : Dashboard) : Dashboard :=
  {| treeData := treeData st; activeCapabilities := activeCapabilities st;
     activeControls := activeControls st; previousMetrics := v;
     scenarioManager := scenarioManager st; currentScenarioId := currentScenarioId st;
     userId := userId st; draftManager := draftManager st;
     localStorage := localStorage st; autoSaveTimer := autoSaveTimer st;
     log := log st |}.

Definition set_scenarioManager (v : option ScenarioManager.t) (st : Dashboard) : Dashboard :=
  {| treeData := treeData st; activeCapabilities := activeCapabilities st;
     activeControls := activeControls st; previousMetrics := previousMetrics st;
     scenarioManager := v; currentScenarioId := currentScenarioId st;
     userId := userId st; draftManager := draftManager st;
     localStorage := localStorage st; autoSaveTimer := autoSaveTimer st;
     log := log st |}.

Definition set_currentScenarioId (v : option Z) (st : Dashboard) : Dashboard :=
  {| treeData := treeData st; activeCapabilities := activeCapabilities st;
     activeControls := activeControls st; previousMetrics := previousMetrics st;
     scenarioManager := scenarioManager st; currentScenarioId := v;
     userId := userId st; draftManager := draftManager st;
     localStorage := localStorage st; autoSaveTimer := autoSaveTimer st;
     log := log st |}.

Definition set_userId (v : option Z) (st : Dashboard) : Dashboard :=
  {| treeData := treeData st; activeCapabilities := activeCapabilities st;
     activeControls := activeControls st; previousMetrics := previousMetrics st;
     scenarioManager := scenarioManager st; currentScenarioId := currentScenarioId st;
     userId := v; draftManager := draftManager st;
     localStorage := localStorage st; autoSaveTimer := autoSaveTimer st;
     log := log st |}.

Definition set_localStorage (v : DraftManager.Storage) (st : Dashboard) : Dashboard :=
  {| treeData := treeData st; activeCapabilities := activeCapabilities st;
     activeControls := activeControls st; previousMetrics := previousMetrics st;
     scenarioManager := scenarioManager st; currentScenarioId := currentScenarioId st;
     userId := userId st; draftManager := draftManager st;
     localStorage := v; autoSaveTimer := autoSaveTimer st;
     log := log st |}.

Definition set_autoSaveTimer (v : bool) (st : Dashboard) : Dashboard :=
  {| treeData := treeData st; activeCapabilities := activeCapabilities st;
     activeControls := activeControls st; previousMetrics := previousMetrics st;
     scenarioManager := scenarioManager st; currentScenarioId := currentScenarioId st;
     userId := userId st; draftManager := draftManager st;
     localStorage := localStorage st; autoSaveTimer := v;
     log := log st |}.

(** Append to the page's output, in the order things happen. *)
Definition emits (es : list Event) (st : Dashboard) : Dashboard :=
  {| treeData := treeData st; activeCapabilities := activeCapabilities st;
     activeControls := activeControls st; previousMetrics := previousMetrics st;
     scenarioManager := scenarioManager st; currentScenarioId := currentScenarioId st;
     userId := userId st; draftManager := draftManager st;
     localStorage := localStorage st; autoSaveTimer := autoSaveTimer st;
     log := log st ++ es |}.

Definition emit (e : Event) (st : Dashboard) : Dashboard := emits [e] st.

(** ** Page primitives *)

Definition showStatusMessage (message : string) (type : Level) (st : Dashboard)
  : Dashboard := emit (StatusMessage message type) st.

Definition updateSaveStatus (status : SaveStatus) (st : Dashboard) : Dashboard :=
  emit (SaveStatusUpdate status) st.

Definition showError (message : string) (st : Dashboard) : Dashboard :=
  emit (ErrorBanner message) st.

(** Message of the [TypeError] raised by a method call on [null]. *)
Definition nullDereference : string := "Cannot read properties of null".

(** [createVerticalTree]: without tree data it shows the error banner and
    returns; otherwise it redraws the capability cards.  Drawing reads the
    selection through [createCapabilityColumn] (modelled below) and does
    not change the members of either set (at most it creates a missing
    [activeControls] empty, which is not recorded here); layout, filters
    and sorting are not modelled. *)
Definition createVerticalTree (st : Dashboard) : Dashboard :=
  match treeData st with
  | None | Some [] => showError "No capability data available" st
  | Some (_ :: _) => emit TreeRendered st
  end.

(** [if (!this.activeCapabilities) this.activeCapabilities = new Set()] *)
Definition ensureActiveCapabilities (st : Dashboard) : Dashboard :=
  match activeCapabilities st with
  | Some _ => st
  | None => set_activeCapabilities (Some JSSet.empty) st
  end.

(** [if (!this.activeControls) this.activeControls = new Set()] *)
Definition ensureActiveControls (st : Dashboard) : Dashboard :=
  match activeControls st with
  | Some _ => st
  | None => set_activeControls (Some JSSet.empty) st
  end.

(** The members of a set field, none when the field is unset. *)
Definition members (o : option JSSet.t) : JSSet.t :=
  match o with
  | Some s => s
  | None => JSSet.empty
  end.

(** ** [DashboardMetrics] *)

(** The request body built at the start of [recalculateMetrics];
    [None] when [Array.from(this.activeCapabilities)] throws on [null]. *)
Definition requestPayload (st : Dashboard) : option AnalysisRequest :=
  match activeCapabilities st with
  | None => None
  | Some caps =>
      let activeCapabilityIds := JSSet.to_list caps in
      let activeControlIds := option_map JSSet.to_list (activeControls st) in
      Some {| capability_ids := activeCapabilityIds;
              control_ids :=
                match activeControlIds with
                | Some ids => if Nat.ltb 0 (List.length ids) then Some ids else None
                | None => None
                end |}
  end.

(** Color of the change indicator on the partially-covered card. *)
Definition partiallyCoveredColor (change exposedChange activeRisksChange : Z) : Color :=
  if (change >? 0)%Z then
    if (exposedChange <? 0)%Z then green
    else if (activeRisksChange <? 0)%Z then yellow
    else yellow
  else
    if (activeRisksChange >? 0)%Z then green
    else if (exposedChange >? 0)%Z then yellow
    else green.

Definition updateActiveControlsCard (w : World) (metrics : Metrics) (st : Dashboard)
  : Dashboard :=
  if hasActiveControlsCard w then
    let value := orZero (active_controls metrics) in
    let previous := Previous.active_controls (previousMetrics st) in
    let st1 :=
      match previous with
      | Some previous =>
          if negb (Z.eqb previous value) then
            let change := (value - previous)%Z in
            let colorType := if (change >? 0)%Z then green else yellow in
            emit (MetricAnimated card_active_controls change colorType) st
          else st
      | None => st
      end in
    let p := previousMetrics st1 in
    set_previousMetrics
      {| Previous.active_controls := Some value;
         Previous.exposed_risks := Previous.exposed_risks p;
         Previous.partially_covered_risks := Previous.partially_covered_risks p;
         Previous.active_risks := Previous.active_risks p |} st1
  else st.

Definition updatePartiallyCoveredCard (w : World) (metrics : Metrics)
    (prevExposed prevActiveRisks prevPartially : option Z) (st : Dashboard)
  : Dashboard :=
  if hasPartiallyCoveredCard w then
    let value := orZero (partially_covered_risks metrics) in
    let st1 :=
      match prevPartially with
      | Some previous =>
          if negb (Z.eqb previous value) then
            let change := (value - previous)%Z in
            let newExposed := orZero (exposed_risks metrics) in
            let newActiveRisks := orZero (active_risks metrics) in
            let exposedChange :=
              match prevExposed with
              | Some p => (newExposed - p)%Z
              | None => 0%Z
              end in
            let activeRisksChange :=
              match prevActiveRisks with
              | Some p => (newActiveRisks - p)%Z
              | None => 0%Z
              end in
            emit (MetricAnimated card_partially_covered change
                    (partiallyCoveredColor change exposedChange activeRisksChange)) st
          else st
      | None => st
      end in
    let p := previousMetrics st1 in
    set_previousMetrics
      {| Previous.active_controls := Previous.active_controls p;
         Previous.exposed_risks := Previous.exposed_risks p;
         Previous.partially_covered_risks := Some value;
         Previous.active_risks := Previous.active_risks p |} st1
  else st.

Definition updateExposedRisksCard (w : World) (metrics : Metrics)
    (prevExposed : option Z) (st : Dashboard) : Dashboard :=
  if hasExposedRisksCard w then
    let value := orZero (exposed_risks metrics) in
    let st1 :=
      match prevExposed with
      | Some previous =>
          if negb (Z.eqb previous value) then
            let change := (value - previous)%Z in
            let colorType := if (change >? 0)%Z then red else green in
            emit (MetricAnimated card_exposed_risks change colorType) st
          else st
      | None => st
      end in
    let p := previousMetrics st1 in
    set_previousMetrics
      {| Previous.active_controls := Previous.active_controls p;
         Previous.exposed_risks := Some value;
         Previous.partially_covered_risks := Previous.partially_covered_risks p;
         Previous.active_risks := Previous.active_risks p |} st1
  else st.

(** Differences computed by [calculateMetricChanges]; [None] is [NaN]
    (a count missing from the response, read without [|| 0]). *)
Module Changes.
Record t := {
  hasChanges : bool;
  active_controls : option Z;
  exposed_risks : option Z;
  partially_covered_risks : option Z;
  active_risks : option Z
}.
End Changes.

Definition jsMinus (a : option Z) (b : Z) : option Z :=
  option_map (fun x => (x - b)%Z) a.

(** [x !== 0], true on [NaN]. *)
Definition notZero (c : option Z) : bool :=
  match c with
  | Some z => negb (Z.eqb z 0)
  | None => true
  end.

Definition calculateMetricChanges (newMetrics : Metrics) (st : Dashboard) : Changes.t :=
  let p := previousMetrics st in
  let ac := jsMinus (active_controls newMetrics) (orZero (Previous.active_controls p)) in
  let er := jsMinus (exposed_risks newMetrics) (orZero (Previous.exposed_risks p)) in
  let pc := jsMinus (partially_covered_risks newMetrics)
                    (orZero (Previous.partially_covered_risks p)) in
  let ar := Some (orZero (active_risks newMetrics) - orZero (Previous.active_risks p))%Z in
  {| Changes.hasChanges := notZero ac || notZero er || notZero pc || notZero ar;
     Changes.active_controls := ac;
     Changes.exposed_risks := er;
     Changes.partially_covered_risks := pc;
     Changes.active_risks := ar |}.

(** [`${c > 0 ? '+' : ''}${c} label`], pushed only when [c !== 0]. *)
Definition changePart (c : option Z) (label : string) : list string :=
  if notZero c then
    match c with
    | Some z =>
        [String.append (if (z >? 0)%Z then "+" else EmptyString)
                       (String.append (string_of_Z z) label)]
    | None => [String.append "NaN" label]
    end
  else [].

Definition showMetricChangeSummary (changes : Changes.t) (st : Dashboard) : Dashboard :=
  if negb (Changes.hasChanges changes) then st
  else
    let parts :=
      changePart (Changes.active_controls changes) " controls"
      ++ changePart (Changes.exposed_risks changes) " exposed risks"
      ++ changePart (Changes.partially_covered_risks changes) " partial risks"
      ++ changePart (Changes.active_risks changes) " covered risks" in
    match parts with
    | [] => st
    | _ :: _ =>
        showStatusMessage
          (String.append "Metrics updated: " (String.concat ", " parts)) info st
    end.

(** The second half of [recalculateMetrics]: writing the response to the
    metric cards, remembering the values shown, and summarising.  The two
    cards that only display text (total capabilities, assigned controls)
    emit nothing and keep no previous value; they are left out. *)
Definition updateMetricCards (w : World) (metrics : Metrics) (st0 : Dashboard)
  : Dashboard :=
  let st1 := updateActiveControlsCard w metrics st0 in
  let prevExposed := Previous.exposed_risks (previousMetrics st1) in
  let prevActiveRisks := Previous.active_risks (previousMetrics st1) in
  let prevPartially := Previous.partially_covered_risks (previousMetrics st1) in
  let st2 := updatePartiallyCoveredCard w metrics
               prevExposed prevActiveRisks prevPartially st1 in
  let st3 := updateExposedRisksCard w metrics prevExposed st2 in
  let p := previousMetrics st3 in
  let st4 :=
    set_previousMetrics
      {| Previous.active_controls := Previous.active_controls p;
         Previous.exposed_risks := Previous.exposed_risks p;
         Previous.partially_covered_risks := Previous.partially_covered_risks p;
         Previous.active_risks := Some (orZero (active_risks metrics)) |} st3 in
  match Previous.active_controls (previousMetrics st4) with
  | Some _ =>
      let changes := calculateMetricChanges metrics st4 in
      if Changes.hasChanges changes then showMetricChangeSummary changes st4
      else st4
  | None => st4
  end.

(** [recalculateMetrics]: one server round trip, then the metric cards.
    Any failure inside is caught and shown on the error banner.  The
    unique-control highlighting started at the end is not awaited and is
    left out. *)
Definition recalculateMetrics (w : World) (st : Dashboard) : Dashboard :=
  match requestPayload st with
  | None => showError "Could not update metrics." st
  | Some payload =>
      let st0 := emit (Fetch (PostCapabilityAnalysis payload)) st in
      match capabilityAnalysis w payload with
      | NotOk _ _ | Rejected _ => showError "Could not update metrics." st0
      | Ok metrics => updateMetricCards w metrics st0
      end
  end.

(** ** [DashboardTreeRenderer] *)

(** CSS class of a capability card: the activation status shown to the user. *)
Inductive BoxClass := inactive | fully_active | partially_active | active.

(** The status part of [createCapabilityColumn]: the two flags, then the
    class attribute.  It throws when [activeCapabilities] is [null], and
    creates [activeControls] when it is missing. *)
Definition createCapabilityColumn (capability : Capability) (st : Dashboard)
  : Completion BoxClass * Dashboard :=
  match activeCapabilities st with
  | None => (Threw nullDereference, st)
  | Some caps =>
      let isActive := JSSet.has caps (capability_id capability) in
      let controls := match controls capability with Some cs => cs | None => [] end in
      let '(isFullyActive, isPartiallyActive, st1) :=
        if isActive && Nat.ltb 0 (List.length controls) then
          let st1 := ensureActiveControls st in
          let activeControlsCount :=
            List.length
              (filter (fun c => JSSet.has (members (activeControls st1)) (control_id c))
                      controls) in
          if Nat.eqb activeControlsCount (List.length controls)
          then (true, false, st1)
          else (false, true, st1)
        else if isActive && Nat.eqb (List.length controls) 0 then (false, true, st)
        else (false, false, st) in
      let class :=
        if isActive then
          if isFullyActive then fully_active
          else if isPartiallyActive then partially_active
          else active
        else inactive in
      (Resolved class, st1)
  end.

(** ** [DashboardScenarios]: debounced auto-save (scheduling side) *)

(** [scheduleAutoSave]: cancel a pending timer, mark unsaved, start the
    2-second timer again. *)
Definition scheduleAutoSave (st : Dashboard) : Dashboard :=
  set_autoSaveTimer true (updateSaveStatus unsaved (set_autoSaveTimer false st)).

(** [toggleCapability]: flip the capability and cascade to its controls,
    then redraw, recalculate, mark unsaved and schedule the auto-save.
    A missing capability or a falsy id is rejected without any change. *)
Definition toggleCapability (w : World) (capability : option Capability)
    (st : Dashboard) : Dashboard :=
  match capability with
  | None => st
  | Some capability =>
      if negb (truthy (capability_id capability)) then st
      else
        let st1 := ensureActiveControls (ensureActiveCapabilities st) in
        let caps := members (activeCapabilities st1) in
        let ctrls := members (activeControls st1) in
        let wasActive := JSSet.has caps (capability_id capability) in
        let st2 :=
          if wasActive then
            let st' :=
              set_activeCapabilities
                (Some (JSSet.delete caps (capability_id capability))) st1 in
            match controls capability with
            | Some cs =>
                set_activeControls
                  (Some (JSSet.delete_all ctrls (control_ids_of cs))) st'
            | None => st'
            end
          else
            let st' :=
              set_activeCapabilities
                (Some (JSSet.add caps (capability_id capability))) st1 in
            match controls capability with
            | Some cs =>
                set_activeControls
                  (Some (JSSet.add_all ctrls (control_ids_of cs))) st'
            | None => st'
            end in
        let st3 := createVerticalTree st2 in
        let st4 := recalculateMetrics w st3 in
        let st5 := updateSaveStatus unsaved st4 in
        scheduleAutoSave st5
  end.

(** The change handler of a control checkbox in the capability modal.
    The boolean tells whether the checkbox keeps its new state: it is
    reverted when the owning capability is not active. *)
Definition toggleControl (w : World) (controlId capabilityId : string)
    (st : Dashboard) : Completion bool * Dashboard :=
  let st1 := ensureActiveControls st in
  match activeCapabilities st1 with
  | None => (Threw nullDereference, st1)
  | Some caps =>
      if negb (JSSet.has caps capabilityId) then (Resolved false, st1)
      else
        let ctrls := members (activeControls st1) in
        let st2 :=
          if JSSet.has ctrls controlId
          then set_activeControls (Some (JSSet.delete ctrls controlId)) st1
          else set_activeControls (Some (JSSet.add ctrls controlId)) st1 in
        (Resolved true, scheduleAutoSave (recalculateMetrics w st2))
  end.

(** One step of the inner [forEach] of [serializeControlSelections]: the
    [Map] keyed by control id is an association list in insertion order. *)
Definition visitControl (ctrls : JSSet.t) (m : list CtlSel.t) (control : ControlRef)
  : list CtlSel.t :=
  if truthy (control_id control) then
    let isActive := JSSet.has ctrls (control_id control) in
    match find (fun e => String.eqb (CtlSel.control_id e) (control_id control)) m with
    | None =>
        m ++ [{| CtlSel.control_id := control_id control; CtlSel.is_active := isActive |}]
    | Some existing =>
        if isActive && negb (CtlSel.is_active existing) then
          map (fun e =>
                 if String.eqb (CtlSel.control_id e) (control_id control)
                 then {| CtlSel.control_id := CtlSel.control_id e;
                         CtlSel.is_active := true |}
                 else e) m
        else m
    end
  else m.

(** One step of the outer [forEach] over the active capability ids. *)
Definition visitCapability (tree : list Capability) (ctrls : JSSet.t)
    (m : list CtlSel.t) (capabilityId : string) : list CtlSel.t :=
  match findCapability tree capabilityId with
  | Some capability =>
      match controls capability with
      | Some cs => fold_left (visitControl ctrls) cs m
      | None => m
      end
  | None => m
  end.

Definition serializeControlSelections (st : Dashboard) : list CtlSel.t * Dashboard :=
  match treeData st with
  | None => ([], st)
  | Some tree =>
      let st1 := ensureActiveControls st in
      match activeCapabilities st1 with
      | Some caps =>
          (fold_left (visitCapability tree (members (activeControls st1))) caps [], st1)
      | None => ([], st1)
      end
  end.

(** ** [DashboardScenarios] *)

Definition serializeSelections (st : Dashboard) : Selections * Dashboard :=
  let st1 := ensureActiveCapabilities st in
  match treeData st1 with
  | None => ({| selections := []; control_selections := [] |}, st1)
  | Some tree =>
      let capabilitySelections :=
        map (fun cap =>
               {| CapSel.capability_id := capability_id cap;
                  CapSel.is_active :=
                    JSSet.has (members (activeCapabilities st1)) (capability_id cap) |})
            tree in
      let '(controlSelections, st2) := serializeControlSelections st1 in
      ({| selections := capabilitySelections;
          control_selections := controlSelections |}, st2)
  end.

(** [error.message || fallback] *)
Definition messageOr (message fallback : string) : string :=
  if truthy message then message else fallback.

(** [scenarioManager && scenarioManager.getCurrentScenarioId()], as an id
    when truthy: the scenario bound to the session. *)
Definition boundScenario (st : Dashboard) : option Z :=
  match scenarioManager st with
  | None => None
  | Some m =>
      if truthy_num (ScenarioManager.getCurrentScenarioId m)
      then ScenarioManager.getCurrentScenarioId m
      else None
  end.

Definition persistDraft (w : World) (st : Dashboard) : Dashboard :=
  let '(succeeded, storage, called) :=
    DraftManager.persistDraft w (draftManager st)
      (activeCapabilities st) (activeControls st) (localStorage st) in
  let st1 := set_localStorage storage (emits called st) in
  if succeeded then updateSaveStatus saved st1 else updateSaveStatus save_error st1.

Definition clearDraft (w : World) (st : Dashboard) : Dashboard :=
  let '(storage, called) :=
    DraftManager.clearDraft w (draftManager st) (localStorage st) in
  set_localStorage storage (emits called st).

Definition noWorksheetSelected : string :=
  "No worksheet selected. Use Save As… to name and save, or continue editing to keep a local draft.".

Definition saveScenario (w : World) (st : Dashboard) : Dashboard :=
  match boundScenario st, scenarioManager st with
  | Some id, Some m =>
      let st1 := updateSaveStatus saving st in
      let '(body, st2) := serializeSelections st1 in
      match ScenarioManager.updateScenario w id body m with
      | (Resolved _, m', sent) =>
          let st3 := set_scenarioManager (Some m') (emits sent st2) in
          let st4 := updateSaveStatus saved st3 in
          let st5 := showStatusMessage "Scenario saved successfully" success st4 in
          clearDraft w st5
      | (Threw message, m', sent) =>
          let st3 := set_scenarioManager (Some m') (emits sent st2) in
          let st4 := updateSaveStatus save_error st3 in
          showStatusMessage (messageOr message "Error saving scenario") error st4
      end
  | _, _ =>
      let st1 := showStatusMessage noWorksheetSelected warning st in
      persistDraft w st1
  end.

(** What the auto-save timer runs when it fires. *)
Definition autoSaveTimeout (w : World) (st : Dashboard) : Dashboard :=
  match boundScenario st with
  | Some _ => saveScenario w st
  | None => persistDraft w st
  end.

(** [fetchUserId] *)
Definition fetchUserId (w : World) : Completion Z * list Event :=
  let sent := [Fetch GetCurrentUser] in
  match currentUser w with
  | Ok (Some uid) =>
      if Z.eqb uid 0 then (Threw "User ID not found in response", sent)
      else (Resolved uid, sent)
  | Ok None => (Threw "User ID not found in response", sent)
  | NotOk status _ =>
      if Z.eqb status 401 then (Threw "Authentication required. Please log in.", sent)
      else (Threw (String.append "Failed to fetch user ID: " (string_of_Z status)), sent)
  | Rejected message => (Threw message, sent)
  end.

(** Activate every capability saved with [is_active = true]. *)
Definition applySelections (sels : list CapSel.t) (caps : JSSet.t) : JSSet.t :=
  fold_left
    (fun s selection =>
       if CapSel.is_active selection
       then JSSet.add s (CapSel.capability_id selection) else s)
    sels caps.

(** Activate every control saved with [is_active = true]. *)
Definition applyControlSelections (sels : list CtlSel.t) (ctrls : JSSet.t) : JSSet.t :=
  fold_left
    (fun s controlSelection =>
       if CtlSel.is_active controlSelection
       then JSSet.add s (CtlSel.control_id controlSelection) else s)
    sels ctrls.

(** Back-compat default: every control of every active capability. *)
Definition activateControlsOf (tree : list Capability) (caps : JSSet.t)
    (ctrls : JSSet.t) : JSSet.t :=
  fold_left
    (fun s capabilityId =>
       match findCapability tree capabilityId with
       | Some capability =>
           match controls capability with
           | Some cs => JSSet.add_all s (control_ids_of cs)
           | None => s
           end
       | None => s
       end)
    caps ctrls.

(** The part of [loadScenario] that runs once the scenario has arrived. *)
Definition applyScenario (w : World) (scenarioId : Z) (scenario : Scenario.t)
    (st : Dashboard) : Dashboard :=
  let st1 := set_currentScenarioId (Some scenarioId) st in
  let st2 := ensureActiveCapabilities st1 in
  let st3 :=
    set_activeCapabilities
      (Some (applySelections (Scenario.selections scenario) (JSSet.clear
               (members (activeCapabilities st2))))) st2 in
  let st4 := ensureActiveControls st3 in
  let st5 := set_activeControls (Some (JSSet.clear (members (activeControls st4)))) st4 in
  let st6 :=
    match treeData st5 with
    | Some _ => st5
    | None =>
        let st' := emit (Fetch GetCapabilityTree) st5 in
        match capabilityTree w with
        | Ok tree => set_treeData (Some tree) st'
        | NotOk _ _ | Rejected _ => st'
        end
    end in
  let caps := members (activeCapabilities st6) in
  let ctrls := members (activeControls st6) in
  let restored :=
    match Scenario.control_selections scenario with
    | Some (c :: cs) => applyControlSelections (c :: cs) ctrls
    | Some [] | None =>
        match treeData st6 with
        | Some tree => activateControlsOf tree caps ctrls
        | None => ctrls
        end
    end in
  let st7 := set_activeControls (Some restored) st6 in
  let st8 := createVerticalTree st7 in
  let st9 := recalculateMetrics w st8 in
  let st10 := updateSaveStatus saved st9 in
  showStatusMessage
    (String.append "Loaded scenario: " (Scenario.scenario_name scenario)) success st10.

Definition loadScenario (w : World) (scenarioId : option Z) (st : Dashboard)
  : Completion unit * Dashboard :=
  let withUser :=
    if truthy_num (userId st) then (Resolved tt, st)
    else
      match fetchUserId w with
      | (Resolved uid, sent) => (Resolved tt, set_userId (Some uid) (emits sent st))
      | (Threw message, sent) => (Threw message, emits sent st)
      end in
  match withUser with
  | (Threw message, st0) =>
      (Resolved tt, showStatusMessage (messageOr message "Authentication required") error st0)
  | (Resolved _, st0) =>
      let m :=
        match scenarioManager st0 with
        | Some m => m
        | None => ScenarioManager.new (orZero (userId st0))
        end in
      if negb (truthy_num scenarioId) then
        let st1 :=
          set_currentScenarioId None
            (set_scenarioManager (Some (ScenarioManager.setCurrentScenarioId None m)) st0) in
        match activeCapabilities st1 with
        | None => (Threw nullDereference, st1)
        | Some caps =>
            let st2 := set_activeCapabilities (Some (JSSet.clear caps)) st1 in
            let st3 :=
              match activeControls st2 with
              | Some ctrls => set_activeControls (Some (JSSet.clear ctrls)) st2
              | None => st2
              end in
            let st4 := createVerticalTree st3 in
            let st5 := recalculateMetrics w st4 in
            (Resolved tt, updateSaveStatus none st5)
        end
      else
        match ScenarioManager.loadScenario w scenarioId m with
        | (Resolved (Some scenario), m', sent) =>
            let st1 :=
              set_scenarioManager
                (Some (ScenarioManager.setCurrentScenarioId scenarioId m'))
                (emits sent st0) in
            (Resolved tt, applyScenario w (orZero scenarioId) scenario st1)
        | (Resolved None, m', sent) | (Threw _, m', sent) =>
            let st1 := set_scenarioManager (Some m') (emits sent st0) in
            (Resolved tt, showStatusMessage "Error loading scenario" error st1)
        end
  end.

Definition deleteScenario (w : World) (st : Dashboard) : Dashboard :=
  match boundScenario st, scenarioManager st with
  | Some id, Some m =>
      let scenarioName :=
        match ScenarioManager.getScenario m id with
        | Some scenario => Scenario.scenario_name scenario
        | None => "this scenario"
        end in
      if negb (confirmAnswer w) then st
      else
        match ScenarioManager.deleteScenario w id m with
        | (Resolved _, m', sent) =>
            let st1 := set_scenarioManager (Some m') (emits sent st) in
            match activeCapabilities st1 with
            | None => showStatusMessage nullDereference error st1
            | Some caps =>
                let st2 := set_activeCapabilities (Some (JSSet.clear caps)) st1 in
                let st3 := createVerticalTree st2 in
                let st4 := recalculateMetrics w st3 in
                let st5 := updateSaveStatus none st4 in
                let st6 :=
                  showStatusMessage
                    (String.append "Deleted scenario: " scenarioName) success st5 in
                let st7 := clearDraft w st6 in
                set_currentScenarioId None
                  (set_scenarioManager
                     (Some (ScenarioManager.setCurrentScenarioId None m')) st7)
            end
        | (Threw message, m', sent) =>
            let st1 := set_scenarioManager (Some m') (emits sent st) in
            showStatusMessage (messageOr message "Error deleting scenario") error st1
        end
  | _, _ => showStatusMessage "No scenario selected to delete" warning st
  end.

(** ** Predicates used in the statements *)

(** [st'] differs from [st] at most in the log and the previous metrics. *)
Definition sameSession (st st' : Dashboard) : Prop :=
  treeData st' = treeData st
  /\ activeCapabilities st' = activeCapabilities st
  /\ activeControls st' = activeControls st
  /\ scenarioManager st' = scenarioManager st
  /\ currentScenarioId st' = currentScenarioId st
  /\ userId st' = userId st
  /\ draftManager st' = draftManager st
  /\ localStorage st' = localStorage st
  /\ autoSaveTimer st' = autoSaveTimer st.



(** The log of [st'] is the log of [st] followed by events that all satisfy [P]. *)
Definition logGrows (P : Event -> Prop) (st st' : Dashboard) : Prop :=
  exists es, log st' = log st ++ es /\ Forall P es.

(** Events that stay on the page: no request, no storage call. *)
Definition onPage (e : Event) : Prop :=
  match e with
  | Fetch _ | StorageSetItem _ _ | StorageRemoveItem _ => False
  | _ => True
  end.

(** A partially-covered animation is the only event this predicate rejects. *)
Definition notPartialCard (e : Event) : Prop :=
  match e with
  | MetricAnimated card_partially_covered _ _ => False
  | _ => True
  end.

(** ** Sample session

    A tree of three capabilities: A and B share control C-2, and the third
    has no controls.  The sample world answers every request. *)

Definition ctl (id : string) : ControlRef :=
  {| control_id := id; control_title := String.append "Control " id |}.

Definition capA : Capability :=
  {| capability_id := "CAP-A"; capability_name := "Access management";
     controls := Some [ctl "C-1"; ctl "C-2"] |}.

Definition capB : Capability :=
  {| capability_id := "CAP-B"; capability_name := "Logging";
     controls := Some [ctl "C-2"; ctl "C-3"] |}.

Definition capC : Capability :=
  {| capability_id := "CAP-C"; capability_name := "Governance";
     controls := Some [] |}.

Definition sampleTree : list Capability := [capA; capB; capC].

Definition metricsOf (controlsActive covered partial exposed : Z) : Metrics :=
  {| total_controls := Some 3%Z;
     controls_in_capabilities := Some 3%Z;
     active_controls := Some controlsActive;
     active_risks := Some covered;
     partially_covered_risks := Some partial;
     exposed_risks := Some exposed |}.

Definition sampleScenario : Scenario.t :=
  {| Scenario.scenario_id := 7%Z;
     Scenario.scenario_name := "Baseline";
     Scenario.is_default := false;
     Scenario.selections :=
       [{| CapSel.capability_id := "CAP-A"; CapSel.is_active := true |};
        {| CapSel.capability_id := "CAP-B"; CapSel.is_active := false |};
        {| CapSel.capability_id := "CAP-C"; CapSel.is_active := false |}];
     Scenario.control_selections :=
       Some [{| CtlSel.control_id := "C-1"; CtlSel.is_active := true |};
             {| CtlSel.control_id := "C-2"; CtlSel.is_active := false |}] |}.

(** A world whose analysis endpoint reports the given metrics. *)
Definition worldReporting (metrics : Metrics) (scenario : Scenario.t) : World :=
  {| capabilityAnalysis := fun _ => Ok metrics;
     capabilityTree := Ok sampleTree;
     scenarioList := fun _ => Ok [];
     scenarioById := fun _ => Ok scenario;
     scenarioUpdate := fun _ _ => Ok tt;
     scenarioDelete := fun _ => Ok tt;
     currentUser := Ok (Some 1%Z);
     confirmAnswer := true;
     storageThrows := false;
     clock := "2025-01-01T00:00:00.000Z";
     hasActiveControlsCard := true;
     hasPartiallyCoveredCard := true;
     hasExposedRisksCard := true |}.

Definition sampleWorld : World := worldReporting (metricsOf 3 3 5 2) sampleScenario.

(** The tree is loaded, user 1 is known, nothing is selected, no scenario
    is bound. *)
Definition loadedState : Dashboard :=
  set_userId (Some 1%Z)
    (set_scenarioManager (Some (ScenarioManager.new 1))
       (set_treeData (Some sampleTree) (newDashboard []))).

(** A and B active with all their controls. *)
Definition bothActive : Dashboard :=
  set_activeControls (Some ["C-1"; "C-2"; "C-3"])
    (set_activeCapabilities (Some ["CAP-A"; "CAP-B"]) loadedState).

(** A and B active, every control off, then C-2 switched on through the
    checkbox shown under capability A. *)
Definition viaCopyUnderA : Dashboard :=
  snd (toggleControl sampleWorld "C-2" "CAP-A"
         (set_activeControls (Some []) bothActive)).

(** Scenario 7 is bound, A is active with its two controls, and an older
    draft sits in local storage. *)
Definition boundState : Dashboard :=
  set_localStorage
    [("capabilityWorksheetDraft:v1:user:1",
      {| activeCapabilityIds := ["CAP-B"]; activeControlIds := ["C-3"];
         updatedAt := "2024-12-31T00:00:00.000Z" |})]
    (set_currentScenarioId (Some 7%Z)
       (set_scenarioManager
          (Some {| ScenarioManager.userId := 1;
                   ScenarioManager.scenarios := [sampleScenario];
                   ScenarioManager.currentScenarioId := Some 7%Z |})
          (set_activeControls (Some ["C-1"; "C-2"])
             (set_activeCapabilities (Some ["CAP-A"]) loadedState)))).

(** The session after a first recalculation (5 partially covered, 2
    exposed, 3 fully covered), and a world whose next report has fewer
    partially covered risks (3), more exposed ones (4) and the same number
    of fully covered ones. *)
Definition afterFirstRecalculation : Dashboard :=
  recalculateMetrics sampleWorld bothActive.

Definition worseWorld : World := worldReporting (metricsOf 3 3 3 4) sampleScenario.

(** ** Reading the serialized control selections *)

(** Control [c] is listed under a capability of the tree whose id is
    active.  "Of the tree" is what [treeData.find] resolves the id to: the
    first capability carrying it (the only one when ids are unique, see
    [findCapability_unique]). *)
Definition reachable (tree : list Capability) (caps : JSSet.t) (c : string) : Prop :=
  exists capability cs,
    In (capability_id capability) caps
    /\ findCapability tree (capability_id capability) = Some capability
    /\ controls capability = Some cs
    /\ In c (control_ids_of cs).

Definition keys (m : list CtlSel.t) : list string := map CtlSel.control_id m.

(** Every entry's flag is the control's membership in [ctrls]. *)
Definition flagsAgree (ctrls : JSSet.t) (m : list CtlSel.t) : Prop :=
  forall e, In e m -> CtlSel.is_active e = JSSet.has ctrls (CtlSel.control_id e).

(** The user id is on the dashboard already, or the current-user endpoint
    supplies a valid one. *)
Definition userKnown (w : World) (st : Dashboard) : Prop :=
  truthy_num (userId st) = true
  \/ exists uid, currentUser w = Ok (Some uid) /\ uid <> 0%Z.

(** A scenario whose [control_selections] field is present and empty. *)
Definition emptyListScenario : Scenario.t :=
  {| Scenario.scenario_id := 7%Z;
     Scenario.scenario_name := "Baseline";
     Scenario.is_default := false;
     Scenario.selections :=
       [{| CapSel.capability_id := "CAP-A"; CapSel.is_active := true |};
        {| CapSel.capability_id := "CAP-B"; CapSel.is_active := false |};
        {| CapSel.capability_id := "CAP-C"; CapSel.is_active := false |}];
     Scenario.control_selections := Some [] |}.

(** * The rest of the worksheet workflow *)

(** ** Bulk operations of [DashboardScenarios] *)

(** One round of the [forEach] in [activateAllCapabilities]: a capability
    with a valid id is added (which throws when [activeCapabilities] is
    [null]) and its controls are added when [activeControls] exists; the
    count is [activatedCount]. *)
Definition activateStep
    (acc : Completion (option JSSet.t * option JSSet.t * nat)) (cap : Capability)
  : Completion (option JSSet.t * option JSSet.t * nat) :=
  match acc with
  | Threw message => Threw message
  | Resolved (caps, ctrls, activatedCount) =>
      if truthy (capability_id cap) then
        match caps with
        | None => Threw nullDereference
        | Some s =>
            let ctrls' :=
              match controls cap, ctrls with
              | Some cs, Some k => Some (JSSet.add_all k (control_ids_of cs))
              | _, _ => ctrls
              end in
            Resolved (Some (JSSet.add s (capability_id cap)), ctrls', S activatedCount)
        end
      else Resolved (caps, ctrls, activatedCount)
  end.

(** [activateAllCapabilities].  The only way to throw is the first valid
    capability meeting a [null] [activeCapabilities], before anything has
    been changed. *)
Definition activateAllCapabilities (w : World) (st : Dashboard)
  : Completion unit * Dashboard :=
  match treeData st with
  | None => (Resolved tt, st)
  | Some tree =>
      match fold_left activateStep tree
              (Resolved (activeCapabilities st, activeControls st, 0%nat)) with
      | Threw message => (Threw message, st)
      | Resolved (caps, ctrls, activatedCount) =>
          let st1 := set_activeControls ctrls (set_activeCapabilities caps st) in
          let st2 := createVerticalTree st1 in
          let st3 := recalculateMetrics w st2 in
          let st4 := scheduleAutoSave st3 in
          (Resolved tt,
           showStatusMessage
             (String.append "All capabilities activated ("
                (String.append (string_of_Z (Z.of_nat activatedCount)) ")"))
             success st4)
      end
  end.

(** [clearAllCapabilities] *)
Definition clearAllCapabilities (w : World) (st : Dashboard) : Dashboard :=
  match treeData st with
  | None => st
  | Some _ =>
      let st1 := ensureActiveControls (ensureActiveCapabilities st) in
      let st2 :=
        set_activeControls (Some (JSSet.clear (members (activeControls st1))))
          (set_activeCapabilities
             (Some (JSSet.clear (members (activeCapabilities st1)))) st1) in
      let st3 := createVerticalTree st2 in
      let st4 := recalculateMetrics w st3 in
      let st5 := scheduleAutoSave st4 in
      showStatusMessage "All capabilities deactivated" success st5
  end.

(** [restoreDraft] of the dashboard: both sets are rebuilt from the stored
    arrays. *)
Definition restoreDraft (w : World) (st : Dashboard) : Dashboard :=
  match DraftManager.restoreDraft w (draftManager st) (localStorage st) with
  | None => st
  | Some (capabilityIds, controlIds) =>
      let st1 :=
        set_activeControls (Some (JSSet.of_list controlIds))
          (set_activeCapabilities (Some (JSSet.of_list capabilityIds)) st) in
      recalculateMetrics w (createVerticalTree st1)
  end.

Definition set_draftManager (v : DraftManager.t) (st : Dashboard) : Dashboard :=
  {| treeData := treeData st; activeCapabilities := activeCapabilities st;
     activeControls := activeControls st; previousMetrics := previousMetrics st;
     scenarioManager := scenarioManager st; currentScenarioId := currentScenarioId st;
     userId := userId st; draftManager := v;
     localStorage := localStorage st; autoSaveTimer := autoSaveTimer st;
     log := log st |}.

(** [initializeScenarioManagement]: the user, the two managers, the
    scenario list; then the default scenario if there is one, else an empty
    capability set and the offer to restore a local draft.  A failing
    scenario list is not caught here. *)
Definition initializeScenarioManagement (w : World) (st : Dashboard)
  : Completion unit * Dashboard :=
  match fetchUserId w with
  | (Threw message, sent) =>
      (Resolved tt,
       showStatusMessage
         (messageOr message "Failed to initialize. Please refresh the page.")
         error (emits sent st))
  | (Resolved uid, sent) =>
      let st1 := set_userId (Some uid) (emits sent st) in
      let st2 :=
        set_draftManager {| DraftManager.userId := uid |}
          (set_scenarioManager (Some (ScenarioManager.new uid)) st1) in
      match ScenarioManager.loadScenarios w (ScenarioManager.new uid) with
      | (Threw message, m, sent1) =>
          (Threw message, set_scenarioManager (Some m) (emits sent1 st2))
      | (Resolved _, m, sent1) =>
          let st3 := set_scenarioManager (Some m) (emits sent1 st2) in
          match ScenarioManager.getDefaultScenario m with
          | Some defaultScenario =>
              loadScenario w (Some (Scenario.scenario_id defaultScenario)) st3
          | None =>
              match activeCapabilities st3 with
              | None => (Threw nullDereference, st3)
              | Some caps =>
                  let st4 := set_activeCapabilities (Some (JSSet.clear caps)) st3 in
                  let st5 := recalculateMetrics w st4 in
                  let st6 :=
                    if DraftManager.hasDraft w (draftManager st5) (localStorage st5)
                       && negb (truthy_num (ScenarioManager.getCurrentScenarioId m))
                    then
                      if confirmAnswer w
                      then updateSaveStatus unsaved (restoreDraft w st5)
                      else st5
                    else st5 in
                  (Resolved tt, st6)
              end
          end
      end
  end.

(** ** Predicates for the statements below *)

(** The selection invariant: every active control is listed under a
    capability of the tree whose id is active. *)
Definition controlsBacked (tree : list Capability) (caps ctrls : JSSet.t) : Prop :=
  forall c, In c ctrls -> reachable tree caps c.

(** No event of the list is a request to the server. *)
Definition noRequest (es : list Event) : Prop :=
  forall request, ~ In (Fetch request) es.

(** No event of the list animates a metric card. *)
Definition noAnimation (es : list Event) : Prop :=
  forall card change color, ~ In (MetricAnimated card change color) es.


(** The event animates the given metric card. *)
Definition onCard (card : Card) (e : Event) : Prop :=
  match e with
  | MetricAnimated c _ _ => c = card
  | _ => False
  end.

(** Capabilities of the tree that [activateAllCapabilities] acts on. *)
Definition validCapabilities (tree : list Capability) : list Capability :=
  filter (fun cap => truthy (capability_id cap)) tree.

(** Every event of the list is a request to the server. *)
Definition onlyRequests (es : list Event) : Prop :=
  forall e, In e es -> exists request, e = Fetch request.

(** A and B active with only the shared control C-2 on, and what the
    server holds after that session has been saved under id 7. *)
Definition oneControlOn : Dashboard :=
  set_activeControls (Some ["C-2"]) bothActive.

Definition savedSession : Scenario.t :=
  {| Scenario.scenario_id := 7%Z;
     Scenario.scenario_name := "Saved";
     Scenario.is_default := false;
     Scenario.selections := selections (fst (serializeSelections oneControlOn));
     Scenario.control_selections :=
       Some (control_selections (fst (serializeSelections oneControlOn))) |}.

(** A server that refuses every request. *)
Definition serverDown : World :=
  {| capabilityAnalysis := fun _ => NotOk 503 "Service Unavailable";
     capabilityTree := NotOk 503 "Service Unavailable";
     scenarioList := fun _ => NotOk 503 "Service Unavailable";
     scenarioById := fun _ => NotOk 503 "Service Unavailable";
     scenarioUpdate := fun _ _ => NotOk 503 "Service Unavailable";
     scenarioDelete := fun _ => NotOk 503 "Service Unavailable";
     currentUser := NotOk 503 "Service Unavailable";
     confirmAnswer := true;
     storageThrows := false;
     clock := "2025-01-01T00:00:00.000Z";
     hasActiveControlsCard := true;
     hasPartiallyCoveredCard := true;
     hasExposedRisksCard := true |}.

(** A server that deletes, but whose scenario list cannot be fetched. *)
Definition listDown : World :=
  {| capabilityAnalysis := capabilityAnalysis sampleWorld;
     capabilityTree := capabilityTree sampleWorld;
     scenarioList := fun _ => Rejected "Failed to fetch";
     scenarioById := scenarioById sampleWorld;
     scenarioUpdate := scenarioUpdate sampleWorld;
     scenarioDelete := scenarioDelete sampleWorld;
     currentUser := currentUser sampleWorld;
     confirmAnswer := true;
     storageThrows := false;
     clock := clock sampleWorld;
     hasActiveControlsCard := true;
     hasPartiallyCoveredCard := true;
     hasExposedRisksCard := true |}.

(** The sample scenario marked as the user's default, and a server that
    lists it. *)
Definition defaultScenario : Scenario.t :=
  {| Scenario.scenario_id := Scenario.scenario_id sampleScenario;
     Scenario.scenario_name := Scenario.scenario_name sampleScenario;
     Scenario.is_default := true;
     Scenario.selections := Scenario.selections sampleScenario;
     Scenario.control_selections := Scenario.control_selections sampleScenario |}.

Definition defaultWorld : World :=
  {| capabilityAnalysis := capabilityAnalysis sampleWorld;
     capabilityTree := capabilityTree sampleWorld;
     scenarioList := fun _ => Ok [defaultScenario];
     scenarioById := fun _ => Ok defaultScenario;
     scenarioUpdate := scenarioUpdate sampleWorld;
     scenarioDelete := scenarioDelete sampleWorld;
     currentUser := currentUser sampleWorld;
     confirmAnswer := true;
     storageThrows := false;
     clock := clock sampleWorld;
     hasActiveControlsCard := true;
     hasPartiallyCoveredCard := true;
     hasExposedRisksCard := true |}.

(** A page just opened over a storage that holds a draft of user 1. *)
Definition withOldDraft : Dashboard :=
  set_treeData (Some sampleTree) (newDashboard (localStorage boundState)).
(** * Properties *)

(** ** Facts about [JSSet] *)
Module JSSetFacts.
Import JSSet.

Lemma has_In (s : t) (x : string) : has s x = true <-> In x s.
Proof.
  unfold has. rewrite existsb_exists. split.
  - intros [y [Hy Heq]]. apply String.eqb_eq in Heq. now subst.
  - intros H. exists x. split; [assumption | apply String.eqb_refl].
Qed.

Lemma has_false_In (s : t) (x : string) : has s x = false <-> ~ In x s.
Proof.
  rewrite <- has_In. destruct (has s x); split; congruence.
Qed.

Lemma In_add (s : t) (x y : string) : In y (add s x) <-> In y s \/ y = x.
Proof.
  unfold add. destruct (has s x) eqn:E.
  - apply has_In in E. split; [tauto | intros [H | ->]; assumption].
  - rewrite in_app_iff. simpl. intuition congruence.
Qed.

Lemma In_delete (s : t) (x y : string) : In y (delete s x) <-> In y s /\ y <> x.
Proof.
  unfold delete. rewrite filter_In. split; intros [H1 H2]; split; auto.
  - intros ->. rewrite String.eqb_refl in H2. discriminate.
  - apply negb_true_iff. apply String.eqb_neq. congruence.
Qed.

Lemma has_add (s : t) (x y : string) :
  has (add s x) y = has s y || String.eqb y x.
Proof.
  apply eq_true_iff_eq. rewrite orb_true_iff, !has_In, In_add, String.eqb_eq.
  tauto.
Qed.

Lemma has_delete (s : t) (x y : string) :
  has (delete s x) y = has s y && negb (String.eqb y x).
Proof.
  apply eq_true_iff_eq.
  rewrite andb_true_iff, negb_true_iff, !has_In, In_delete, String.eqb_neq.
  tauto.
Qed.

Lemma NoDup_add (s : t) (x : string) : NoDup s -> NoDup (add s x).
Proof.
  intros H. unfold add. destruct (has s x) eqn:E; [assumption |].
  apply has_false_In in E.
  apply NoDup_app; [assumption | repeat constructor; simpl; tauto |].
  intros y Hy [<- | []]. contradiction.
Qed.

Lemma NoDup_delete (s : t) (x : string) : NoDup s -> NoDup (delete s x).
Proof. apply NoDup_filter. Qed.

Lemma In_add_all (l : list string) (s : t) (y : string) :
  In y (add_all s l) <-> In y s \/ In y l.
Proof.
  revert s. induction l as [| x l IH]; intros s; simpl.
  - tauto.
  - unfold add_all in *. simpl. rewrite IH, In_add. intuition congruence.
Qed.

Lemma In_delete_all (l : list string) (s : t) (y : string) :
  In y (delete_all s l) <-> In y s /\ ~ In y l.
Proof.
  revert s. induction l as [| x l IH]; intros s; simpl.
  - tauto.
  - unfold delete_all in *. simpl. rewrite IH, In_delete. intuition congruence.
Qed.

Lemma NoDup_add_all (l : list string) (s : t) : NoDup s -> NoDup (add_all s l).
Proof.
  revert s. induction l as [| x l IH]; intros s H; simpl; [assumption |].
  apply IH. now apply NoDup_add.
Qed.

Lemma NoDup_of_list (l : list string) : NoDup (of_list l).
Proof. apply NoDup_add_all. constructor. Qed.

End JSSetFacts.
Import JSSetFacts.

(** ** Frame facts: what the output-only steps leave alone *)

Lemma sameSession_refl (st : Dashboard) : sameSession st st.
Proof. repeat split. Qed.

Lemma sameSession_trans (a b c : Dashboard) :
  sameSession a b -> sameSession b c -> sameSession a c.
Proof.
  unfold sameSession. intros H1 H2.
  repeat match goal with H : _ /\ _ |- _ => destruct H end.
  repeat split; congruence.
Qed.

Lemma sameSession_emits (es : list Event) (st : Dashboard) : sameSession st (emits es st).
Proof. repeat split. Qed.

Lemma sameSession_previous (p : Previous.t) (st : Dashboard) :
  sameSession st (set_previousMetrics p st).
Proof. repeat split. Qed.

Ltac break_match :=
  match goal with
  | |- context [match ?x with _ => _ end] => destruct x eqn:?
  | |- context [if ?b then _ else _] => destruct b eqn:?
  end.

Lemma sameSession_activeControlsCard (w : World) (m : Metrics) (st : Dashboard) :
  sameSession st (updateActiveControlsCard w m st).
Proof.
  unfold updateActiveControlsCard, emit. repeat break_match; repeat split.
Qed.

Lemma sameSession_partiallyCoveredCard (w : World) (m : Metrics)
    (pe pa pp : option Z) (st : Dashboard) :
  sameSession st (updatePartiallyCoveredCard w m pe pa pp st).
Proof.
  unfold updatePartiallyCoveredCard, emit. repeat break_match; repeat split.
Qed.

Lemma sameSession_exposedRisksCard (w : World) (m : Metrics) (pe : option Z)
    (st : Dashboard) :
  sameSession st (updateExposedRisksCard w m pe st).
Proof.
  unfold updateExposedRisksCard, emit. repeat break_match; repeat split.
Qed.

Lemma sameSession_summary (c : Changes.t) (st : Dashboard) :
  sameSession st (showMetricChangeSummary c st).
Proof.
  unfold showMetricChangeSummary, showStatusMessage, emit.
  repeat break_match; repeat split.
Qed.

Lemma sameSession_updateMetricCards (w : World) (m : Metrics) (st0 : Dashboard) :
  sameSession st0 (updateMetricCards w m st0).
Proof.
  unfold updateMetricCards.
  set (st1 := updateActiveControlsCard w m st0).
  set (st2 := updatePartiallyCoveredCard w m _ _ _ st1).
  set (st3 := updateExposedRisksCard w m _ st2).
  set (st4 := set_previousMetrics _ st3).
  assert (H : sameSession st0 st4).
  { apply sameSession_trans with st1; [apply sameSession_activeControlsCard |].
    apply sameSession_trans with st2; [apply sameSession_partiallyCoveredCard |].
    apply sameSession_trans with st3; [apply sameSession_exposedRisksCard |].
    apply sameSession_previous. }
  repeat break_match; try assumption.
  eapply sameSession_trans; [exact H | apply sameSession_summary].
Qed.

Lemma sameSession_recalculateMetrics (w : World) (st : Dashboard) :
  sameSession st (recalculateMetrics w st).
Proof.
  unfold recalculateMetrics, showError, emit.
  destruct (requestPayload st) as [payload |]; [| apply sameSession_emits].
  destruct (capabilityAnalysis w payload) as [m | |];
    try (eapply sameSession_trans; apply sameSession_emits).
  eapply sameSession_trans; [apply sameSession_emits |].
  apply sameSession_updateMetricCards.
Qed.

Lemma sameSession_createVerticalTree (st : Dashboard) :
  sameSession st (createVerticalTree st).
Proof.
  unfold createVerticalTree, showError, emit. repeat break_match; repeat split.
Qed.

(** ** How the log grows *)

Lemma logGrows_refl (P : Event -> Prop) (st : Dashboard) : logGrows P st st.
Proof. exists []. split; [symmetry; apply app_nil_r | constructor]. Qed.

Lemma logGrows_trans (P : Event -> Prop) (a b c : Dashboard) :
  logGrows P a b -> logGrows P b c -> logGrows P a c.
Proof.
  intros [e1 [H1 F1]] [e2 [H2 F2]]. exists (e1 ++ e2). split.
  - rewrite H2, H1. symmetry. apply app_assoc.
  - apply Forall_app. now split.
Qed.

Lemma logGrows_emit (P : Event -> Prop) (e : Event) (st : Dashboard) :
  P e -> logGrows P st (emit e st).
Proof. intros H. exists [e]. split; [reflexivity | now repeat constructor]. Qed.

Lemma logGrows_previous (P : Event -> Prop) (p : Previous.t) (st : Dashboard) :
  logGrows P st (set_previousMetrics p st).
Proof. exists []. split; [symmetry; apply app_nil_r | constructor]. Qed.

Ltac grow_step :=
  first
    [ apply logGrows_refl
    | apply logGrows_previous
    | apply logGrows_emit; auto
    | eapply logGrows_trans; [| apply logGrows_previous] ].

(** The lemmas below are stated for any event predicate that admits what
    the step can emit, so that they serve both for "no request is sent" and
    for "no other animation of this card". *)
Section LogOfCards.

Variable P : Event -> Prop.

Lemma logGrows_activeControlsCard (w : World) (m : Metrics) (st : Dashboard) :
  (forall change color, P (MetricAnimated card_active_controls change color)) ->
  logGrows P st (updateActiveControlsCard w m st).
Proof.
  intros HP. unfold updateActiveControlsCard.
  repeat break_match; repeat grow_step.
Qed.

Lemma logGrows_partiallyCoveredCard (w : World) (m : Metrics)
    (pe pa pp : option Z) (st : Dashboard) :
  (forall change color, P (MetricAnimated card_partially_covered change color)) ->
  logGrows P st (updatePartiallyCoveredCard w m pe pa pp st).
Proof.
  intros HP. unfold updatePartiallyCoveredCard.
  repeat break_match; repeat grow_step.
Qed.

Lemma logGrows_exposedRisksCard (w : World) (m : Metrics) (pe : option Z)
    (st : Dashboard) :
  (forall change color, P (MetricAnimated card_exposed_risks change color)) ->
  logGrows P st (updateExposedRisksCard w m pe st).
Proof.
  intros HP. unfold updateExposedRisksCard.
  repeat break_match; repeat grow_step.
Qed.

Lemma logGrows_summary (c : Changes.t) (st : Dashboard) :
  (forall message, P (StatusMessage message info)) ->
  logGrows P st (showMetricChangeSummary c st).
Proof.
  intros HP. unfold showMetricChangeSummary, showStatusMessage.
  repeat break_match; repeat grow_step.
Qed.

(** What follows the exposed-risks card in [updateMetricCards]. *)
Lemma logGrows_afterCards (m : Metrics) (st3 : Dashboard) (p : Previous.t) :
  (forall message, P (StatusMessage message info)) ->
  let st4 := set_previousMetrics p st3 in
  logGrows P st3
    (match Previous.active_controls (previousMetrics st4) with
     | Some _ =>
         if Changes.hasChanges (calculateMetricChanges m st4)
         then showMetricChangeSummary (calculateMetricChanges m st4) st4
         else st4
     | None => st4
     end).
Proof.
  intros HP st4.
  assert (H : logGrows P st3 st4) by apply logGrows_previous.
  repeat break_match; try assumption.
  eapply logGrows_trans; [exact H | now apply logGrows_summary].
Qed.

End LogOfCards.

Lemma logGrows_updateMetricCards (w : World) (m : Metrics) (st0 : Dashboard) :
  logGrows onPage st0 (updateMetricCards w m st0).
Proof.
  unfold updateMetricCards.
  set (st1 := updateActiveControlsCard w m st0).
  set (st2 := updatePartiallyCoveredCard w m _ _ _ st1).
  set (st3 := updateExposedRisksCard w m _ st2).
  apply logGrows_trans with st1; [now apply logGrows_activeControlsCard |].
  apply logGrows_trans with st2; [now apply logGrows_partiallyCoveredCard |].
  apply logGrows_trans with st3; [now apply logGrows_exposedRisksCard |].
  now apply logGrows_afterCards.
Qed.

(** After the request is sent, [recalculateMetrics] only writes to the page. *)
Lemma recalculateMetrics_log (w : World) (st : Dashboard) :
  exists rest,
    log (recalculateMetrics w st)
    = log st
      ++ match requestPayload st with
         | Some payload => [Fetch (PostCapabilityAnalysis payload)]
         | None => []
         end
      ++ rest
    /\ Forall onPage rest.
Proof.
  unfold recalculateMetrics.
  destruct (requestPayload st) as [payload |].
  2:{ exists [ErrorBanner "Could not update metrics."]. split; [reflexivity |].
      now repeat constructor. }
  set (st0 := emit _ st).
  assert (H : logGrows onPage st0
                (match capabilityAnalysis w payload with
                 | Ok metrics => updateMetricCards w metrics st0
                 | NotOk _ _ | Rejected _ => showError "Could not update metrics." st0
                 end)).
  { destruct (capabilityAnalysis w payload) as [m | |];
      try (apply logGrows_emit; exact I).
    apply logGrows_updateMetricCards. }
  destruct H as [es [Hes F]]. exists es. split; [| exact F].
  rewrite Hes. unfold st0. simpl. now rewrite <- app_assoc.
Qed.

(** ** Metrics request *)

(** C1: a recalculation sends exactly one analysis request; it always
    carries the active capability ids, and it carries a [control_ids] field
    exactly when the set of active controls is non-empty (then the field is
    that set).  With an empty control set the payload has no [control_ids]
    field and so differs from every payload that carries a list. *)
Theorem recalculate_sends_control_ids_iff_nonempty
    (w : World) (st : Dashboard) (caps : JSSet.t) :
  activeCapabilities st = Some caps ->
  exists payload rest,
    log (recalculateMetrics w st)
    = log st ++ Fetch (PostCapabilityAnalysis payload) :: rest
    /\ Forall onPage rest
    /\ capability_ids payload = JSSet.to_list caps
    /\ (forall ids,
          control_ids payload = Some ids
          <-> activeControls st = Some ids /\ ids <> [])
    /\ ((exists ids, control_ids payload = Some ids)
        <-> members (activeControls st) <> [])
    /\ (members (activeControls st) = [] ->
        control_ids payload = None
        /\ forall ids,
             payload <> {| capability_ids := JSSet.to_list caps;
                           control_ids := Some ids |}).
Proof.
  intros Hcaps.
  destruct (recalculateMetrics_log w st) as [rest [Hlog Hrest]].
  assert (Hp : requestPayload st
               = Some {| capability_ids := caps;
                         control_ids :=
                           match activeControls st with
                           | Some (c :: cs) => Some (c :: cs)
                           | Some [] | None => None
                           end |}).
  { unfold requestPayload. rewrite Hcaps.
    destruct (activeControls st) as [[| c cs] |]; reflexivity. }
  rewrite Hp in Hlog. clear Hp.
  exists {| capability_ids := caps;
            control_ids :=
              match activeControls st with
              | Some (c :: cs) => Some (c :: cs)
              | Some [] | None => None
              end |}, rest.
  split; [exact Hlog |]. split; [exact Hrest |].
  simpl. unfold JSSet.to_list.
  destruct (activeControls st) as [[| c ctrls] |]; simpl;
    repeat split; intros;
    repeat match goal with
           | H : _ /\ _ |- _ => destruct H
           | H : exists _, _ |- _ => destruct H
           end;
    try congruence; try discriminate; try assumption;
    try (exfalso; unfold JSSet.empty in *; congruence).
  now exists (c :: ctrls).
Qed.

Lemma recalculate_sends_control_ids_iff_nonempty_witness :
  activeCapabilities bothActive = Some ["CAP-A"; "CAP-B"]
  /\ exists payload rest,
       log (recalculateMetrics sampleWorld bothActive)
       = log bothActive ++ Fetch (PostCapabilityAnalysis payload) :: rest
       /\ Forall onPage rest
       /\ capability_ids payload = JSSet.to_list ["CAP-A"; "CAP-B"]
       /\ (forall ids,
             control_ids payload = Some ids
             <-> activeControls bothActive = Some ids /\ ids <> [])
       /\ ((exists ids, control_ids payload = Some ids)
           <-> members (activeControls bothActive) <> [])
       /\ (members (activeControls bothActive) = [] ->
           control_ids payload = None
           /\ forall ids,
                payload <> {| capability_ids := JSSet.to_list ["CAP-A"; "CAP-B"];
                              control_ids := Some ids |}).
Proof.
  split; [reflexivity |].
  apply (recalculate_sends_control_ids_iff_nonempty sampleWorld bothActive).
  reflexivity.
Defined.

(** ** Delta color of the partially-covered card *)

Lemma activeControlsCard_keeps_previous (w : World) (m : Metrics) (st : Dashboard) :
  let p := previousMetrics st in
  let p' := previousMetrics (updateActiveControlsCard w m st) in
  Previous.exposed_risks p' = Previous.exposed_risks p
  /\ Previous.active_risks p' = Previous.active_risks p
  /\ Previous.partially_covered_risks p' = Previous.partially_covered_risks p.
Proof.
  unfold updateActiveControlsCard. repeat break_match; repeat split.
Qed.

(** The table the code implements, on the three concurrent deltas. *)
Lemma partiallyCoveredColor_table (change exposedChange activeRisksChange : Z) :
  ((change > 0)%Z -> (exposedChange < 0)%Z ->
   partiallyCoveredColor change exposedChange activeRisksChange = green)
  /\ ((change > 0)%Z -> (exposedChange >= 0)%Z ->
      partiallyCoveredColor change exposedChange activeRisksChange = yellow)
  /\ ((change <= 0)%Z -> (activeRisksChange > 0)%Z ->
      partiallyCoveredColor change exposedChange activeRisksChange = green)
  /\ ((change <= 0)%Z -> (activeRisksChange <= 0)%Z -> (exposedChange > 0)%Z ->
      partiallyCoveredColor change exposedChange activeRisksChange = yellow)
  /\ ((change <= 0)%Z -> (activeRisksChange <= 0)%Z -> (exposedChange <= 0)%Z ->
      partiallyCoveredColor change exposedChange activeRisksChange = green).
Proof.
  unfold partiallyCoveredColor.
  destruct (Z.gtb_spec change 0), (Z.ltb_spec exposedChange 0),
    (Z.ltb_spec activeRisksChange 0), (Z.gtb_spec activeRisksChange 0),
    (Z.gtb_spec exposedChange 0);
    repeat split; intros; try reflexivity; lia.
Qed.

(** C2 (as the code has it): when a recalculation finds the
    partially-covered count changed against known previous values, it
    animates that card once, and the color is: on an increase, green if
    exposed risks decreased and yellow otherwise (which covers "fully
    covered decreased" and every other combination); on a decrease, green
    if fully covered risks increased, else yellow if exposed risks
    increased, else green. *)
Theorem partially_covered_delta_color
    (w : World) (st : Dashboard) (payload : AnalysisRequest) (m : Metrics)
    (pe pa pp : Z) :
  requestPayload st = Some payload ->
  capabilityAnalysis w payload = Ok m ->
  hasPartiallyCoveredCard w = true ->
  Previous.exposed_risks (previousMetrics st) = Some pe ->
  Previous.active_risks (previousMetrics st) = Some pa ->
  Previous.partially_covered_risks (previousMetrics st) = Some pp ->
  let change := (orZero (partially_covered_risks m) - pp)%Z in
  let exposedChange := (orZero (exposed_risks m) - pe)%Z in
  let activeRisksChange := (orZero (active_risks m) - pa)%Z in
  change <> 0%Z ->
  exists before color after,
    log (recalculateMetrics w st)
    = log st ++ before ++ MetricAnimated card_partially_covered change color :: after
    /\ Forall notPartialCard before
    /\ Forall notPartialCard after
    /\ ((change > 0)%Z -> (exposedChange < 0)%Z -> color = green)
    /\ ((change > 0)%Z -> (exposedChange >= 0)%Z -> color = yellow)
    /\ ((change < 0)%Z -> (activeRisksChange > 0)%Z -> color = green)
    /\ ((change < 0)%Z -> (activeRisksChange <= 0)%Z -> (exposedChange > 0)%Z ->
        color = yellow)
    /\ ((change < 0)%Z -> (activeRisksChange <= 0)%Z -> (exposedChange <= 0)%Z ->
        color = green).
Proof.
  intros Hpay Hresp Hcard Hpe Hpa Hpp change exposedChange activeRisksChange Hchange.
  unfold recalculateMetrics. rewrite Hpay, Hresp.
  set (st0 := emit (Fetch (PostCapabilityAnalysis payload)) st).
  unfold updateMetricCards.
  set (st1 := updateActiveControlsCard w m st0).
  destruct (activeControlsCard_keeps_previous w m st0) as [Ke [Ka Kp]].
  fold st1 in Ke, Ka, Kp. rewrite Ke, Ka, Kp.
  replace (previousMetrics st0) with (previousMetrics st) by reflexivity.
  rewrite Hpe, Hpa, Hpp.
  set (st2 := updatePartiallyCoveredCard w m (Some pe) (Some pa) (Some pp) st1).
  set (st3 := updateExposedRisksCard w m (Some pe) st2).
  (* before the card *)
  assert (G1 : logGrows notPartialCard st0 st1).
  { apply logGrows_activeControlsCard. intros; exact I. }
  (* the card itself *)
  assert (G2 : log st2 = log st1
                 ++ [MetricAnimated card_partially_covered change
                       (partiallyCoveredColor change exposedChange activeRisksChange)]).
  { unfold st2, updatePartiallyCoveredCard. rewrite Hcard.
    destruct (Z.eqb_spec pp (orZero (partially_covered_risks m))) as [E | _].
    - exfalso. apply Hchange. unfold change. lia.
    - reflexivity. }
  (* after the card *)
  match goal with
  | |- context [match ?x with Some _ => ?a | None => ?b end] =>
      set (final := match x with Some _ => a | None => b end)
  end.
  assert (G3 : logGrows notPartialCard st2 final).
  { apply logGrows_trans with st3.
    - apply logGrows_exposedRisksCard. intros; exact I.
    - apply logGrows_afterCards. intros; exact I. }
  destruct G1 as [e1 [L1 F1]]. destruct G3 as [e3 [L3 F3]].
  exists (Fetch (PostCapabilityAnalysis payload) :: e1),
    (partiallyCoveredColor change exposedChange activeRisksChange), e3.
  split.
  { rewrite L3, G2, L1. unfold st0. simpl.
    repeat rewrite <- app_assoc. reflexivity. }
  split; [constructor; [exact I | exact F1] |].
  split; [exact F3 |].
  destruct (partiallyCoveredColor_table change exposedChange activeRisksChange)
    as [T1 [T2 [T3 [T4 T5]]]].
  repeat split; intros; [apply T1 | apply T2 | apply T3 | apply T4 | apply T5]; lia.
Qed.

Lemma partially_covered_delta_color_witness :
  exists before color after,
    log (recalculateMetrics worseWorld afterFirstRecalculation)
    = log afterFirstRecalculation
      ++ before ++ MetricAnimated card_partially_covered (-2) color :: after
    /\ color = yellow.
Proof.
  destruct (partially_covered_delta_color worseWorld afterFirstRecalculation
              {| capability_ids := ["CAP-A"; "CAP-B"];
                 control_ids := Some ["C-1"; "C-2"; "C-3"] |}
              (metricsOf 3 3 3 4) 2 3 5
              eq_refl eq_refl eq_refl eq_refl eq_refl eq_refl)
    as [before [color [after [Hlog [_ [_ [_ [_ [_ [Hyellow _]]]]]]]]]].
  - discriminate.
  - exists before, color, after. split; [exact Hlog |].
    apply Hyellow; reflexivity.
Defined.

(** C2, counterexample to the claim as stated: with all previous values
    known (5 partially covered, 2 exposed, 3 fully covered), a report of 3
    partially covered, 4 exposed and 3 fully covered risks is a decrease of
    the partial count, and the card is animated yellow, not green. *)
Lemma partially_covered_decrease_shown_yellow :
  previousMetrics afterFirstRecalculation
  = {| Previous.active_controls := Some 3%Z;
       Previous.exposed_risks := Some 2%Z;
       Previous.partially_covered_risks := Some 5%Z;
       Previous.active_risks := Some 3%Z |}
  /\ capabilityAnalysis worseWorld
       {| capability_ids := ["CAP-A"; "CAP-B"];
          control_ids := Some ["C-1"; "C-2"; "C-3"] |}
     = Ok (metricsOf 3 3 3 4)
  /\ log (recalculateMetrics worseWorld afterFirstRecalculation)
     = log afterFirstRecalculation
       ++ [Fetch (PostCapabilityAnalysis
                    {| capability_ids := ["CAP-A"; "CAP-B"];
                       control_ids := Some ["C-1"; "C-2"; "C-3"] |});
           MetricAnimated card_partially_covered (-2) yellow;
           MetricAnimated card_exposed_risks 2 red].
Proof. repeat split. Qed.

(** ** Serialized selections *)

Lemma members_ensureActiveCapabilities (st : Dashboard) :
  members (activeCapabilities (ensureActiveCapabilities st))
  = members (activeCapabilities st).
Proof.
  unfold ensureActiveCapabilities.
  destruct (activeCapabilities st) eqn:E; simpl; now rewrite ?E.
Qed.

Lemma members_ensureActiveControls (st : Dashboard) :
  members (activeControls (ensureActiveControls st)) = members (activeControls st).
Proof.
  unfold ensureActiveControls.
  destruct (activeControls st) eqn:E; simpl; now rewrite ?E.
Qed.

(** C3: with a tree loaded, [serializeSelections] lists the capabilities of
    the tree one for one and in order, each with its id and the boolean
    "is in activeCapabilities"; so the list is as long as the tree whatever
    the active set is, and inactive capabilities appear with [false]. *)
Theorem serializeSelections_covers_tree (st : Dashboard) (tree : list Capability) :
  treeData st = Some tree ->
  let sels := selections (fst (serializeSelections st)) in
  List.length sels = List.length tree
  /\ map CapSel.capability_id sels = map capability_id tree
  /\ map CapSel.is_active sels
     = map (fun cap => JSSet.has (members (activeCapabilities st)) (capability_id cap))
           tree.
Proof.
  intros Htree. unfold serializeSelections.
  assert (E : treeData (ensureActiveCapabilities st) = Some tree).
  { unfold ensureActiveCapabilities. now destruct (activeCapabilities st). }
  rewrite E.
  destruct (serializeControlSelections (ensureActiveCapabilities st)) as [cs st2].
  cbn [fst selections]. rewrite members_ensureActiveCapabilities.
  repeat split.
  - apply length_map.
  - rewrite map_map. reflexivity.
  - rewrite map_map. reflexivity.
Qed.

Lemma serializeSelections_covers_tree_witness :
  treeData bothActive = Some sampleTree
  /\ selections (fst (serializeSelections bothActive))
     = [{| CapSel.capability_id := "CAP-A"; CapSel.is_active := true |};
        {| CapSel.capability_id := "CAP-B"; CapSel.is_active := true |};
        {| CapSel.capability_id := "CAP-C"; CapSel.is_active := false |}]
  /\ List.length (selections (fst (serializeSelections bothActive)))
     = List.length sampleTree.
Proof.
  split; [reflexivity |]. split; [reflexivity |].
  apply (serializeSelections_covers_tree bothActive sampleTree). reflexivity.
Defined.

(** *** The control map built by [serializeControlSelections] *)

Lemma findCapability_id (tree : list Capability) (capabilityId : string)
    (capability : Capability) :
  findCapability tree capabilityId = Some capability ->
  capability_id capability = capabilityId /\ In capability tree.
Proof.
  unfold findCapability. intros H. apply find_some in H. destruct H as [Hin Heq].
  apply String.eqb_eq in Heq. now split.
Qed.

(** When capability ids are unique, [find] resolves an id to the one
    capability of the tree that carries it. *)
Lemma findCapability_unique (tree : list Capability) (capability : Capability) :
  NoDup (map capability_id tree) ->
  In capability tree ->
  findCapability tree (capability_id capability) = Some capability.
Proof.
  unfold findCapability. induction tree as [| cap tree IH]; simpl; [tauto |].
  intros Hnd [-> | Hin].
  - now rewrite String.eqb_refl.
  - inversion Hnd as [| ? ? Hnotin Hnd']. subst.
    destruct (String.eqb_spec (capability_id cap) (capability_id capability)) as [E | _].
    + exfalso. apply Hnotin. rewrite E. now apply in_map.
    + now apply IH.
Qed.

Lemma keys_update (c : string) (m : list CtlSel.t) :
  keys (map (fun e =>
               if String.eqb (CtlSel.control_id e) c
               then {| CtlSel.control_id := CtlSel.control_id e;
                       CtlSel.is_active := true |}
               else e) m)
  = keys m.
Proof.
  unfold keys. rewrite map_map. apply map_ext. intros e.
  now destruct (String.eqb (CtlSel.control_id e) c).
Qed.

Lemma find_key_none (c : string) (m : list CtlSel.t) :
  find (fun e => String.eqb (CtlSel.control_id e) c) m = None -> ~ In c (keys m).
Proof.
  intros H Hin. unfold keys in Hin. apply in_map_iff in Hin.
  destruct Hin as [e [He Hin]].
  apply (find_none _ _ H) in Hin. simpl in Hin. rewrite He in Hin.
  rewrite String.eqb_refl in Hin. discriminate.
Qed.

Lemma find_key_some (c : string) (m : list CtlSel.t) (e : CtlSel.t) :
  find (fun e => String.eqb (CtlSel.control_id e) c) m = Some e -> In c (keys m).
Proof.
  intros H. apply find_some in H. destruct H as [Hin Heq].
  apply String.eqb_eq in Heq. subst. unfold keys. now apply in_map.
Qed.

Lemma visitControl_keys (ctrls : JSSet.t) (m : list CtlSel.t) (control : ControlRef)
    (x : string) :
  In x (keys (visitControl ctrls m control))
  <-> In x (keys m) \/ (x = control_id control /\ truthy x = true).
Proof.
  unfold visitControl. destruct (truthy (control_id control)) eqn:T.
  - destruct (find _ m) as [existing |] eqn:F.
    + apply find_key_some in F.
      assert (K : keys (if JSSet.has ctrls (control_id control)
                           && negb (CtlSel.is_active existing)
                        then map (fun e =>
                                    if String.eqb (CtlSel.control_id e) (control_id control)
                                    then {| CtlSel.control_id := CtlSel.control_id e;
                                            CtlSel.is_active := true |}
                                    else e) m
                        else m) = keys m).
      { destruct (_ && _); [apply keys_update | reflexivity]. }
      rewrite K. split; [tauto |]. intros [H | [-> _]]; assumption.
    + unfold keys. rewrite map_app, in_app_iff. simpl. fold (keys m).
      split.
      * intros [H | [<- | []]]; [now left | right; now split].
      * intros [H | [-> _]]; [now left | right; now left].
  - split; [tauto |]. intros [H | [-> H]]; [assumption | congruence].
Qed.

Lemma visitControl_NoDup (ctrls : JSSet.t) (m : list CtlSel.t) (control : ControlRef) :
  NoDup (keys m) -> NoDup (keys (visitControl ctrls m control)).
Proof.
  intros Hnd. unfold visitControl. destruct (truthy (control_id control)); [| assumption].
  destruct (find _ m) as [existing |] eqn:F.
  - destruct (_ && _); [now rewrite keys_update | assumption].
  - apply find_key_none in F. unfold keys in *. rewrite map_app. simpl.
    apply NoDup_app; [assumption | repeat constructor; simpl; tauto |].
    intros y Hy [<- | []]. contradiction.
Qed.

Lemma visitControl_flags (ctrls : JSSet.t) (m : list CtlSel.t) (control : ControlRef) :
  flagsAgree ctrls m -> flagsAgree ctrls (visitControl ctrls m control).
Proof.
  intros Hf. unfold visitControl. destruct (truthy (control_id control)); [| assumption].
  destruct (find _ m) as [existing |] eqn:F.
  - destruct (JSSet.has ctrls (control_id control)) eqn:A; simpl; [| assumption].
    destruct (negb (CtlSel.is_active existing)); [| assumption].
    intros e He. apply in_map_iff in He. destruct He as [e0 [<- Hin]].
    destruct (String.eqb_spec (CtlSel.control_id e0) (control_id control)) as [E | _].
    + simpl. now rewrite E, A.
    + now apply Hf.
  - intros e He. apply in_app_iff in He. destruct He as [He | [<- | []]].
    + now apply Hf.
    + reflexivity.
Qed.

Lemma visitControls_keys (ctrls : JSSet.t) (cs : list ControlRef)
    (m : list CtlSel.t) (x : string) :
  In x (keys (fold_left (visitControl ctrls) cs m))
  <-> In x (keys m) \/ (In x (control_ids_of cs) /\ truthy x = true).
Proof.
  revert m. induction cs as [| control cs IH]; intros m; simpl.
  - tauto.
  - rewrite IH, visitControl_keys. intuition (subst; auto).
Qed.

Lemma visitControls_NoDup (ctrls : JSSet.t) (cs : list ControlRef) (m : list CtlSel.t) :
  NoDup (keys m) -> NoDup (keys (fold_left (visitControl ctrls) cs m)).
Proof.
  revert m. induction cs as [| control cs IH]; intros m H; simpl; [assumption |].
  apply IH. now apply visitControl_NoDup.
Qed.

Lemma visitControls_flags (ctrls : JSSet.t) (cs : list ControlRef) (m : list CtlSel.t) :
  flagsAgree ctrls m -> flagsAgree ctrls (fold_left (visitControl ctrls) cs m).
Proof.
  revert m. induction cs as [| control cs IH]; intros m H; simpl; [assumption |].
  apply IH. now apply visitControl_flags.
Qed.

Lemma visitCapability_keys (tree : list Capability) (ctrls : JSSet.t)
    (m : list CtlSel.t) (capabilityId x : string) :
  In x (keys (visitCapability tree ctrls m capabilityId))
  <-> In x (keys m)
      \/ (truthy x = true /\ reachable tree [capabilityId] x).
Proof.
  unfold visitCapability, reachable.
  destruct (findCapability tree capabilityId) as [capability |] eqn:F.
  - destruct (findCapability_id _ _ _ F) as [Hid _].
    destruct (controls capability) as [cs |] eqn:C.
    + rewrite visitControls_keys. split.
      * intros [H | [H T]]; [now left | right]. split; [assumption |].
        exists capability, cs. rewrite Hid. simpl. auto.
      * intros [H | [T [cap' [cs' [[Hin | []] [F' [C' H]]]]]]]; [now left | right].
        rewrite <- Hin, F in F'. inversion F'. subst cap'.
        rewrite C in C'. inversion C'. subst cs'. now split.
    + split; [tauto |].
      intros [H | [T [cap' [cs' [[Hin | []] [F' [C' H]]]]]]]; [assumption |].
      rewrite <- Hin, F in F'. inversion F'. subst cap'. congruence.
  - split; [tauto |].
    intros [H | [T [cap' [cs' [[Hin | []] [F' [C' H]]]]]]]; [assumption |].
    rewrite <- Hin, F in F'. discriminate.
Qed.

Lemma reachable_cons (tree : list Capability) (capabilityId : string)
    (caps : list string) (x : string) :
  reachable tree (capabilityId :: caps) x
  <-> reachable tree [capabilityId] x \/ reachable tree caps x.
Proof.
  unfold reachable. split.
  - intros [cap [cs [[Hin | Hin] H]]].
    + left. exists cap, cs. split; [now left | exact H].
    + right. exists cap, cs. now split.
  - intros [[cap [cs [[Hin | []] H]]] | [cap [cs [Hin H]]]];
      exists cap, cs; (split; [| exact H]); [now left | now right].
Qed.

Lemma visitCapabilities_keys (tree : list Capability) (ctrls : JSSet.t)
    (caps : list string) (m : list CtlSel.t) (x : string) :
  In x (keys (fold_left (visitCapability tree ctrls) caps m))
  <-> In x (keys m) \/ (truthy x = true /\ reachable tree caps x).
Proof.
  revert m. induction caps as [| capabilityId caps IH]; intros m; simpl.
  - split; [tauto |]. intros [H | [_ [cap [cs [[] _]]]]]. assumption.
  - rewrite IH, visitCapability_keys, (reachable_cons tree capabilityId caps x). tauto.
Qed.

Lemma visitCapability_NoDup (tree : list Capability) (ctrls : JSSet.t)
    (m : list CtlSel.t) (capabilityId : string) :
  NoDup (keys m) -> NoDup (keys (visitCapability tree ctrls m capabilityId)).
Proof.
  intros H. unfold visitCapability.
  destruct (findCapability tree capabilityId) as [capability |]; [| assumption].
  destruct (controls capability); [| assumption]. now apply visitControls_NoDup.
Qed.

Lemma visitCapability_flags (tree : list Capability) (ctrls : JSSet.t)
    (m : list CtlSel.t) (capabilityId : string) :
  flagsAgree ctrls m -> flagsAgree ctrls (visitCapability tree ctrls m capabilityId).
Proof.
  intros H. unfold visitCapability.
  destruct (findCapability tree capabilityId) as [capability |]; [| assumption].
  destruct (controls capability); [| assumption]. now apply visitControls_flags.
Qed.

Lemma visitCapabilities_invariant (tree : list Capability) (ctrls : JSSet.t)
    (caps : list string) (m : list CtlSel.t) :
  NoDup (keys m) -> flagsAgree ctrls m ->
  NoDup (keys (fold_left (visitCapability tree ctrls) caps m))
  /\ flagsAgree ctrls (fold_left (visitCapability tree ctrls) caps m).
Proof.
  revert m. induction caps as [| capabilityId caps IH]; intros m Hn Hf; simpl.
  - now split.
  - apply IH; [now apply visitCapability_NoDup | now apply visitCapability_flags].
Qed.

(** C4: with a tree loaded, the serialized control selections hold exactly
    one entry per valid control id listed under a capability whose id is
    active (a control listed under several active capabilities appears
    once), and an entry's flag is true exactly when the control is in
    [activeControls], whichever capability it was activated through. *)
Theorem serializeControlSelections_dedup_or (st : Dashboard) (tree : list Capability) :
  treeData st = Some tree ->
  let out := fst (serializeControlSelections st) in
  NoDup (map CtlSel.control_id out)
  /\ (forall c,
        In c (map CtlSel.control_id out)
        <-> truthy c = true /\ reachable tree (members (activeCapabilities st)) c)
  /\ (forall e,
        In e out ->
        CtlSel.is_active e
        = JSSet.has (members (activeControls st)) (CtlSel.control_id e)).
Proof.
  intros Htree. unfold serializeControlSelections. rewrite Htree.
  assert (E : activeCapabilities (ensureActiveControls st) = activeCapabilities st).
  { unfold ensureActiveControls. now destruct (activeControls st). }
  rewrite E, members_ensureActiveControls.
  destruct (activeCapabilities st) as [caps |]; cbn [fst members].
  - destruct (visitCapabilities_invariant tree (members (activeControls st)) caps [])
      as [Hn Hf]; [constructor | intros e [] |].
    split; [exact Hn |]. split; [| exact Hf].
    intros c. fold (keys (fold_left
                            (visitCapability tree (members (activeControls st))) caps [])).
    rewrite visitCapabilities_keys. simpl. tauto.
  - split; [constructor |]. split; [| intros e []].
    intros c. simpl. split; [tauto |]. intros [_ [cap [cs [[] _]]]].
Qed.

Lemma serializeControlSelections_dedup_or_witness :
  treeData viaCopyUnderA = Some sampleTree
  /\ activeControls viaCopyUnderA = Some ["C-2"]
  /\ fst (serializeControlSelections viaCopyUnderA)
     = [{| CtlSel.control_id := "C-1"; CtlSel.is_active := false |};
        {| CtlSel.control_id := "C-2"; CtlSel.is_active := true |};
        {| CtlSel.control_id := "C-3"; CtlSel.is_active := false |}]
  /\ NoDup (map CtlSel.control_id (fst (serializeControlSelections viaCopyUnderA))).
Proof.
  split; [reflexivity |]. split; [reflexivity |]. split; [reflexivity |].
  apply (serializeControlSelections_dedup_or viaCopyUnderA sampleTree).
  reflexivity.
Defined.

(** ** Activation status *)

Lemma filter_length_le_all {A : Type} (f : A -> bool) (l : list A) :
  (List.length (filter f l) <= List.length l)%nat.
Proof.
  induction l as [| x l IH]; simpl; [lia |]. destruct (f x); simpl; lia.
Qed.

Lemma filter_length_all {A : Type} (f : A -> bool) (l : list A) :
  List.length (filter f l) = List.length l <-> forall x, In x l -> f x = true.
Proof.
  induction l as [| x l IH]; simpl.
  - split; [intros _ y [] | reflexivity].
  - destruct (f x) eqn:E; simpl.
    + split.
      * intros H y [<- | Hy]; [assumption |]. apply IH; [lia | assumption].
      * intros H. f_equal. apply IH. intros y Hy. apply H. now right.
    + split.
      * intros H. pose proof (filter_length_le_all f l). lia.
      * intros H. specialize (H x (or_introl eq_refl)). congruence.
Qed.

Ltac status_facts :=
  repeat match goal with
         | H : _ /\ _ |- _ => destruct H
         | H : _ \/ _ |- _ => destruct H
         end;
  try discriminate; try congruence; try assumption; try contradiction.

(** An active capability with a control outside [activeControls] is drawn
    partially active. *)
Lemma createCapabilityColumn_partial (capability : Capability) (st : Dashboard)
    (caps : JSSet.t) (cs : list ControlRef) (control : ControlRef) :
  activeCapabilities st = Some caps ->
  JSSet.has caps (capability_id capability) = true ->
  controls capability = Some cs ->
  In control cs ->
  JSSet.has (members (activeControls st)) (control_id control) = false ->
  fst (createCapabilityColumn capability st) = Resolved partially_active.
Proof.
  intros Hcaps Hactive Hcs Hin Hoff.
  unfold createCapabilityColumn. rewrite Hcaps, Hactive, Hcs.
  rewrite members_ensureActiveControls.
  destruct cs as [| c0 cs']; [contradiction |].
  change (Nat.ltb 0 (List.length (c0 :: cs'))) with true. cbn [andb].
  destruct (Nat.eqb_spec
              (List.length
                 (filter (fun c => JSSet.has (members (activeControls st)) (control_id c))
                         (c0 :: cs')))
              (List.length (c0 :: cs'))) as [E | E]; [| reflexivity].
  pose proof (proj1 (filter_length_all _ _) E control Hin) as Hon.
  cbv beta in Hon. congruence.
Qed.

(** C6: the status shown for a capability is [inactive] exactly when its
    id is not in [activeCapabilities]; [fully_active] exactly when it is
    active, has at least one control and every one of its controls is in
    [activeControls]; and [partially_active] in every other active case, in
    particular with no controls at all or with none of them active.  The
    fourth class of the style sheet, [active], never arises. *)
Theorem activation_status (capability : Capability) (st : Dashboard) (caps : JSSet.t) :
  activeCapabilities st = Some caps ->
  let cs := match controls capability with Some cs => cs | None => [] end in
  let isActive := JSSet.has caps (capability_id capability) in
  let allOn :=
    forall c, In c cs -> JSSet.has (members (activeControls st)) (control_id c) = true in
  exists class,
    fst (createCapabilityColumn capability st) = Resolved class
    /\ (class = inactive <-> isActive = false)
    /\ (class = fully_active <-> isActive = true /\ cs <> [] /\ allOn)
    /\ (class = partially_active <-> isActive = true /\ (cs = [] \/ ~ allOn))
    /\ class <> active.
Proof.
  intros Hcaps. cbv zeta.
  remember (match controls capability with Some cs => cs | None => [] end) as cs eqn:Hcs.
  remember (JSSet.has caps (capability_id capability)) as isActive eqn:A.
  unfold createCapabilityColumn. rewrite Hcaps, <- Hcs, <- A.
  rewrite members_ensureActiveControls.
  destruct isActive; cbn [andb].
  2:{ exists inactive. split; [reflexivity |].
      repeat split; intros; status_facts. }
  destruct cs as [| c0 cs'].
  { exists partially_active. split; [reflexivity |].
    repeat split; intros; status_facts. now left. }
  change (Nat.ltb 0 (List.length (c0 :: cs'))) with true. cbv iota.
  destruct (Nat.eqb_spec
              (List.length
                 (filter (fun c => JSSet.has (members (activeControls st)) (control_id c))
                         (c0 :: cs')))
              (List.length (c0 :: cs'))) as [E | E].
  - pose proof (proj1 (filter_length_all _ _) E) as E'. cbv beta in E'.
    exists fully_active. split; [reflexivity |].
    repeat split; intros; status_facts. now apply E'.
  - assert (N : ~ (forall c, In c (c0 :: cs') ->
                     JSSet.has (members (activeControls st)) (control_id c) = true)).
    { intros H. apply E. apply (proj2 (filter_length_all _ _)). exact H. }
    exists partially_active. split; [reflexivity |].
    repeat split; intros; status_facts. now right.
Qed.

Lemma activation_status_witness :
  activeCapabilities bothActive = Some ["CAP-A"; "CAP-B"]
  /\ fst (createCapabilityColumn capA bothActive) = Resolved fully_active
  /\ fst (createCapabilityColumn capC
            (set_activeCapabilities (Some ["CAP-C"]) bothActive))
     = Resolved partially_active
  /\ exists class,
       fst (createCapabilityColumn capB bothActive) = Resolved class
       /\ class <> active.
Proof.
  split; [reflexivity |]. split; [reflexivity |]. split; [reflexivity |].
  destruct (activation_status capB bothActive ["CAP-A"; "CAP-B"] eq_refl)
    as [class [H [_ [_ [_ N]]]]].
  exists class. split; [exact H | exact N].
Defined.

(** ** Toggling a capability *)

(** Redrawing, recalculating, marking unsaved and scheduling the auto-save
    leave the tree and both membership sets as they are. *)
Lemma toggle_tail_selection (w : World) (st : Dashboard) :
  let st' :=
    scheduleAutoSave (updateSaveStatus unsaved
                        (recalculateMetrics w (createVerticalTree st))) in
  treeData st' = treeData st
  /\ activeCapabilities st' = activeCapabilities st
  /\ activeControls st' = activeControls st.
Proof.
  simpl.
  destruct (sameSession_recalculateMetrics w (createVerticalTree st))
    as [T1 [C1 [K1 _]]].
  destruct (sameSession_createVerticalTree st) as [T2 [C2 [K2 _]]].
  repeat split; congruence.
Qed.

(** The selection after [toggleCapability] on a capability with a valid id. *)
Lemma toggleCapability_selection (w : World) (capability : Capability) (st : Dashboard) :
  truthy (capability_id capability) = true ->
  let caps := members (activeCapabilities st) in
  let ctrls := members (activeControls st) in
  let st' := toggleCapability w (Some capability) st in
  treeData st' = treeData st
  /\ activeCapabilities st'
     = Some (if JSSet.has caps (capability_id capability)
             then JSSet.delete caps (capability_id capability)
             else JSSet.add caps (capability_id capability))
  /\ activeControls st'
     = Some (match controls capability with
             | Some cs =>
                 if JSSet.has caps (capability_id capability)
                 then JSSet.delete_all ctrls (control_ids_of cs)
                 else JSSet.add_all ctrls (control_ids_of cs)
             | None => ctrls
             end).
Proof.
  intros T. cbv zeta. unfold toggleCapability. rewrite T. cbn [negb].
  match goal with
  | |- context [scheduleAutoSave (updateSaveStatus unsaved
                  (recalculateMetrics w (createVerticalTree ?s)))] =>
      destruct (toggle_tail_selection w s) as [Ht [Hc Hk]]; rewrite Ht, Hc, Hk; clear Ht Hc Hk
  end.
  unfold ensureActiveCapabilities, ensureActiveControls.
  destruct (activeCapabilities st) as [caps |] eqn:Ec;
    destruct (activeControls st) as [ctrls |] eqn:Ek; simpl;
    rewrite ?Ec, ?Ek; simpl;
    destruct (controls capability) as [cs |];
    repeat match goal with
           | |- context [JSSet.has ?s ?x] => destruct (JSSet.has s x) eqn:?
           end;
    simpl; rewrite ?Ec, ?Ek; repeat split; try reflexivity; try discriminate.
Qed.

Lemma has_delete_all (l : list string) (s : JSSet.t) (y : string) :
  JSSet.has (JSSet.delete_all s l) y = true <-> JSSet.has s y = true /\ ~ In y l.
Proof. rewrite !has_In. apply In_delete_all. Qed.

Lemma has_add_all (l : list string) (s : JSSet.t) (y : string) :
  JSSet.has (JSSet.add_all s l) y = true <-> JSSet.has s y = true \/ In y l.
Proof. rewrite !has_In. apply In_add_all. Qed.

(** C5: for a capability that is active, toggling it off and on again
    (nothing else happening in between) leaves every control that was
    active before still active, and all of the capability's own controls
    active: [activeControls] afterwards is a superset of what it was.  With
    a valid id the two toggles really are a deactivation followed by a
    reactivation. *)
Theorem toggle_twice_keeps_controls
    (w1 w2 : World) (capability : Capability) (st : Dashboard) :
  JSSet.has (members (activeCapabilities st)) (capability_id capability) = true ->
  let st1 := toggleCapability w1 (Some capability) st in
  let st2 := toggleCapability w2 (Some capability) st1 in
  (forall c,
     JSSet.has (members (activeControls st)) c = true ->
     JSSet.has (members (activeControls st2)) c = true)
  /\ (truthy (capability_id capability) = true ->
      JSSet.has (members (activeCapabilities st1)) (capability_id capability) = false
      /\ JSSet.has (members (activeCapabilities st2)) (capability_id capability) = true
      /\ forall cs c,
           controls capability = Some cs -> In c (control_ids_of cs) ->
           JSSet.has (members (activeControls st2)) c = true).
Proof.
  intros Hactive st1 st2.
  destruct (truthy (capability_id capability)) eqn:T.
  2:{ assert (E : st2 = st).
      { unfold st2, st1, toggleCapability. now rewrite T. }
      rewrite E. split; [auto | discriminate]. }
  destruct (toggleCapability_selection w1 capability st T) as [_ [C1 K1]].
  fold st1 in C1, K1. rewrite Hactive in C1, K1.
  assert (Hoff : JSSet.has (members (activeCapabilities st1)) (capability_id capability)
                 = false).
  { rewrite C1. simpl. rewrite has_delete, String.eqb_refl. apply andb_false_r. }
  destruct (toggleCapability_selection w2 capability st1 T) as [_ [C2 K2]].
  fold st2 in C2, K2. rewrite Hoff in C2, K2.
  split.
  - intros c Hc. rewrite K2, K1. simpl.
    destruct (controls capability) as [cs |]; [| exact Hc].
    apply has_add_all.
    destruct (in_dec string_dec c (control_ids_of cs)) as [Hin | Hout];
      [now right | left].
    apply has_delete_all. now split.
  - intros _. split; [exact Hoff |]. split.
    + rewrite C2. simpl. rewrite has_add, String.eqb_refl. apply orb_true_r.
    + intros cs c Hcs Hin. rewrite K2, Hcs. simpl. apply has_add_all. now right.
Qed.

Lemma toggle_twice_keeps_controls_witness :
  JSSet.has (members (activeCapabilities bothActive)) (capability_id capA) = true
  /\ activeControls
       (toggleCapability sampleWorld (Some capA)
          (toggleCapability sampleWorld (Some capA) bothActive))
     = Some ["C-3"; "C-1"; "C-2"]
  /\ forall c,
       JSSet.has (members (activeControls bothActive)) c = true ->
       JSSet.has
         (members
            (activeControls
               (toggleCapability sampleWorld (Some capA)
                  (toggleCapability sampleWorld (Some capA) bothActive)))) c
       = true.
Proof.
  split; [reflexivity |]. split; [reflexivity |].
  apply (toggle_twice_keeps_controls sampleWorld sampleWorld capA bothActive).
  reflexivity.
Defined.

(** C10: deactivating an active capability A removes every control listed
    under A from [activeControls], shared or not.  So for another
    capability B that stays active and lists one of A's controls, that
    control is inactive afterwards although B still contains it, and B is
    shown partially active, whatever it showed before (fully active in the
    sample session) and although B itself was not touched. *)
Theorem deactivation_removes_shared_controls
    (w : World) (a b : Capability) (st : Dashboard)
    (ca cb : list ControlRef) (c : string) :
  truthy (capability_id a) = true ->
  JSSet.has (members (activeCapabilities st)) (capability_id a) = true ->
  controls a = Some ca ->
  capability_id b <> capability_id a ->
  JSSet.has (members (activeCapabilities st)) (capability_id b) = true ->
  controls b = Some cb ->
  In c (control_ids_of ca) ->
  In c (control_ids_of cb) ->
  let st' := toggleCapability w (Some a) st in
  JSSet.has (members (activeCapabilities st')) (capability_id a) = false
  /\ (forall x,
        In x (control_ids_of ca) ->
        JSSet.has (members (activeControls st')) x = false)
  /\ JSSet.has (members (activeCapabilities st')) (capability_id b) = true
  /\ JSSet.has (members (activeControls st')) c = false
  /\ fst (createCapabilityColumn b st') = Resolved partially_active.
Proof.
  intros T Ha Hca Hab Hb Hcb Hina Hinb st'.
  destruct (toggleCapability_selection w a st T) as [_ [C1 K1]].
  fold st' in C1, K1. rewrite Ha in C1, K1. rewrite Hca in K1.
  assert (Hgone : forall x, In x (control_ids_of ca) ->
                    JSSet.has (members (activeControls st')) x = false).
  { intros x Hx. rewrite K1. simpl.
    destruct (JSSet.has (JSSet.delete_all (members (activeControls st))
                           (control_ids_of ca)) x) eqn:E; [| reflexivity].
    apply has_delete_all in E. destruct E as [_ E]. contradiction. }
  assert (Hb' : JSSet.has (members (activeCapabilities st')) (capability_id b) = true).
  { rewrite C1. simpl. rewrite has_delete, Hb. simpl.
    apply negb_true_iff. now apply String.eqb_neq. }
  split.
  { rewrite C1. simpl. rewrite has_delete, String.eqb_refl. apply andb_false_r. }
  split; [exact Hgone |]. split; [exact Hb' |]. split; [now apply Hgone |].
  unfold control_ids_of in Hinb. apply in_map_iff in Hinb.
  destruct Hinb as [control [Hid Hin]].
  apply (createCapabilityColumn_partial b st' _ cb control C1); try assumption.
  - rewrite C1 in Hb'. exact Hb'.
  - rewrite Hid. now apply Hgone.
Qed.

Lemma deactivation_removes_shared_controls_witness :
  fst (createCapabilityColumn capB bothActive) = Resolved fully_active
  /\ activeControls (toggleCapability sampleWorld (Some capA) bothActive)
     = Some ["C-3"]
  /\ fst (createCapabilityColumn capB
            (toggleCapability sampleWorld (Some capA) bothActive))
     = Resolved partially_active.
Proof.
  split; [reflexivity |]. split; [reflexivity |].
  apply (deactivation_removes_shared_controls sampleWorld capA capB bothActive
           [ctl "C-1"; ctl "C-2"] [ctl "C-2"; ctl "C-3"] "C-2");
    try reflexivity.
  - discriminate.
  - simpl. tauto.
  - simpl. tauto.
Defined.

(** ** Saving without a bound scenario *)

Lemma getItem_setItem (s : DraftManager.Storage) (key : string) (value : Draft) :
  DraftManager.getItem (DraftManager.setItem s key value) key = Some value.
Proof.
  unfold DraftManager.getItem, DraftManager.setItem. simpl.
  now rewrite String.eqb_refl.
Qed.

Lemma getItem_removeItem (s : DraftManager.Storage) (key : string) :
  DraftManager.getItem (DraftManager.removeItem s key) key = None.
Proof.
  unfold DraftManager.getItem, DraftManager.removeItem.
  destruct (find _ (filter _ s)) as [kv |] eqn:F; [| reflexivity].
  apply find_some in F. destruct F as [Hin Hkey].
  apply filter_In in Hin. destruct Hin as [_ Hneq].
  rewrite Hkey in Hneq. discriminate.
Qed.

(** C7: [saveScenario] with no scenario bound sends nothing to the server.
    It shows the "no worksheet selected" message at warning level, calls
    draft persistence with the current selection, and sets the save icon
    from its outcome; when storage accepts the write the draft of the
    current selection is what the user's draft key holds afterwards.  The
    selection and the scenario binding are unchanged. *)
Theorem save_without_scenario_persists_draft (w : World) (st : Dashboard) :
  boundScenario st = None ->
  let st' := saveScenario w st in
  let key := DraftManager.getDraftKey (draftManager st) in
  let draft :=
    {| activeCapabilityIds := DraftManager.orEmpty (activeCapabilities st);
       activeControlIds := DraftManager.orEmpty (activeControls st);
       updatedAt := clock w |} in
  let shown :=
    [StatusMessage noWorksheetSelected warning;
     StorageSetItem key draft;
     SaveStatusUpdate (if storageThrows w then save_error else saved)] in
  log st' = log st ++ shown
  /\ (forall id body, ~ In (Fetch (PutScenario id body)) shown)
  /\ (forall message, ~ In (StatusMessage message error) shown)
  /\ (storageThrows w = false ->
      DraftManager.getItem (localStorage st') key = Some draft)
  /\ activeCapabilities st' = activeCapabilities st
  /\ activeControls st' = activeControls st
  /\ boundScenario st' = None.
Proof.
  intros Hunbound. cbv zeta.
  assert (E : saveScenario w st
              = persistDraft w (showStatusMessage noWorksheetSelected warning st)).
  { unfold saveScenario. rewrite Hunbound. reflexivity. }
  rewrite E. unfold persistDraft, DraftManager.persistDraft.
  unfold boundScenario in *.
  destruct (storageThrows w) eqn:S; simpl;
    rewrite <- !app_assoc; simpl;
    (split; [reflexivity |]);
    (split; [intros id body [H | [H | [H | []]]]; discriminate |]);
    (split; [intros message [H | [H | [H | []]]]; discriminate |]);
    (split; [intros H; try discriminate; apply getItem_setItem |]);
    repeat split; assumption.
Qed.

Lemma save_without_scenario_persists_draft_witness :
  boundScenario bothActive = None
  /\ log (saveScenario sampleWorld bothActive)
     = [StatusMessage noWorksheetSelected warning;
        StorageSetItem "capabilityWorksheetDraft:v1:user:1"
          {| activeCapabilityIds := ["CAP-A"; "CAP-B"];
             activeControlIds := ["C-1"; "C-2"; "C-3"];
             updatedAt := "2025-01-01T00:00:00.000Z" |};
        SaveStatusUpdate saved].
Proof.
  split; [reflexivity |].
  exact (proj1 (save_without_scenario_persists_draft sampleWorld bothActive eq_refl)).
Defined.

(** ** Deleting the bound scenario *)

Lemma clearDraft_session (w : World) (st : Dashboard) :
  treeData (clearDraft w st) = treeData st
  /\ activeCapabilities (clearDraft w st) = activeCapabilities st
  /\ activeControls (clearDraft w st) = activeControls st
  /\ scenarioManager (clearDraft w st) = scenarioManager st
  /\ draftManager (clearDraft w st) = draftManager st
  /\ (storageThrows w = false ->
      DraftManager.getItem (localStorage (clearDraft w st))
        (DraftManager.getDraftKey (draftManager st)) = None).
Proof.
  unfold clearDraft, DraftManager.clearDraft.
  destruct (storageThrows w); simpl; repeat split; try discriminate.
  intros _. apply getItem_removeItem.
Qed.

(** C9: what a successful [deleteScenario] does to the session.  The
    binding and the draft are cleared and [activeCapabilities] is emptied,
    with or without tree data and without an exception; but
    [activeControls] is left exactly as it was, unlike in
    [loadScenario] with a null id, which clears both sets. *)
Theorem deleteScenario_leaves_active_controls
    (w : World) (st : Dashboard) (m : ScenarioManager.t) (id : Z)
    (caps : JSSet.t) (remaining : list Scenario.t) :
  scenarioManager st = Some m ->
  ScenarioManager.getCurrentScenarioId m = Some id ->
  id <> 0%Z ->
  confirmAnswer w = true ->
  scenarioDelete w id = Ok tt ->
  scenarioList w (ScenarioManager.userId m) = Ok remaining ->
  activeCapabilities st = Some caps ->
  let st' := deleteScenario w st in
  boundScenario st' = None
  /\ currentScenarioId st' = None
  /\ (storageThrows w = false ->
      DraftManager.getItem (localStorage st')
        (DraftManager.getDraftKey (draftManager st)) = None)
  /\ activeCapabilities st' = Some JSSet.empty
  /\ activeControls st' = activeControls st
  /\ treeData st' = treeData st.
Proof.
  intros Hm Hcur Hid Hconfirm Hdel Hlist Hcaps. cbv zeta.
  assert (Hbound : boundScenario st = Some id).
  { unfold boundScenario. rewrite Hm, Hcur. simpl.
    destruct (Z.eqb_spec id 0); [contradiction | reflexivity]. }
  unfold deleteScenario. rewrite Hbound, Hm, Hconfirm. cbn [negb].
  unfold ScenarioManager.deleteScenario. rewrite Hdel.
  unfold ScenarioManager.getCurrentScenarioId in Hcur. rewrite Hcur, Z.eqb_refl.
  unfold ScenarioManager.loadScenarios. cbn [ScenarioManager.userId
    ScenarioManager.setCurrentScenarioId]. rewrite Hlist.
  cbn [activeCapabilities set_scenarioManager emits]. rewrite Hcaps.
  match goal with
  | |- context [clearDraft w ?s] =>
      destruct (clearDraft_session w s) as [T [C [K [_ [D G]]]]];
      set (st6 := s) in *
  end.
  assert (F : treeData st6 = treeData st
              /\ activeCapabilities st6 = Some JSSet.empty
              /\ activeControls st6 = activeControls st
              /\ draftManager st6 = draftManager st).
  { unfold st6, showStatusMessage, updateSaveStatus, emit.
    cbn [treeData activeCapabilities activeControls draftManager emits].
    match goal with
    | |- context [recalculateMetrics w (createVerticalTree ?s)] =>
        destruct (sameSession_recalculateMetrics w (createVerticalTree s))
          as [T1 [C1 [K1 [_ [_ [_ [D1 _]]]]]]];
        destruct (sameSession_createVerticalTree s)
          as [T2 [C2 [K2 [_ [_ [_ [D2 _]]]]]]]
    end.
    rewrite T1, C1, K1, D1, T2, C2, K2, D2. repeat split. }
  destruct F as [FT [FC [FK FD]]].
  unfold boundScenario. simpl.
  rewrite T, C, K, FT, FC, FK. rewrite FD in G.
  repeat split; assumption.
Qed.

Lemma deleteScenario_leaves_active_controls_witness :
  boundScenario boundState = Some 7%Z
  /\ activeControls boundState = Some ["C-1"; "C-2"]
  /\ treeData (set_treeData None boundState) = None
  /\ boundScenario (deleteScenario sampleWorld (set_treeData None boundState)) = None
  /\ currentScenarioId (deleteScenario sampleWorld (set_treeData None boundState)) = None
  /\ localStorage (deleteScenario sampleWorld (set_treeData None boundState)) = []
  /\ activeCapabilities (deleteScenario sampleWorld (set_treeData None boundState))
     = Some []
  /\ activeControls (deleteScenario sampleWorld (set_treeData None boundState))
     = Some ["C-1"; "C-2"].
Proof.
  destruct (deleteScenario_leaves_active_controls sampleWorld
              (set_treeData None boundState)
              {| ScenarioManager.userId := 1;
                 ScenarioManager.scenarios := [sampleScenario];
                 ScenarioManager.currentScenarioId := Some 7%Z |}
              7 ["CAP-A"] [] eq_refl eq_refl)
    as [B [I [_ [C [K _]]]]]; try reflexivity; try discriminate.
  repeat split; try reflexivity; assumption.
Defined.

(** ** Loading a scenario *)

Lemma In_applySelections (sels : list CapSel.t) (s : JSSet.t) (x : string) :
  In x (applySelections sels s)
  <-> In x s
      \/ exists sel,
           In sel sels /\ CapSel.is_active sel = true /\ CapSel.capability_id sel = x.
Proof.
  unfold applySelections. revert s.
  induction sels as [| sel sels IH]; intros s; simpl.
  - split; [tauto |]. intros [H | [sel [[] _]]]. assumption.
  - rewrite IH. destruct (CapSel.is_active sel) eqn:A.
    + rewrite In_add. split.
      * intros [[H | H] | [e [Hin He]]]; [now left | right | right].
        -- exists sel. auto.
        -- exists e. tauto.
      * intros [H | [e [[<- | Hin] [Ha He]]]]; [tauto | left; right; now symmetry |].
        right. exists e. tauto.
    + split.
      * intros [H | [e [Hin He]]]; [now left | right]. exists e. tauto.
      * intros [H | [e [[<- | Hin] [Ha He]]]]; [tauto | congruence |].
        right. exists e. tauto.
Qed.

Lemma In_applyControlSelections (sels : list CtlSel.t) (s : JSSet.t) (x : string) :
  In x (applyControlSelections sels s)
  <-> In x s
      \/ exists e,
           In e sels /\ CtlSel.is_active e = true /\ CtlSel.control_id e = x.
Proof.
  unfold applyControlSelections. revert s.
  induction sels as [| sel sels IH]; intros s; simpl.
  - split; [tauto |]. intros [H | [sel [[] _]]]. assumption.
  - rewrite IH. destruct (CtlSel.is_active sel) eqn:A.
    + rewrite In_add. split.
      * intros [[H | H] | [e [Hin He]]]; [now left | right | right].
        -- exists sel. auto.
        -- exists e. tauto.
      * intros [H | [e [[<- | Hin] [Ha He]]]]; [tauto | left; right; now symmetry |].
        right. exists e. tauto.
    + split.
      * intros [H | [e [Hin He]]]; [now left | right]. exists e. tauto.
      * intros [H | [e [[<- | Hin] [Ha He]]]]; [tauto | congruence |].
        right. exists e. tauto.
Qed.

Lemma In_activateControlsOf (tree : list Capability) (caps : list string)
    (s : JSSet.t) (x : string) :
  In x (activateControlsOf tree caps s) <-> In x s \/ reachable tree caps x.
Proof.
  unfold activateControlsOf. revert s.
  induction caps as [| capabilityId caps IH]; intros s; simpl.
  - split; [tauto |]. intros [H | [cap [cs [[] _]]]]. assumption.
  - rewrite IH, (reachable_cons tree capabilityId caps x).
    assert (One : In x (match findCapability tree capabilityId with
                        | Some capability =>
                            match controls capability with
                            | Some cs => JSSet.add_all s (control_ids_of cs)
                            | None => s
                            end
                        | None => s
                        end)
                  <-> In x s \/ reachable tree [capabilityId] x).
    { unfold reachable.
      destruct (findCapability tree capabilityId) as [capability |] eqn:F.
      - destruct (findCapability_id _ _ _ F) as [Hid _].
        destruct (controls capability) as [cs |] eqn:C.
        + rewrite In_add_all. split.
          * intros [H | H]; [now left | right].
            exists capability, cs. rewrite Hid. simpl. auto.
          * intros [H | [cap' [cs' [[Hin | []] [F' [C' H]]]]]]; [now left | right].
            rewrite <- Hin, F in F'. inversion F'. subst cap'.
            rewrite C in C'. inversion C'. now subst cs'.
        + split; [tauto |].
          intros [H | [cap' [cs' [[Hin | []] [F' [C' H]]]]]]; [assumption |].
          rewrite <- Hin, F in F'. inversion F'. subst cap'. congruence.
      - split; [tauto |].
        intros [H | [cap' [cs' [[Hin | []] [F' [C' H]]]]]]; [assumption |].
        rewrite <- Hin, F in F'. discriminate. }
    rewrite One. tauto.
Qed.

(** The tree data after a load: what was there, else what the tree
    endpoint returned. *)
Lemma applyScenario_selection (w : World) (id : Z) (scenario : Scenario.t)
    (st : Dashboard) :
  let st' := applyScenario w id scenario st in
  let tree' :=
    match treeData st with
    | Some tree => Some tree
    | None => match capabilityTree w with
              | Ok tree => Some tree
              | NotOk _ _ | Rejected _ => None
              end
    end in
  let caps' := applySelections (Scenario.selections scenario) JSSet.empty in
  treeData st' = tree'
  /\ activeCapabilities st' = Some caps'
  /\ activeControls st'
     = Some (match Scenario.control_selections scenario with
             | Some (c :: cs) => applyControlSelections (c :: cs) JSSet.empty
             | Some [] | None =>
                 match tree' with
                 | Some tree => activateControlsOf tree caps' JSSet.empty
                 | None => JSSet.empty
                 end
             end)
  /\ scenarioManager st' = scenarioManager st
  /\ currentScenarioId st' = Some id.
Proof.
  cbv zeta. unfold applyScenario, showStatusMessage, updateSaveStatus, emit.
  cbn [treeData activeCapabilities activeControls scenarioManager currentScenarioId emits].
  match goal with
  | |- context [recalculateMetrics w (createVerticalTree ?s)] =>
      destruct (sameSession_recalculateMetrics w (createVerticalTree s))
        as [T1 [C1 [K1 [M1 [I1 _]]]]];
      destruct (sameSession_createVerticalTree s)
        as [T2 [C2 [K2 [M2 [I2 _]]]]]
  end.
  rewrite T1, C1, K1, M1, I1, T2, C2, K2, M2, I2. clear.
  unfold ensureActiveCapabilities, ensureActiveControls, JSSet.clear.
  destruct st as [tree caps ctrls prev mgr cur uid dm storage timer lg].
  destruct caps, ctrls, tree; simpl;
    try (destruct (capabilityTree w); simpl);
    destruct (Scenario.control_selections scenario) as [[| c cs] |];
    simpl; repeat split; reflexivity.
Qed.

Lemma loadScenario_found (w : World) (st : Dashboard) (id : Z) (scenario : Scenario.t) :
  userKnown w st ->
  id <> 0%Z ->
  scenarioById w id = Ok scenario ->
  exists st1 m,
    loadScenario w (Some id) st = (Resolved tt, applyScenario w id scenario st1)
    /\ treeData st1 = treeData st
    /\ scenarioManager st1 = Some m
    /\ ScenarioManager.getCurrentScenarioId m = Some id.
Proof.
  intros Huser Hid Hscen. unfold loadScenario.
  assert (Hnz : Z.eqb id 0 = false) by now apply Z.eqb_neq.
  assert (W : exists st0,
             (if truthy_num (userId st) then (Resolved tt, st)
              else match fetchUserId w with
                   | (Resolved uid, sent) =>
                       (Resolved tt, set_userId (Some uid) (emits sent st))
                   | (Threw message, sent) => (Threw message, emits sent st)
                   end) = (Resolved tt, st0)
             /\ treeData st0 = treeData st).
  { destruct (truthy_num (userId st)) eqn:U; [now exists st |].
    destruct Huser as [H | [uid [Hcur Huid]]]; [congruence |].
    unfold fetchUserId. rewrite Hcur.
    destruct (Z.eqb_spec uid 0); [contradiction |].
    eexists. split; reflexivity. }
  destruct W as [st0 [-> Htree]].
  cbn [truthy_num negb]. rewrite Hnz. cbn [negb].
  unfold ScenarioManager.loadScenario. rewrite Hnz, Hscen.
  eexists. eexists. split; [reflexivity |].
  cbn [treeData scenarioManager set_scenarioManager emits
         ScenarioManager.getCurrentScenarioId ScenarioManager.setCurrentScenarioId
         ScenarioManager.currentScenarioId].
  repeat split. exact Htree.
Qed.

(** C8 (as the code has it): a successful load of a scenario by id binds
    it and activates exactly the capabilities saved with [is_active]; when
    the scenario carries a non-empty [control_selections] list, exactly the
    controls marked active in that list become active; when the list is
    missing or empty, every control of every active capability of the tree
    becomes active. *)
Theorem loadScenario_restores_selection
    (w : World) (st : Dashboard) (id : Z) (scenario : Scenario.t) :
  userKnown w st ->
  id <> 0%Z ->
  scenarioById w id = Ok scenario ->
  let st' := snd (loadScenario w (Some id) st) in
  let caps' := members (activeCapabilities st') in
  let ctrls' := members (activeControls st') in
  fst (loadScenario w (Some id) st) = Resolved tt
  /\ boundScenario st' = Some id
  /\ (forall x,
        In x caps'
        <-> exists sel,
              In sel (Scenario.selections scenario)
              /\ CapSel.is_active sel = true /\ CapSel.capability_id sel = x)
  /\ (forall l,
        Scenario.control_selections scenario = Some l -> l <> [] ->
        forall x,
          In x ctrls'
          <-> exists e,
                In e l /\ CtlSel.is_active e = true /\ CtlSel.control_id e = x)
  /\ (Scenario.control_selections scenario = None
      \/ Scenario.control_selections scenario = Some [] ->
      forall x,
        In x ctrls'
        <-> exists tree, treeData st' = Some tree /\ reachable tree caps' x).
Proof.
  intros Huser Hid Hscen. cbv zeta.
  destruct (loadScenario_found w st id scenario Huser Hid Hscen)
    as [st1 [m [E [_ [Hm Hcur]]]]].
  rewrite E. cbn [fst snd].
  destruct (applyScenario_selection w id scenario st1) as [T [C [K [M _]]]].
  rewrite C, K. cbn [members].
  split; [reflexivity |]. split.
  { unfold boundScenario. rewrite M, Hm, Hcur. simpl.
    destruct (Z.eqb_spec id 0); [contradiction | reflexivity]. }
  split.
  { intros x. rewrite In_applySelections. simpl. tauto. }
  split.
  { intros l Hl Hne x. rewrite Hl.
    destruct l as [| c cs]; [contradiction |].
    rewrite In_applyControlSelections. simpl. tauto. }
  intros Hnone x. rewrite T.
  assert (D : match Scenario.control_selections scenario with
              | Some (c :: cs) => applyControlSelections (c :: cs) JSSet.empty
              | Some [] | None =>
                  match
                    match treeData st1 with
                    | Some tree => Some tree
                    | None => match capabilityTree w with
                              | Ok tree => Some tree
                              | NotOk _ _ | Rejected _ => None
                              end
                    end
                  with
                  | Some tree =>
                      activateControlsOf tree
                        (applySelections (Scenario.selections scenario) JSSet.empty)
                        JSSet.empty
                  | None => JSSet.empty
                  end
              end
              = match
                  match treeData st1 with
                  | Some tree => Some tree
                  | None => match capabilityTree w with
                            | Ok tree => Some tree
                            | NotOk _ _ | Rejected _ => None
                            end
                  end
                with
                | Some tree =>
                    activateControlsOf tree
                      (applySelections (Scenario.selections scenario) JSSet.empty)
                      JSSet.empty
                | None => JSSet.empty
                end).
  { destruct Hnone as [-> | ->]; reflexivity. }
  rewrite D. clear D.
  destruct (match treeData st1 with
            | Some tree => Some tree
            | None => match capabilityTree w with
                      | Ok tree => Some tree
                      | NotOk _ _ | Rejected _ => None
                      end
            end) as [tree |].
  - rewrite In_activateControlsOf. simpl. split.
    + intros [[] | H]. now exists tree.
    + intros [tree' [Ht H]]. inversion Ht. subst. now right.
  - simpl. split; [tauto |]. intros [tree' [Ht _]]. discriminate.
Qed.

Lemma loadScenario_restores_selection_witness :
  userKnown sampleWorld loadedState
  /\ activeCapabilities (snd (loadScenario sampleWorld (Some 7%Z) loadedState))
     = Some ["CAP-A"]
  /\ activeControls (snd (loadScenario sampleWorld (Some 7%Z) loadedState))
     = Some ["C-1"]
  /\ boundScenario (snd (loadScenario sampleWorld (Some 7%Z) loadedState))
     = Some 7%Z.
Proof.
  assert (U : userKnown sampleWorld loadedState) by (left; reflexivity).
  split; [exact U |]. split; [reflexivity |]. split; [reflexivity |].
  refine (proj1 (proj2 (loadScenario_restores_selection sampleWorld loadedState 7
                          sampleScenario U _ eq_refl))).
  discriminate.
Defined.

(** C8, counterexample to the claim as stated: the scenario carries a
    [control_selections] list, the empty one, which marks no control
    active; loading it activates C-1 and C-2, the controls of the active
    capability, as for a scenario without the field. *)
Lemma empty_control_selections_activate_all :
  Scenario.control_selections emptyListScenario = Some []
  /\ applyControlSelections [] JSSet.empty = []
  /\ scenarioById (worldReporting (metricsOf 2 1 0 0) emptyListScenario) 7
     = Ok emptyListScenario
  /\ fst (loadScenario (worldReporting (metricsOf 2 1 0 0) emptyListScenario)
            (Some 7%Z) loadedState)
     = Resolved tt
  /\ activeCapabilities
       (snd (loadScenario (worldReporting (metricsOf 2 1 0 0) emptyListScenario)
               (Some 7%Z) loadedState))
     = Some ["CAP-A"]
  /\ activeControls
       (snd (loadScenario (worldReporting (metricsOf 2 1 0 0) emptyListScenario)
               (Some 7%Z) loadedState))
     = Some ["C-1"; "C-2"].
Proof. repeat split. Qed.

(** * Further properties of the worksheet code *)

From Stdlib Require DecimalPos DecimalZ.

(** ** Metric cards *)

(** X1: when a recalculation finds the active-controls count changed
    against a known previous value, it animates that card exactly once:
    green on an increase, yellow on a decrease. *)
Theorem active_controls_delta_color
    (w : World) (st : Dashboard) (payload : AnalysisRequest) (m : Metrics) (previous : Z) :
  requestPayload st = Some payload ->
  capabilityAnalysis w payload = Ok m ->
  hasActiveControlsCard w = true ->
  Previous.active_controls (previousMetrics st) = Some previous ->
  let change := (orZero (active_controls m) - previous)%Z in
  change <> 0%Z ->
  exists color after,
    log (recalculateMetrics w st)
    = log st ++ Fetch (PostCapabilityAnalysis payload)
             :: MetricAnimated card_active_controls change color :: after
    /\ Forall (fun e => ~ onCard card_active_controls e) after
    /\ ((change > 0)%Z -> color = green)
    /\ ((change < 0)%Z -> color = yellow).
Proof.
  intros Hpay Hresp Hcard Hprev change Hchange.
  unfold recalculateMetrics. rewrite Hpay, Hresp.
  set (st0 := emit (Fetch (PostCapabilityAnalysis payload)) st).
  unfold updateMetricCards.
  set (st1 := updateActiveControlsCard w m st0).
  set (color := if (change >? 0)%Z then green else yellow).
  assert (G1 : log st1 = log st0 ++ [MetricAnimated card_active_controls change color]).
  { unfold st1, updateActiveControlsCard. rewrite Hcard.
    replace (previousMetrics st0) with (previousMetrics st) by reflexivity.
    rewrite Hprev.
    destruct (Z.eqb_spec previous (orZero (active_controls m))) as [E | _].
    - exfalso. apply Hchange. unfold change. lia.
    - reflexivity. }
  set (st2 := updatePartiallyCoveredCard w m _ _ _ st1).
  set (st3 := updateExposedRisksCard w m _ st2).
  match goal with
  | |- context [match ?x with Some _ => ?a | None => ?b end] =>
      set (final := match x with Some _ => a | None => b end)
  end.
  assert (G : logGrows (fun e => ~ onCard card_active_controls e) st1 final).
  { apply logGrows_trans with st2;
      [apply logGrows_partiallyCoveredCard; simpl; discriminate |].
    apply logGrows_trans with st3;
      [apply logGrows_exposedRisksCard; simpl; discriminate |].
    apply logGrows_afterCards. simpl. tauto. }
  destruct G as [after [L F]].
  exists color, after. split.
  { rewrite L, G1. unfold st0. simpl. rewrite <- !app_assoc. reflexivity. }
  split; [exact F |]. unfold color.
  destruct (Z.gtb_spec change 0); split; intros; try reflexivity; lia.
Qed.

Lemma active_controls_delta_color_witness :
  exists color after,
    log (recalculateMetrics (worldReporting (metricsOf 1 3 5 2) sampleScenario)
           afterFirstRecalculation)
    = log afterFirstRecalculation
      ++ Fetch (PostCapabilityAnalysis
                  {| capability_ids := ["CAP-A"; "CAP-B"];
                     control_ids := Some ["C-1"; "C-2"; "C-3"] |})
         :: MetricAnimated card_active_controls (-2) color :: after
    /\ color = yellow.
Proof.
  destruct (active_controls_delta_color
              (worldReporting (metricsOf 1 3 5 2) sampleScenario)
              afterFirstRecalculation
              {| capability_ids := ["CAP-A"; "CAP-B"];
                 control_ids := Some ["C-1"; "C-2"; "C-3"] |}
              (metricsOf 1 3 5 2) 3 eq_refl eq_refl eq_refl eq_refl)
    as [color [after [Hlog [_ [_ Hyellow]]]]].
  - discriminate.
  - exists color, after. split; [exact Hlog | apply Hyellow; reflexivity].
Defined.



(** X3: a recalculation that fails (no capability set to read, a non-2xx
    answer or a rejected request) shows "Could not update metrics." on the
    error banner and nothing else: the remembered metric values and the
    whole session stay as they were, and no card is animated. *)
Theorem recalculate_failure_changes_nothing (w : World) (st : Dashboard) :
  (forall payload m,
     requestPayload st = Some payload -> capabilityAnalysis w payload <> Ok m) ->
  previousMetrics (recalculateMetrics w st) = previousMetrics st
  /\ sameSession st (recalculateMetrics w st)
  /\ log (recalculateMetrics w st)
     = log st
       ++ match requestPayload st with
          | Some payload => [Fetch (PostCapabilityAnalysis payload)]
          | None => []
          end
       ++ [ErrorBanner "Could not update metrics."].
Proof.
  intros Hfail. split; [| split; [apply sameSession_recalculateMetrics |]];
    unfold recalculateMetrics;
    destruct (requestPayload st) as [payload |] eqn:P; try reflexivity;
    specialize (Hfail payload);
    destruct (capabilityAnalysis w payload) as [m | status detail | message];
    try (exfalso; now apply (Hfail m));
    try reflexivity; simpl; now rewrite <- app_assoc.
Qed.

Lemma recalculate_failure_changes_nothing_witness :
  previousMetrics
    (recalculateMetrics
       {| capabilityAnalysis := fun _ => NotOk 503 "Service Unavailable";
          capabilityTree := capabilityTree sampleWorld;
          scenarioList := scenarioList sampleWorld;
          scenarioById := scenarioById sampleWorld;
          scenarioUpdate := scenarioUpdate sampleWorld;
          scenarioDelete := scenarioDelete sampleWorld;
          currentUser := currentUser sampleWorld;
          confirmAnswer := true; storageThrows := false;
          clock := clock sampleWorld;
          hasActiveControlsCard := true; hasPartiallyCoveredCard := true;
          hasExposedRisksCard := true |}
       afterFirstRecalculation)
  = previousMetrics afterFirstRecalculation.
Proof.
  refine (proj1 (recalculate_failure_changes_nothing _ afterFirstRecalculation _)).
  intros payload m _. discriminate.
Defined.

(** *** Cards that stay still *)

Lemma quiet_activeControlsCard (w : World) (m : Metrics) (st : Dashboard) :
  (forall p, Previous.active_controls (previousMetrics st) = Some p ->
             p = orZero (active_controls m)) ->
  log (updateActiveControlsCard w m st) = log st.
Proof.
  intros H. unfold updateActiveControlsCard.
  destruct (hasActiveControlsCard w); [| reflexivity].
  destruct (Previous.active_controls (previousMetrics st)) as [p |]; [| reflexivity].
  rewrite (H p eq_refl), Z.eqb_refl. reflexivity.
Qed.

Lemma quiet_partiallyCoveredCard (w : World) (m : Metrics) (st : Dashboard)
    (pe pa pp : option Z) :
  (forall p, pp = Some p -> p = orZero (partially_covered_risks m)) ->
  log (updatePartiallyCoveredCard w m pe pa pp st) = log st.
Proof.
  intros H. unfold updatePartiallyCoveredCard.
  destruct (hasPartiallyCoveredCard w); [| reflexivity].
  destruct pp as [p |]; [| reflexivity].
  rewrite (H p eq_refl), Z.eqb_refl. reflexivity.
Qed.

Lemma quiet_exposedRisksCard (w : World) (m : Metrics) (st : Dashboard)
    (pe : option Z) :
  (forall p, pe = Some p -> p = orZero (exposed_risks m)) ->
  log (updateExposedRisksCard w m pe st) = log st.
Proof.
  intros H. unfold updateExposedRisksCard.
  destruct (hasExposedRisksCard w); [| reflexivity].
  destruct pe as [p |]; [| reflexivity].
  rewrite (H p eq_refl), Z.eqb_refl. reflexivity.
Qed.

(** X4: a recalculation animates nothing when every remembered value is
    either still unset (the first update) or equal to the value just
    received. *)
Theorem recalculate_without_change_is_still
    (w : World) (st : Dashboard) (payload : AnalysisRequest) (m : Metrics) :
  requestPayload st = Some payload ->
  capabilityAnalysis w payload = Ok m ->
  (forall p, Previous.active_controls (previousMetrics st) = Some p ->
             p = orZero (active_controls m)) ->
  (forall p, Previous.partially_covered_risks (previousMetrics st) = Some p ->
             p = orZero (partially_covered_risks m)) ->
  (forall p, Previous.exposed_risks (previousMetrics st) = Some p ->
             p = orZero (exposed_risks m)) ->
  exists after,
    log (recalculateMetrics w st)
    = log st ++ Fetch (PostCapabilityAnalysis payload) :: after
    /\ noAnimation after.
Proof.
  intros Hpay Hresp Hac Hpc Her.
  unfold recalculateMetrics. rewrite Hpay, Hresp.
  set (st0 := emit (Fetch (PostCapabilityAnalysis payload)) st).
  unfold updateMetricCards.
  set (st1 := updateActiveControlsCard w m st0).
  destruct (activeControlsCard_keeps_previous w m st0) as [Ke [Ka Kp]].
  fold st1 in Ke, Ka, Kp. rewrite Ke, Ka, Kp.
  replace (previousMetrics st0) with (previousMetrics st) by reflexivity.
  set (st2 := updatePartiallyCoveredCard w m _ _ _ st1).
  set (st3 := updateExposedRisksCard w m _ st2).
  assert (L1 : log st1 = log st0) by (apply quiet_activeControlsCard; exact Hac).
  assert (L2 : log st2 = log st1) by (apply quiet_partiallyCoveredCard; exact Hpc).
  assert (L3 : log st3 = log st2) by (apply quiet_exposedRisksCard; exact Her).
  match goal with
  | |- context [match ?x with Some _ => ?a | None => ?b end] =>
      set (final := match x with Some _ => a | None => b end)
  end.
  assert (G : logGrows (fun e => forall card change color,
                                   e <> MetricAnimated card change color) st3 final).
  { apply logGrows_afterCards. intros; discriminate. }
  destruct G as [after [L F]].
  exists after. split.
  { rewrite L, L3, L2, L1. unfold st0. simpl. now rewrite <- app_assoc. }
  intros card change color Hin.
  rewrite Forall_forall in F. now apply (F _ Hin card change color).
Qed.

Lemma recalculate_without_change_is_still_witness :
  exists after,
    log (recalculateMetrics sampleWorld bothActive)
    = log bothActive
      ++ Fetch (PostCapabilityAnalysis
                  {| capability_ids := ["CAP-A"; "CAP-B"];
                     control_ids := Some ["C-1"; "C-2"; "C-3"] |}) :: after
    /\ noAnimation after.
Proof.
  apply (recalculate_without_change_is_still sampleWorld bothActive
           {| capability_ids := ["CAP-A"; "CAP-B"];
              control_ids := Some ["C-1"; "C-2"; "C-3"] |}
           (metricsOf 3 3 5 2) eq_refl eq_refl);
    intros p H; discriminate.
Defined.

(** *** The change summary *)




(** ** Toggles *)

Lemma requestPayload_selection (a b : Dashboard) :
  activeCapabilities a = activeCapabilities b ->
  activeControls a = activeControls b ->
  requestPayload a = requestPayload b.
Proof. intros H1 H2. unfold requestPayload. now rewrite H1, H2. Qed.

Lemma createVerticalTree_log (st : Dashboard) :
  exists drawn,
    log (createVerticalTree st) = log st ++ [drawn]
    /\ (drawn = TreeRendered \/ drawn = ErrorBanner "No capability data available").
Proof.
  unfold createVerticalTree.
  destruct (treeData st) as [[| cap tree] |];
    eexists; (split; [reflexivity |]); auto.
Qed.

(** The state right after the two sets have been updated in
    [toggleCapability], before redrawing. *)
Lemma toggleCapability_steps (w : World) (capability : Capability) (st : Dashboard) :
  truthy (capability_id capability) = true ->
  exists st2,
    toggleCapability w (Some capability) st
    = scheduleAutoSave (updateSaveStatus unsaved
                          (recalculateMetrics w (createVerticalTree st2)))
    /\ log st2 = log st
    /\ (exists caps, activeCapabilities st2 = Some caps).
Proof.
  intros T. unfold toggleCapability. rewrite T. cbn [negb].
  eexists. split; [reflexivity |].
  unfold ensureActiveCapabilities, ensureActiveControls.
  destruct st as [tree caps ctrls prev mgr cur uid dm storage timer lg].
  destruct caps, ctrls; simpl;
    destruct (controls capability);
    repeat match goal with
           | |- context [JSSet.has ?s ?x] => destruct (JSSet.has s x)
           end;
    simpl; split; try reflexivity; eexists; reflexivity.
Qed.

(** X6: toggling a capability with a valid id redraws the tree, then
    sends exactly one analysis request, built from the selection as it is
    after the toggle, then marks the worksheet unsaved and leaves an
    auto-save scheduled. *)
Theorem toggle_recalculates_new_selection
    (w : World) (capability : Capability) (st : Dashboard) :
  truthy (capability_id capability) = true ->
  let st' := toggleCapability w (Some capability) st in
  exists drawn payload shown,
    log st'
    = log st
      ++ drawn :: Fetch (PostCapabilityAnalysis payload) :: shown
      ++ [SaveStatusUpdate unsaved; SaveStatusUpdate unsaved]
    /\ (drawn = TreeRendered \/ drawn = ErrorBanner "No capability data available")
    /\ requestPayload st' = Some payload
    /\ Forall onPage shown
    /\ autoSaveTimer st' = true.
Proof.
  intros T. cbv zeta.
  destruct (toggleCapability_steps w capability st T) as [st2 [E [L2 [caps C2]]]].
  rewrite E.
  destruct (createVerticalTree_log st2) as [drawn [L3 Hdrawn]].
  destruct (sameSession_createVerticalTree st2) as [_ [C3 [K3 _]]].
  destruct (recalculateMetrics_log w (createVerticalTree st2)) as [shown [L4 F4]].
  destruct (sameSession_recalculateMetrics w (createVerticalTree st2))
    as [_ [C4 [K4 _]]].
  assert (P3 : requestPayload (createVerticalTree st2)
               = Some {| capability_ids := JSSet.to_list caps;
                         control_ids :=
                           match option_map JSSet.to_list (activeControls st2) with
                           | Some ids =>
                               if Nat.ltb 0 (List.length ids) then Some ids else None
                           | None => None
                           end |}).
  { unfold requestPayload. now rewrite C3, K3, C2. }
  rewrite P3 in L4.
  eexists drawn, _, shown. split.
  { cbn [log scheduleAutoSave updateSaveStatus emit emits set_autoSaveTimer].
    rewrite L4, L3, L2. rewrite <- !app_assoc. reflexivity. }
  split; [exact Hdrawn |]. split.
  { rewrite <- P3. apply requestPayload_selection; simpl; congruence. }
  split; [exact F4 | reflexivity].
Qed.

Lemma toggle_recalculates_new_selection_witness :
  exists drawn shown,
    log (toggleCapability sampleWorld (Some capB) bothActive)
    = log bothActive
      ++ drawn
         :: Fetch (PostCapabilityAnalysis
                     {| capability_ids := ["CAP-A"]; control_ids := Some ["C-1"] |})
         :: shown
      ++ [SaveStatusUpdate unsaved; SaveStatusUpdate unsaved].
Proof.
  destruct (toggle_recalculates_new_selection sampleWorld capB bothActive eq_refl)
    as [drawn [payload [shown [Hlog [_ [Hpay _]]]]]].
  exists drawn, shown.
  assert (E : Some payload
              = Some {| capability_ids := ["CAP-A"]; control_ids := Some ["C-1"] |}).
  { rewrite <- Hpay. reflexivity. }
  inversion E. subst payload. exact Hlog.
Defined.

(** An active capability with at least one control, all of them in
    [activeControls], is drawn fully active. *)
Lemma createCapabilityColumn_full (capability : Capability) (st : Dashboard)
    (caps : JSSet.t) (c0 : ControlRef) (cs : list ControlRef) :
  activeCapabilities st = Some caps ->
  JSSet.has caps (capability_id capability) = true ->
  controls capability = Some (c0 :: cs) ->
  (forall c, In c (c0 :: cs) ->
             JSSet.has (members (activeControls st)) (control_id c) = true) ->
  fst (createCapabilityColumn capability st) = Resolved fully_active.
Proof.
  intros Hcaps Hactive Hcs Hall.
  unfold createCapabilityColumn. rewrite Hcaps, Hactive, Hcs.
  rewrite members_ensureActiveControls.
  change (Nat.ltb 0 (List.length (c0 :: cs))) with true. cbn [andb].
  destruct (Nat.eqb_spec
              (List.length
                 (filter (fun c => JSSet.has (members (activeControls st)) (control_id c))
                         (c0 :: cs)))
              (List.length (c0 :: cs))) as [E | E]; [reflexivity |].
  exfalso. apply E. apply (proj2 (filter_length_all _ _)). exact Hall.
Qed.

(** An active capability without controls is drawn partially active. *)
Lemma createCapabilityColumn_bare (capability : Capability) (st : Dashboard)
    (caps : JSSet.t) :
  activeCapabilities st = Some caps ->
  JSSet.has caps (capability_id capability) = true ->
  controls capability = None \/ controls capability = Some [] ->
  fst (createCapabilityColumn capability st) = Resolved partially_active.
Proof.
  intros Hcaps Hactive Hcs.
  unfold createCapabilityColumn. rewrite Hcaps, Hactive.
  destruct Hcs as [-> | ->]; reflexivity.
Qed.

(** X7: activating an inactive capability (valid id) makes it active
    with every one of its controls active, so it is drawn fully active
    when it has controls and partially active when it has none. *)
Theorem activation_gives_full_status
    (w : World) (capability : Capability) (st : Dashboard) :
  truthy (capability_id capability) = true ->
  JSSet.has (members (activeCapabilities st)) (capability_id capability) = false ->
  let st' := toggleCapability w (Some capability) st in
  JSSet.has (members (activeCapabilities st')) (capability_id capability) = true
  /\ (forall cs c,
        controls capability = Some cs -> In c (control_ids_of cs) ->
        JSSet.has (members (activeControls st')) c = true)
  /\ (forall x,
        JSSet.has (members (activeControls st)) x = true ->
        JSSet.has (members (activeControls st')) x = true)
  /\ fst (createCapabilityColumn capability st')
     = Resolved (match controls capability with
                 | Some (_ :: _) => fully_active
                 | Some [] | None => partially_active
                 end).
Proof.
  intros T Hoff st'.
  destruct (toggleCapability_selection w capability st T) as [_ [C K]].
  fold st' in C, K. rewrite Hoff in C, K.
  assert (Hon : JSSet.has (members (activeCapabilities st')) (capability_id capability)
                = true).
  { rewrite C. simpl. rewrite has_add, String.eqb_refl. apply orb_true_r. }
  assert (Hall : forall cs c,
             controls capability = Some cs -> In c (control_ids_of cs) ->
             JSSet.has (members (activeControls st')) c = true).
  { intros cs c Hcs Hin. rewrite K, Hcs. simpl. apply has_add_all. now right. }
  split; [exact Hon |]. split; [exact Hall |]. split.
  { intros x Hx. rewrite K. simpl.
    destruct (controls capability); [| exact Hx]. apply has_add_all. now left. }
  rewrite C in Hon. simpl in Hon.
  destruct (controls capability) as [[| c0 cs] |] eqn:Hcs.
  - apply (createCapabilityColumn_bare capability st' _ C Hon). now right.
  - apply (createCapabilityColumn_full capability st' _ c0 cs C Hon Hcs).
    intros c Hin. apply (Hall (c0 :: cs) (control_id c) eq_refl).
    unfold control_ids_of. now apply in_map.
  - apply (createCapabilityColumn_bare capability st' _ C Hon). now left.
Qed.

Lemma activation_gives_full_status_witness :
  fst (createCapabilityColumn capA
         (toggleCapability sampleWorld (Some capA) loadedState))
  = Resolved fully_active
  /\ fst (createCapabilityColumn capC
            (toggleCapability sampleWorld (Some capC) loadedState))
     = Resolved partially_active.
Proof.
  split.
  - exact (proj2 (proj2 (proj2
             (activation_gives_full_status sampleWorld capA loadedState
                eq_refl eq_refl)))).
  - exact (proj2 (proj2 (proj2
             (activation_gives_full_status sampleWorld capC loadedState
                eq_refl eq_refl)))).
Defined.

(** *** The control checkbox *)

Lemma toggleControl_selection (w : World) (controlId capabilityId : string)
    (st : Dashboard) (caps : JSSet.t) :
  activeCapabilities st = Some caps ->
  let st' := snd (toggleControl w controlId capabilityId st) in
  let ctrls := members (activeControls st) in
  fst (toggleControl w controlId capabilityId st)
  = Resolved (JSSet.has caps capabilityId)
  /\ treeData st' = treeData st
  /\ activeCapabilities st' = Some caps
  /\ activeControls st'
     = Some (if JSSet.has caps capabilityId
             then if JSSet.has ctrls controlId
                  then JSSet.delete ctrls controlId
                  else JSSet.add ctrls controlId
             else ctrls).
Proof.
  intros Hcaps. cbv zeta. unfold toggleControl.
  assert (E : activeCapabilities (ensureActiveControls st) = Some caps).
  { unfold ensureActiveControls. now destruct (activeControls st). }
  assert (Et : treeData (ensureActiveControls st) = treeData st).
  { unfold ensureActiveControls. now destruct (activeControls st). }
  assert (Ek : activeControls (ensureActiveControls st)
               = Some (members (activeControls st))).
  { unfold ensureActiveControls. destruct (activeControls st) eqn:K; simpl; now rewrite ?K. }
  rewrite E, members_ensureActiveControls.
  destruct (JSSet.has caps capabilityId); cbn [negb fst snd].
  2:{ repeat split; assumption. }
  match goal with
  | |- context [scheduleAutoSave (recalculateMetrics w ?s)] =>
      destruct (sameSession_recalculateMetrics w s) as [T1 [C1 [K1 _]]]
  end.
  cbn [treeData activeCapabilities activeControls scheduleAutoSave updateSaveStatus
         emit emits set_autoSaveTimer].
  rewrite T1, C1, K1.
  destruct (JSSet.has (members (activeControls st)) controlId);
    cbn [treeData activeCapabilities activeControls set_activeControls];
    repeat split; assumption.
Qed.

(** X8: the control checkbox changes the membership of its own control
    only, and only when the owning capability is active: the control is
    flipped if the capability is active and kept if it is not (the
    checkbox is then reverted); no other control and no capability changes. *)
Theorem toggleControl_flips_one_control
    (w : World) (controlId capabilityId : string) (st : Dashboard) (caps : JSSet.t) :
  activeCapabilities st = Some caps ->
  let st' := snd (toggleControl w controlId capabilityId st) in
  fst (toggleControl w controlId capabilityId st)
  = Resolved (JSSet.has caps capabilityId)
  /\ JSSet.has (members (activeControls st')) controlId
     = xorb (JSSet.has (members (activeControls st)) controlId)
            (JSSet.has caps capabilityId)
  /\ (forall x, x <> controlId ->
                JSSet.has (members (activeControls st')) x
                = JSSet.has (members (activeControls st)) x)
  /\ activeCapabilities st' = Some caps.
Proof.
  intros Hcaps st'.
  destruct (toggleControl_selection w controlId capabilityId st caps Hcaps)
    as [R [_ [C K]]].
  fold st' in C, K. split; [exact R |]. rewrite K. cbn [members].
  destruct (JSSet.has caps capabilityId).
  - destruct (JSSet.has (members (activeControls st)) controlId) eqn:On.
    + split; [| split; [| exact C]].
      * rewrite has_delete, String.eqb_refl. apply andb_false_r.
      * intros x Hx. rewrite has_delete.
        apply String.eqb_neq in Hx. rewrite Hx. apply andb_true_r.
    + split; [| split; [| exact C]].
      * rewrite has_add, String.eqb_refl. apply orb_true_r.
      * intros x Hx. rewrite has_add.
        apply String.eqb_neq in Hx. rewrite Hx. apply orb_false_r.
  - split; [| split; [reflexivity | exact C]].
    now rewrite xorb_false_r.
Qed.

Lemma toggleControl_flips_one_control_witness :
  fst (toggleControl sampleWorld "C-3" "CAP-C" bothActive) = Resolved false
  /\ activeControls (snd (toggleControl sampleWorld "C-3" "CAP-C" bothActive))
     = Some ["C-1"; "C-2"; "C-3"]
  /\ fst (toggleControl sampleWorld "C-3" "CAP-B" bothActive) = Resolved true
  /\ activeControls (snd (toggleControl sampleWorld "C-3" "CAP-B" bothActive))
     = Some ["C-1"; "C-2"].
Proof.
  split; [| split; [reflexivity | split; [| reflexivity]]].
  - exact (proj1 (toggleControl_flips_one_control sampleWorld "C-3" "CAP-C"
                    bothActive ["CAP-A"; "CAP-B"] eq_refl)).
  - exact (proj1 (toggleControl_flips_one_control sampleWorld "C-3" "CAP-B"
                    bothActive ["CAP-A"; "CAP-B"] eq_refl)).
Defined.

(** X9: switching one control off in a fully active capability turns the
    capability partially active; the capability itself stays active. *)
Theorem control_off_makes_partial
    (w : World) (capability : Capability) (control : ControlRef)
    (st : Dashboard) (caps : JSSet.t) (cs : list ControlRef) :
  activeCapabilities st = Some caps ->
  controls capability = Some cs ->
  In control cs ->
  fst (createCapabilityColumn capability st) = Resolved fully_active ->
  let st' :=
    snd (toggleControl w (control_id control) (capability_id capability) st) in
  JSSet.has (members (activeCapabilities st')) (capability_id capability) = true
  /\ JSSet.has (members (activeControls st')) (control_id control) = false
  /\ fst (createCapabilityColumn capability st') = Resolved partially_active.
Proof.
  intros Hcaps Hcs Hin Hfull st'.
  assert (Hactive : JSSet.has caps (capability_id capability) = true).
  { unfold createCapabilityColumn in Hfull. rewrite Hcaps in Hfull.
    destruct (JSSet.has caps (capability_id capability)); [reflexivity |].
    simpl in Hfull. discriminate. }
  assert (Hon : JSSet.has (members (activeControls st)) (control_id control) = true).
  { unfold createCapabilityColumn in Hfull. rewrite Hcaps, Hactive, Hcs in Hfull.
    rewrite members_ensureActiveControls in Hfull.
    destruct cs as [| c0 cs']; [contradiction |].
    change (Nat.ltb 0 (List.length (c0 :: cs'))) with true in Hfull.
    cbn [andb] in Hfull.
    destruct (Nat.eqb_spec
                (List.length
                   (filter (fun c => JSSet.has (members (activeControls st))
                                       (control_id c)) (c0 :: cs')))
                (List.length (c0 :: cs'))) as [E | E]; [| simpl in Hfull; discriminate].
    exact (proj1 (filter_length_all _ _) E control Hin). }
  destruct (toggleControl_selection w (control_id control)
              (capability_id capability) st caps Hcaps) as [_ [_ [C K]]].
  fold st' in C, K. rewrite Hactive, Hon in K.
  assert (F : JSSet.has (members (activeControls st')) (control_id control) = false).
  { rewrite K. cbn [members]. rewrite has_delete, String.eqb_refl.
    apply andb_false_r. }
  split; [rewrite C; exact Hactive |]. split; [exact F |].
  apply (createCapabilityColumn_partial capability st' caps cs control C Hactive Hcs Hin F).
Qed.

Lemma control_off_makes_partial_witness :
  fst (createCapabilityColumn capB bothActive) = Resolved fully_active
  /\ fst (createCapabilityColumn capB
            (snd (toggleControl sampleWorld "C-3" "CAP-B" bothActive)))
     = Resolved partially_active.
Proof.
  split; [reflexivity |].
  refine (proj2 (proj2 (control_off_makes_partial sampleWorld capB (ctl "C-3")
                          bothActive ["CAP-A"; "CAP-B"] [ctl "C-2"; ctl "C-3"]
                          eq_refl eq_refl _ eq_refl))).
  simpl. tauto.
Defined.

(** ** The selection invariant *)

Lemma reachable_mono (tree : list Capability) (caps caps' : JSSet.t) (c : string) :
  (forall x, In x caps -> In x caps') ->
  reachable tree caps c -> reachable tree caps' c.
Proof.
  intros Hsub [capability [cs [Hin H]]]. exists capability, cs. split; [auto | exact H].
Qed.

(** X10: [toggleCapability] on a capability of the tree keeps the
    selection invariant: if every active control was listed under some
    active capability before the toggle, the same holds after it. *)
Theorem toggleCapability_keeps_controls_backed
    (w : World) (tree : list Capability) (capability : Capability) (st : Dashboard) :
  treeData st = Some tree ->
  findCapability tree (capability_id capability) = Some capability ->
  controlsBacked tree (members (activeCapabilities st)) (members (activeControls st)) ->
  let st' := toggleCapability w (Some capability) st in
  controlsBacked tree (members (activeCapabilities st')) (members (activeControls st')).
Proof.
  intros Htree Hfind Hinv st'.
  destruct (truthy (capability_id capability)) eqn:T.
  2:{ assert (E : st' = st) by (unfold st', toggleCapability; now rewrite T).
      now rewrite E. }
  destruct (toggleCapability_selection w capability st T) as [_ [C K]].
  fold st' in C, K. rewrite C, K. cbn [members].
  intros c Hc.
  destruct (JSSet.has (members (activeCapabilities st)) (capability_id capability))
    eqn:Active.
  - (* deactivation *)
    assert (Hold : In c (members (activeControls st))
                   /\ forall cs, controls capability = Some cs ->
                                 ~ In c (control_ids_of cs)).
    { destruct (controls capability) as [cs |].
      - apply In_delete_all in Hc. destruct Hc as [H1 H2].
        split; [exact H1 |]. intros cs' E. inversion E. now subst.
      - split; [exact Hc | discriminate]. }
    destruct Hold as [Hin Hnot].
    destruct (Hinv c Hin) as [b [cs [Hb [Fb [Cb Inb]]]]].
    exists b, cs. split; [| now repeat split].
    apply In_delete. split; [exact Hb |].
    intros Heq. rewrite Heq, Hfind in Fb. inversion Fb. subst b.
    exact (Hnot cs Cb Inb).
  - (* activation *)
    assert (Hcases : In c (members (activeControls st))
                     \/ exists cs, controls capability = Some cs
                                   /\ In c (control_ids_of cs)).
    { destruct (controls capability) as [cs |].
      - apply In_add_all in Hc. destruct Hc as [H | H]; [now left | right].
        now exists cs.
      - now left. }
    destruct Hcases as [Hin | [cs [Hcs Hin]]].
    + apply reachable_mono with (members (activeCapabilities st)); [| now apply Hinv].
      intros x Hx. apply In_add. now left.
    + exists capability, cs. split; [apply In_add; now right | now repeat split].
Qed.

Lemma toggleCapability_keeps_controls_backed_witness :
  controlsBacked sampleTree ["CAP-A"; "CAP-B"] ["C-1"; "C-2"; "C-3"]
  /\ controlsBacked sampleTree
       (members (activeCapabilities (toggleCapability sampleWorld (Some capA) bothActive)))
       (members (activeControls (toggleCapability sampleWorld (Some capA) bothActive))).
Proof.
  assert (H : controlsBacked sampleTree ["CAP-A"; "CAP-B"] ["C-1"; "C-2"; "C-3"]).
  { intros c [<- | [<- | [<- | []]]].
    - exists capA, [ctl "C-1"; ctl "C-2"]. simpl. tauto.
    - exists capA, [ctl "C-1"; ctl "C-2"]. simpl. tauto.
    - exists capB, [ctl "C-2"; ctl "C-3"]. simpl. tauto. }
  split; [exact H |].
  exact (toggleCapability_keeps_controls_backed sampleWorld sampleTree capA bothActive
           eq_refl eq_refl H).
Defined.

(** X11: the control checkbox keeps the selection invariant when the
    control it stands for is listed under the capability the checkbox
    belongs to. *)
Theorem toggleControl_keeps_controls_backed
    (w : World) (tree : list Capability) (capability : Capability)
    (cs : list ControlRef) (controlId : string) (st : Dashboard) (caps : JSSet.t) :
  activeCapabilities st = Some caps ->
  findCapability tree (capability_id capability) = Some capability ->
  controls capability = Some cs ->
  In controlId (control_ids_of cs) ->
  controlsBacked tree caps (members (activeControls st)) ->
  let st' := snd (toggleControl w controlId (capability_id capability) st) in
  controlsBacked tree (members (activeCapabilities st')) (members (activeControls st')).
Proof.
  intros Hcaps Hfind Hcs Hin Hinv st'.
  destruct (toggleControl_selection w controlId (capability_id capability) st caps Hcaps)
    as [_ [_ [C K]]].
  fold st' in C, K. rewrite C, K. cbn [members].
  intros c Hc.
  destruct (JSSet.has caps (capability_id capability)) eqn:Active; [| now apply Hinv].
  destruct (JSSet.has (members (activeControls st)) controlId).
  - apply In_delete in Hc. now apply Hinv.
  - apply In_add in Hc. destruct Hc as [Hc | ->]; [now apply Hinv |].
    exists capability, cs. split; [now apply has_In | now repeat split].
Qed.

Lemma toggleControl_keeps_controls_backed_witness :
  controlsBacked sampleTree
    (members (activeCapabilities
                (snd (toggleControl sampleWorld "C-2" "CAP-A"
                        (set_activeControls (Some []) bothActive)))))
    (members (activeControls
                (snd (toggleControl sampleWorld "C-2" "CAP-A"
                        (set_activeControls (Some []) bothActive))))).
Proof.
  apply (toggleControl_keeps_controls_backed sampleWorld sampleTree capA
           [ctl "C-1"; ctl "C-2"] "C-2" (set_activeControls (Some []) bothActive)
           ["CAP-A"; "CAP-B"] eq_refl eq_refl eq_refl).
  - simpl. tauto.
  - intros c [].
Defined.

(** ** Activate all, clear all *)

Lemma activateAll_fold (tree : list Capability) (caps : JSSet.t)
    (ctrls : option JSSet.t) (n : nat) :
  exists caps' ctrls',
    fold_left activateStep tree (Resolved (Some caps, ctrls, n))
    = Resolved (Some caps', ctrls', (n + List.length (validCapabilities tree))%nat)
    /\ (forall x,
          In x caps'
          <-> In x caps
              \/ exists cap, In cap (validCapabilities tree) /\ capability_id cap = x)
    /\ (ctrls = None -> ctrls' = None)
    /\ (forall k,
          ctrls = Some k ->
          exists k',
            ctrls' = Some k'
            /\ forall c,
                 In c k'
                 <-> In c k
                     \/ exists cap cs,
                          In cap (validCapabilities tree)
                          /\ controls cap = Some cs /\ In c (control_ids_of cs)).
Proof.
  revert caps ctrls n. induction tree as [| cap tree IH]; intros caps ctrls n.
  - exists caps, ctrls. simpl. rewrite Nat.add_0_r. split; [reflexivity |].
    split; [| split].
    + intros x. split; [tauto |]. intros [H | [c [[] _]]]. exact H.
    + auto.
    + intros k ->. exists k. split; [reflexivity |]. intros c.
      split; [tauto |]. intros [H | [c0 [cs [[] _]]]]. exact H.
  - cbn [fold_left activateStep]. unfold validCapabilities. cbn [filter].
    fold (validCapabilities tree).
    destruct (truthy (capability_id cap)) eqn:T.
    + set (ctrls1 := match controls cap, ctrls with
                     | Some cs, Some k => Some (JSSet.add_all k (control_ids_of cs))
                     | _, _ => ctrls
                     end).
      destruct (IH (JSSet.add caps (capability_id cap)) ctrls1 (S n))
        as [caps' [ctrls' [E [Hc [Hn Hk]]]]].
      exists caps', ctrls'. split.
      { rewrite E. cbn [List.length]. rewrite Nat.add_succ_r. reflexivity. }
      split; [| split].
      * intros x. rewrite Hc, In_add. split.
        -- intros [[H | ->] | [c [Hin He]]]; [now left | right | right].
           ++ exists cap. split; [now left | reflexivity].
           ++ exists c. split; [now right | exact He].
        -- intros [H | [c [[<- | Hin] He]]]; [tauto | left; right; now symmetry |].
           right. now exists c.
      * intros ->. apply Hn. unfold ctrls1. now destruct (controls cap).
      * intros k ->. unfold ctrls1 in Hk.
        destruct (controls cap) as [cs |] eqn:Cs.
        -- destruct (Hk _ eq_refl) as [k' [Ek' Hin]]. exists k'. split; [exact Ek' |].
           intros c. rewrite Hin, In_add_all. split.
           ++ intros [[H | H] | [c0 [cs0 [H0 H1]]]]; [now left | right | right].
              ** exists cap, cs. split; [now left | now split].
              ** exists c0, cs0. split; [now right | exact H1].
           ++ intros [H | [c0 [cs0 [[<- | H0] [H1 H2]]]]]; [tauto | |].
              ** rewrite Cs in H1. inversion H1. subst. tauto.
              ** right. now exists c0, cs0.
        -- destruct (Hk _ eq_refl) as [k' [Ek' Hin]]. exists k'. split; [exact Ek' |].
           intros c. rewrite Hin. split.
           ++ intros [H | [c0 [cs0 [H0 H1]]]]; [now left | right].
              exists c0, cs0. split; [now right | exact H1].
           ++ intros [H | [c0 [cs0 [[<- | H0] [H1 H2]]]]]; [tauto | congruence |].
              right. now exists c0, cs0.
    + destruct (IH caps ctrls n) as [caps' [ctrls' [E [Hc [Hn Hk]]]]].
      exists caps', ctrls'. split; [exact E |].
      split; [exact Hc | split; [exact Hn | exact Hk]].
Qed.

(** What follows the loop in the two bulk operations. *)
Lemma bulk_tail (w : World) (message : string) (st : Dashboard) :
  let st' :=
    showStatusMessage message success
      (scheduleAutoSave (recalculateMetrics w (createVerticalTree st))) in
  treeData st' = treeData st
  /\ activeCapabilities st' = activeCapabilities st
  /\ activeControls st' = activeControls st
  /\ autoSaveTimer st' = true
  /\ exists drawn shown,
       log st'
       = log st
         ++ drawn
            :: match requestPayload st with
               | Some payload => [Fetch (PostCapabilityAnalysis payload)]
               | None => []
               end
         ++ shown ++ [SaveStatusUpdate unsaved; StatusMessage message success]
       /\ Forall onPage shown.
Proof.
  cbv zeta.
  destruct (sameSession_recalculateMetrics w (createVerticalTree st))
    as [T1 [C1 [K1 _]]].
  destruct (sameSession_createVerticalTree st) as [T2 [C2 [K2 _]]].
  destruct (createVerticalTree_log st) as [drawn [L3 _]].
  destruct (recalculateMetrics_log w (createVerticalTree st)) as [shown [L4 F4]].
  rewrite (requestPayload_selection _ st C2 K2) in L4.
  cbn [treeData activeCapabilities activeControls autoSaveTimer log
         showStatusMessage scheduleAutoSave updateSaveStatus emit emits
         set_autoSaveTimer].
  repeat split; try congruence.
  exists drawn, shown. split; [| exact F4].
  rewrite L4, L3. rewrite <- !app_assoc. reflexivity.
Qed.

(** X12: with a tree loaded, [activateAllCapabilities] adds exactly the
    capabilities of the tree that have a valid id, and every control
    listed under them; afterwards each such capability is drawn fully
    active when it has controls and partially active when it has none.
    The status message counts the capabilities with a valid id. *)
Theorem activateAll_activates_everything
    (w : World) (st : Dashboard) (tree : list Capability) (caps ctrls : JSSet.t) :
  treeData st = Some tree ->
  activeCapabilities st = Some caps ->
  activeControls st = Some ctrls ->
  let st' := snd (activateAllCapabilities w st) in
  fst (activateAllCapabilities w st) = Resolved tt
  /\ (forall x,
        In x (members (activeCapabilities st'))
        <-> In x caps
            \/ exists cap, In cap (validCapabilities tree) /\ capability_id cap = x)
  /\ (forall c,
        In c (members (activeControls st'))
        <-> In c ctrls
            \/ exists cap cs,
                 In cap (validCapabilities tree)
                 /\ controls cap = Some cs /\ In c (control_ids_of cs))
  /\ (forall cap,
        In cap (validCapabilities tree) ->
        fst (createCapabilityColumn cap st')
        = Resolved (match controls cap with
                    | Some (_ :: _) => fully_active
                    | Some [] | None => partially_active
                    end))
  /\ exists shown,
       log st'
       = log st ++ shown
         ++ [StatusMessage
               (String.append "All capabilities activated ("
                  (String.append
                     (string_of_Z (Z.of_nat (List.length (validCapabilities tree))))
                     ")"))
               success].
Proof.
  intros Htree Hcaps Hctrls. cbv zeta.
  unfold activateAllCapabilities. rewrite Htree, Hcaps, Hctrls.
  destruct (activateAll_fold tree caps (Some ctrls) 0)
    as [caps' [ctrls' [E [Hc [_ Hk]]]]].
  destruct (Hk ctrls eq_refl) as [k' [-> Hin]]. clear Hk.
  rewrite E. cbn [fst snd Nat.add].
  match goal with
  | |- context [showStatusMessage ?msg success
                  (scheduleAutoSave (recalculateMetrics w (createVerticalTree ?s)))] =>
      destruct (bulk_tail w msg s) as [_ [C [K [_ [drawn [shown [L _]]]]]]];
      set (st' := showStatusMessage msg success
                    (scheduleAutoSave (recalculateMetrics w (createVerticalTree s))))
        in *
  end.
  cbn [activeCapabilities activeControls set_activeControls set_activeCapabilities log]
    in C, K, L.
  split; [reflexivity |]. rewrite C, K. cbn [members].
  split; [exact Hc |]. split; [exact Hin |]. split.
  - intros cap Hcap.
    assert (Hactive : JSSet.has caps' (capability_id cap) = true).
    { apply has_In. apply Hc. right. now exists cap. }
    destruct (controls cap) as [[| c0 cs] |] eqn:Hcs.
    + apply (createCapabilityColumn_bare cap st' caps' C Hactive). now right.
    + apply (createCapabilityColumn_full cap st' caps' c0 cs C Hactive Hcs).
      intros c Hc0. rewrite K. cbn [members]. apply has_In. apply Hin. right.
      exists cap, (c0 :: cs). split; [exact Hcap |]. split; [exact Hcs |].
      unfold control_ids_of. now apply in_map.
    + apply (createCapabilityColumn_bare cap st' caps' C Hactive). now left.
  - match type of L with
    | _ = _ ++ _ :: ?P ++ _ => set (sent := P) in L
    end.
    exists (drawn :: sent ++ shown ++ [SaveStatusUpdate unsaved]).
    rewrite L. cbn [app]. rewrite <- !app_assoc. reflexivity.
Qed.

Lemma activateAll_activates_everything_witness :
  activeCapabilities (snd (activateAllCapabilities sampleWorld loadedState))
  = Some ["CAP-A"; "CAP-B"; "CAP-C"]
  /\ activeControls (snd (activateAllCapabilities sampleWorld loadedState))
     = Some ["C-1"; "C-2"; "C-3"]
  /\ fst (createCapabilityColumn capC
            (snd (activateAllCapabilities sampleWorld loadedState)))
     = Resolved partially_active
  /\ fst (activateAllCapabilities sampleWorld loadedState) = Resolved tt.
Proof.
  split; [reflexivity |]. split; [reflexivity |]. split; [reflexivity |].
  exact (proj1 (activateAll_activates_everything sampleWorld loadedState sampleTree
                  [] [] eq_refl eq_refl eq_refl)).
Defined.

(** X13: with a tree loaded, [clearAllCapabilities] empties both sets;
    the request it sends asks for the metrics of no capability and has no
    [control_ids] field; every capability is drawn inactive afterwards and
    an auto-save is scheduled. *)
Theorem clearAll_empties_selection
    (w : World) (st : Dashboard) (tree : list Capability) :
  treeData st = Some tree ->
  let st' := clearAllCapabilities w st in
  activeCapabilities st' = Some JSSet.empty
  /\ activeControls st' = Some JSSet.empty
  /\ (forall cap, fst (createCapabilityColumn cap st') = Resolved inactive)
  /\ autoSaveTimer st' = true
  /\ exists drawn shown,
       log st'
       = log st
         ++ drawn
            :: Fetch (PostCapabilityAnalysis
                        {| capability_ids := []; control_ids := None |})
            :: shown
         ++ [SaveStatusUpdate unsaved;
             StatusMessage "All capabilities deactivated" success]
       /\ Forall onPage shown.
Proof.
  intros Htree. cbv zeta. unfold clearAllCapabilities. rewrite Htree.
  match goal with
  | |- context [showStatusMessage ?msg success
                  (scheduleAutoSave (recalculateMetrics w (createVerticalTree ?s)))] =>
      destruct (bulk_tail w msg s) as [_ [C [K [A [drawn [shown [L F]]]]]]];
      set (st' := showStatusMessage msg success
                    (scheduleAutoSave (recalculateMetrics w (createVerticalTree s))))
        in *
  end.
  unfold requestPayload in L.
  cbn [activeCapabilities activeControls set_activeControls set_activeCapabilities log
         JSSet.clear option_map JSSet.to_list List.length Nat.ltb Nat.leb] in C, K, L.
  assert (Hlog : log (ensureActiveControls (ensureActiveCapabilities st)) = log st).
  { unfold ensureActiveControls, ensureActiveCapabilities.
    destruct st as [t caps ctrls prev mgr cur uid dm storage timer lg].
    now destruct caps, ctrls. }
  rewrite Hlog in L.
  split; [exact C |]. split; [exact K |]. split.
  { intros cap. unfold createCapabilityColumn. rewrite C. reflexivity. }
  split; [exact A |].
  exists drawn, shown. split; [exact L | exact F].
Qed.

Lemma clearAll_empties_selection_witness :
  activeCapabilities (clearAllCapabilities sampleWorld bothActive) = Some []
  /\ activeControls (clearAllCapabilities sampleWorld bothActive) = Some [].
Proof.
  destruct (clearAll_empties_selection sampleWorld bothActive sampleTree eq_refl)
    as [C [K _]].
  split; [exact C | exact K].
Defined.

(** ** Loading: the edges *)

Lemma applyScenario_storage (w : World) (id : Z) (scenario : Scenario.t)
    (st : Dashboard) :
  localStorage (applyScenario w id scenario st) = localStorage st
  /\ draftManager (applyScenario w id scenario st) = draftManager st.
Proof.
  unfold applyScenario, showStatusMessage, updateSaveStatus, emit.
  cbn [localStorage draftManager emits].
  match goal with
  | |- context [recalculateMetrics w (createVerticalTree ?s)] =>
      destruct (sameSession_recalculateMetrics w (createVerticalTree s))
        as [_ [_ [_ [_ [_ [_ [D1 [S1 _]]]]]]]];
      destruct (sameSession_createVerticalTree s)
        as [_ [_ [_ [_ [_ [_ [D2 [S2 _]]]]]]]]
  end.
  rewrite S1, S2, D1, D2. clear.
  unfold ensureActiveCapabilities, ensureActiveControls.
  destruct st as [tree caps ctrls prev mgr cur uid dm storage timer lg].
  destruct caps, ctrls, tree; simpl;
    try (destruct (capabilityTree w); simpl); split; reflexivity.
Qed.

(** X14: [loadScenario] never touches local storage, whatever id it is
    given and however it ends: a stored draft survives every load, also a
    successful one. *)
Theorem loadScenario_keeps_local_storage
    (w : World) (scenarioId : option Z) (st : Dashboard) :
  localStorage (snd (loadScenario w scenarioId st)) = localStorage st
  /\ draftManager (snd (loadScenario w scenarioId st)) = draftManager st.
Proof.
  unfold loadScenario.
  set (withUser := if truthy_num (userId st) then (Resolved tt, st) else _).
  assert (U : localStorage (snd withUser) = localStorage st
              /\ draftManager (snd withUser) = draftManager st).
  { unfold withUser. destruct (truthy_num (userId st)); [now split |].
    destruct (fetchUserId w) as [[uid | message] sent]; now split. }
  destruct withUser as [[[] | message] st0]; cbn [snd] in U; [| exact U].
  destruct U as [US UD].
  destruct (negb (truthy_num scenarioId)).
  - destruct (activeCapabilities _) as [caps |] eqn:C; [| exact (conj US UD)].
    cbn [snd updateSaveStatus emit emits localStorage draftManager].
    match goal with
    | |- context [recalculateMetrics w (createVerticalTree ?s)] =>
        destruct (sameSession_recalculateMetrics w (createVerticalTree s))
          as [_ [_ [_ [_ [_ [_ [D1 [S1 _]]]]]]]];
        destruct (sameSession_createVerticalTree s)
          as [_ [_ [_ [_ [_ [_ [D2 [S2 _]]]]]]]]
    end.
    rewrite S1, S2, D1, D2.
    destruct (activeControls _); split; assumption.
  - destruct (ScenarioManager.loadScenario w scenarioId _) as [[[[scenario |] | message] m'] sent];
      cbn [snd]; try (split; assumption).
    destruct (applyScenario_storage w (orZero scenarioId) scenario
                (set_scenarioManager
                   (Some (ScenarioManager.setCurrentScenarioId scenarioId m'))
                   (emits sent st0))) as [S D].
    rewrite S, D. split; assumption.
Qed.

(** X15: [loadScenario] with a null (or zero) id unbinds the scenario and
    empties both sets, so the request it sends asks for the metrics of no
    capability and has no [control_ids] field. *)
Theorem loadScenario_null_unbinds
    (w : World) (scenarioId : option Z) (st : Dashboard) (caps : JSSet.t) :
  userKnown w st ->
  truthy_num scenarioId = false ->
  activeCapabilities st = Some caps ->
  let st' := snd (loadScenario w scenarioId st) in
  fst (loadScenario w scenarioId st) = Resolved tt
  /\ boundScenario st' = None
  /\ currentScenarioId st' = None
  /\ activeCapabilities st' = Some JSSet.empty
  /\ members (activeControls st') = JSSet.empty
  /\ requestPayload st'
     = Some {| capability_ids := []; control_ids := None |}
  /\ treeData st' = treeData st.
Proof.
  intros Huser Hnull Hcaps. cbv zeta. unfold loadScenario.
  set (withUser := if truthy_num (userId st) then (Resolved tt, st) else _).
  assert (U : exists st0,
             withUser = (Resolved tt, st0)
             /\ treeData st0 = treeData st
             /\ activeCapabilities st0 = activeCapabilities st
             /\ activeControls st0 = activeControls st).
  { unfold withUser. destruct (truthy_num (userId st)) eqn:T; [now exists st |].
    destruct Huser as [H | [uid [Hcur Huid]]]; [congruence |].
    unfold fetchUserId. rewrite Hcur.
    destruct (Z.eqb_spec uid 0); [contradiction |].
    eexists. split; [reflexivity |]. now repeat split. }
  destruct U as [st0 [-> [T0 [C0 K0]]]].
  rewrite Hnull. cbn [negb].
  destruct st0 as [tree0 caps0 ctrls0 prev0 mgr0 cur0 uid0 dm0 storage0 timer0 lg0].
  cbn [treeData activeCapabilities activeControls] in T0, C0, K0.
  rewrite Hcaps in C0. subst caps0.
  unfold boundScenario, requestPayload, updateSaveStatus, emit.
  destruct ctrls0 as [ctrls0 |];
    cbn -[recalculateMetrics createVerticalTree];
    match goal with
    | |- context [recalculateMetrics w (createVerticalTree ?s)] =>
        destruct (sameSession_recalculateMetrics w (createVerticalTree s))
          as [T1 [C1 [K1 [M1 [I1 _]]]]];
        destruct (sameSession_createVerticalTree s)
          as [T2 [C2 [K2 [M2 [I2 _]]]]]
    end;
    rewrite ?T1, ?C1, ?K1, ?M1, ?I1, ?T2, ?C2, ?K2, ?M2, ?I2;
    cbn -[recalculateMetrics createVerticalTree];
    repeat split; try reflexivity; exact T0.
Qed.

Lemma loadScenario_null_unbinds_witness :
  boundScenario boundState = Some 7%Z
  /\ boundScenario (snd (loadScenario sampleWorld None boundState)) = None
  /\ activeCapabilities (snd (loadScenario sampleWorld None boundState)) = Some []
  /\ activeControls (snd (loadScenario sampleWorld None boundState)) = Some [].
Proof.
  split; [reflexivity |].
  destruct (loadScenario_null_unbinds sampleWorld None boundState ["CAP-A"]
              (or_introl eq_refl) eq_refl eq_refl) as [_ [B [_ [C _]]]].
  split; [exact B |]. split; [exact C | reflexivity].
Defined.

Lemma fetchUserId_sent (w : World) : snd (fetchUserId w) = [Fetch GetCurrentUser].
Proof.
  unfold fetchUserId.
  destruct (currentUser w) as [[uid |] | status ? | ?];
    try destruct (Z.eqb uid 0); try destruct (Z.eqb status 401); reflexivity.
Qed.

(** X16: a load that cannot fetch the scenario resolves without
    throwing, shows one error-level status message after the requests it
    made, and leaves the tree, both sets, local storage and the scenario
    binding as they were. *)
Theorem loadScenario_failure_keeps_selection
    (w : World) (id : Z) (st : Dashboard) :
  id <> 0%Z ->
  (forall scenario, scenarioById w id <> Ok scenario) ->
  let st' := snd (loadScenario w (Some id) st) in
  fst (loadScenario w (Some id) st) = Resolved tt
  /\ treeData st' = treeData st
  /\ activeCapabilities st' = activeCapabilities st
  /\ activeControls st' = activeControls st
  /\ localStorage st' = localStorage st
  /\ boundScenario st' = boundScenario st
  /\ exists sent message,
       log st' = log st ++ sent ++ [StatusMessage message error]
       /\ onlyRequests sent.
Proof.
  intros Hid Hfail. cbv zeta.
  assert (Hnz : Z.eqb id 0 = false) by now apply Z.eqb_neq.
  unfold loadScenario.
  set (withUser := if truthy_num (userId st) then (Resolved tt, st) else _).
  assert (U : exists c st0 sent0,
             withUser = (c, st0)
             /\ log st0 = log st ++ sent0
             /\ onlyRequests sent0
             /\ treeData st0 = treeData st
             /\ activeCapabilities st0 = activeCapabilities st
             /\ activeControls st0 = activeControls st
             /\ localStorage st0 = localStorage st
             /\ scenarioManager st0 = scenarioManager st).
  { unfold withUser. destruct (truthy_num (userId st)).
    - exists (Resolved tt), st, []. rewrite app_nil_r. repeat split. intros e [].
    - pose proof (fetchUserId_sent w) as S.
      destruct (fetchUserId w) as [[uid | message] sent]; cbn [snd] in S; subst sent;
        eexists _, _, [Fetch GetCurrentUser]; (split; [reflexivity |]);
        repeat split; intros e [<- | []]; eauto. }
  destruct U as [c [st0 [sent0 [-> [L0 [R0 [T0 [C0 [K0 [S0 M0]]]]]]]]]].
  destruct c as [[] | message].
  - cbn [truthy_num]. rewrite Hnz. cbn [negb].
    unfold ScenarioManager.loadScenario. rewrite Hnz.
    set (m := match scenarioManager st0 with
              | Some m => m
              | None => ScenarioManager.new (orZero (userId st0))
              end).
    assert (Hb : boundScenario (set_scenarioManager (Some m) st0) = boundScenario st).
    { unfold boundScenario, m. cbn [scenarioManager set_scenarioManager].
      rewrite M0. now destruct (scenarioManager st). }
    destruct (scenarioById w id) as [scenario | ? ? | ?];
      [exfalso; now apply (Hfail scenario) | |];
      cbn [fst snd showStatusMessage emit emits treeData activeCapabilities
             activeControls localStorage log set_scenarioManager];
      (split; [reflexivity |]); (split; [exact T0 |]); (split; [exact C0 |]);
      (split; [exact K0 |]); (split; [exact S0 |]); (split; [exact Hb |]);
      exists (sent0 ++ [Fetch (GetScenario id)]), "Error loading scenario";
      (split; [rewrite L0, <- !app_assoc; reflexivity |]);
      intros e He; apply in_app_iff in He; destruct He as [He | [<- | []]];
      eauto.
  - cbn [fst snd showStatusMessage emit emits treeData activeCapabilities
           activeControls localStorage log].
    split; [reflexivity |]. split; [exact T0 |]. split; [exact C0 |].
    split; [exact K0 |]. split; [exact S0 |]. split.
    { unfold boundScenario. simpl. now rewrite M0. }
    exists sent0, (messageOr message "Authentication required").
    split; [simpl; rewrite L0, <- app_assoc; reflexivity | exact R0].
Qed.

Lemma loadScenario_failure_keeps_selection_witness :
  activeCapabilities
    (snd (loadScenario
            {| capabilityAnalysis := capabilityAnalysis sampleWorld;
               capabilityTree := capabilityTree sampleWorld;
               scenarioList := scenarioList sampleWorld;
               scenarioById := fun _ => NotOk 404 "Not Found";
               scenarioUpdate := scenarioUpdate sampleWorld;
               scenarioDelete := scenarioDelete sampleWorld;
               currentUser := currentUser sampleWorld;
               confirmAnswer := true; storageThrows := false;
               clock := clock sampleWorld;
               hasActiveControlsCard := true; hasPartiallyCoveredCard := true;
               hasExposedRisksCard := true |}
            (Some 9%Z) boundState))
  = Some ["CAP-A"].
Proof.
  refine (proj1 (proj2 (proj2 (loadScenario_failure_keeps_selection _ 9 boundState _ _)))).
  - discriminate.
  - intros scenario. discriminate.
Defined.

(** ** Save, then load *)

Lemma serialized_controls (st : Dashboard) (tree : list Capability) :
  treeData st = Some tree ->
  let out := fst (serializeControlSelections st) in
  (forall c,
     In c (keys out)
     <-> truthy c = true /\ reachable tree (members (activeCapabilities st)) c)
  /\ flagsAgree (members (activeControls st)) out.
Proof.
  intros Htree. unfold serializeControlSelections. rewrite Htree.
  assert (E : activeCapabilities (ensureActiveControls st) = activeCapabilities st).
  { unfold ensureActiveControls. now destruct (activeControls st). }
  rewrite E, members_ensureActiveControls.
  destruct (activeCapabilities st) as [caps |]; cbn [fst members].
  - destruct (visitCapabilities_invariant tree (members (activeControls st)) caps [])
      as [_ Hf]; [constructor | intros e [] |].
    split; [| exact Hf]. intros c. rewrite visitCapabilities_keys. simpl. tauto.
  - split; [| intros e []]. intros c. simpl. split; [tauto |].
    intros [_ [cap [cs [[] _]]]].
Qed.

Lemma serializeSelections_body (st : Dashboard) (tree : list Capability) :
  treeData st = Some tree ->
  selections (fst (serializeSelections st))
  = map (fun cap =>
           {| CapSel.capability_id := capability_id cap;
              CapSel.is_active :=
                JSSet.has (members (activeCapabilities st)) (capability_id cap) |})
        tree
  /\ control_selections (fst (serializeSelections st))
     = fst (serializeControlSelections (ensureActiveCapabilities st)).
Proof.
  intros Htree. unfold serializeSelections.
  assert (E : treeData (ensureActiveCapabilities st) = Some tree).
  { unfold ensureActiveCapabilities. now destruct (activeCapabilities st). }
  rewrite E, members_ensureActiveCapabilities.
  destruct (serializeControlSelections (ensureActiveCapabilities st)) as [cs st2].
  split; reflexivity.
Qed.

(** X17: saving and loading back.  If the scenario the server returns
    carries what [serializeSelections] produced for the current session,
    loading it restores the selection: a capability is active afterwards
    exactly when it was active and is a capability of the tree, and a
    control with a valid id is active afterwards exactly when it was active
    and listed under an active capability. *)
Theorem save_then_load_restores_selection
    (w : World) (st : Dashboard) (tree : list Capability) (id : Z)
    (scenario : Scenario.t) :
  treeData st = Some tree ->
  userKnown w st ->
  id <> 0%Z ->
  scenarioById w id = Ok scenario ->
  Scenario.selections scenario = selections (fst (serializeSelections st)) ->
  Scenario.control_selections scenario
  = Some (control_selections (fst (serializeSelections st))) ->
  let st' := snd (loadScenario w (Some id) st) in
  (forall x,
     In x (members (activeCapabilities st'))
     <-> In x (members (activeCapabilities st)) /\ In x (map capability_id tree))
  /\ (forall c,
        truthy c = true ->
        (In c (members (activeControls st'))
         <-> In c (members (activeControls st))
             /\ reachable tree (members (activeCapabilities st)) c)).
Proof.
  intros Htree Huser Hid Hscen Hsel Hctl. cbv zeta.
  destruct (loadScenario_found w st id scenario Huser Hid Hscen)
    as [st1 [m [E [T1 _]]]].
  rewrite E. cbn [snd].
  destruct (applyScenario_selection w id scenario st1) as [_ [C [K _]]].
  rewrite C, K. cbn [members]. rewrite T1, Htree. clear E C K.
  destruct (serializeSelections_body st tree Htree) as [Bsel Bctl].
  rewrite Bsel in Hsel. rewrite Bctl in Hctl.
  assert (Ht : treeData (ensureActiveCapabilities st) = Some tree).
  { unfold ensureActiveCapabilities. now destruct (activeCapabilities st). }
  destruct (serialized_controls (ensureActiveCapabilities st) tree Ht) as [Hkeys Hflags].
  rewrite members_ensureActiveCapabilities in Hkeys.
  assert (Hk : members (activeControls (ensureActiveCapabilities st))
               = members (activeControls st)).
  { unfold ensureActiveCapabilities. now destruct (activeCapabilities st). }
  rewrite Hk in Hflags. clear Hk Ht.
  set (out := fst (serializeControlSelections (ensureActiveCapabilities st))) in *.
  assert (Hcaps : forall x,
             In x (applySelections (Scenario.selections scenario) JSSet.empty)
             <-> In x (members (activeCapabilities st))
                 /\ In x (map capability_id tree)).
  { intros x. rewrite In_applySelections, Hsel. split.
    - intros [[] | [sel [Hin [Hact Hx]]]].
      apply in_map_iff in Hin. destruct Hin as [cap [<- Hcap]].
      simpl in Hact, Hx. subst x. split; [now apply has_In | now apply in_map].
    - intros [Hx Hin]. right. apply in_map_iff in Hin.
      destruct Hin as [cap [<- Hcap]]. eexists. split; [| split].
      + apply in_map_iff. exists cap. split; [reflexivity | exact Hcap].
      + simpl. now apply has_In.
      + reflexivity. }
  split; [exact Hcaps |].
  intros c Tc. rewrite Hctl. destruct out as [| e0 out'] eqn:Eout.
  - rewrite In_activateControlsOf. split.
    + intros [[] | Hr]. exfalso.
      assert (Hr' : reachable tree (members (activeCapabilities st)) c).
      { apply reachable_mono
          with (applySelections (Scenario.selections scenario) JSSet.empty);
          [| exact Hr]. intros x Hx. now apply Hcaps in Hx. }
      now apply (proj2 (Hkeys c) (conj Tc Hr')).
    + intros [_ Hr]. exfalso. now apply (proj2 (Hkeys c) (conj Tc Hr)).
  - rewrite In_applyControlSelections. split.
    + intros [[] | [e [Hin [Hact He]]]].
      assert (Hkey : In c (keys (e0 :: out'))).
      { unfold keys. rewrite <- He. now apply in_map. }
      apply Hkeys in Hkey. split; [| tauto].
      apply has_In. rewrite <- He, <- (Hflags e Hin). exact Hact.
    + intros [Hin Hr]. right.
      assert (Hkey : In c (keys (e0 :: out'))) by (apply Hkeys; now split).
      unfold keys in Hkey. apply in_map_iff in Hkey.
      destruct Hkey as [e [He Hine]]. exists e. split; [exact Hine |].
      split; [| exact He]. rewrite (Hflags e Hine), He. now apply has_In.
Qed.

Lemma save_then_load_restores_selection_witness :
  activeCapabilities
    (snd (loadScenario (worldReporting (metricsOf 1 0 2 0) savedSession)
            (Some 7%Z) oneControlOn))
  = Some ["CAP-A"; "CAP-B"]
  /\ activeControls
       (snd (loadScenario (worldReporting (metricsOf 1 0 2 0) savedSession)
               (Some 7%Z) oneControlOn))
     = Some ["C-2"]
  /\ forall x,
       In x (members (activeCapabilities
                        (snd (loadScenario
                                (worldReporting (metricsOf 1 0 2 0) savedSession)
                                (Some 7%Z) oneControlOn))))
       <-> In x (members (activeCapabilities oneControlOn))
           /\ In x (map capability_id sampleTree).
Proof.
  split; [vm_compute; reflexivity |]. split; [vm_compute; reflexivity |].
  assert (Hid : 7%Z <> 0%Z) by discriminate.
  exact (proj1 (save_then_load_restores_selection
                  (worldReporting (metricsOf 1 0 2 0) savedSession)
                  oneControlOn sampleTree 7 savedSession
                  eq_refl (or_introl eq_refl) Hid eq_refl eq_refl eq_refl)).
Defined.

(** ** The local draft *)

Lemma add_all_fresh (l : list string) (s : JSSet.t) :
  NoDup (s ++ l) -> JSSet.add_all s l = s ++ l.
Proof.
  revert s. induction l as [| x l IH]; intros s H.
  - now rewrite app_nil_r.
  - unfold JSSet.add_all in *. simpl.
    assert (Hx : JSSet.has s x = false).
    { apply has_false_In. intros Hin. apply NoDup_remove_2 in H.
      apply H. apply in_app_iff. now left. }
    unfold JSSet.add at 2. rewrite Hx.
    rewrite IH; rewrite <- app_assoc; simpl; [reflexivity | exact H].
Qed.

Lemma of_list_NoDup (l : list string) : NoDup l -> JSSet.of_list l = l.
Proof. intros H. apply (add_all_fresh l []). exact H. Qed.

Lemma In_of_list (l : list string) (x : string) : In x (JSSet.of_list l) <-> In x l.
Proof.
  unfold JSSet.of_list. change (fold_left JSSet.add l JSSet.empty) with (JSSet.add_all [] l).
  rewrite In_add_all. simpl. tauto.
Qed.

Lemma restoreDraft_selection (w : World) (st : Dashboard) (capabilityIds controlIds : list string) :
  DraftManager.restoreDraft w (draftManager st) (localStorage st)
  = Some (capabilityIds, controlIds) ->
  activeCapabilities (restoreDraft w st) = Some (JSSet.of_list capabilityIds)
  /\ activeControls (restoreDraft w st) = Some (JSSet.of_list controlIds).
Proof.
  intros H. unfold restoreDraft. rewrite H.
  match goal with
  | |- context [recalculateMetrics w (createVerticalTree ?s)] =>
      destruct (sameSession_recalculateMetrics w (createVerticalTree s))
        as [_ [C1 [K1 _]]];
      destruct (sameSession_createVerticalTree s) as [_ [C2 [K2 _]]]
  end.
  rewrite C1, K1, C2, K2. split; reflexivity.
Qed.

(** X18: the draft round trip.  A draft written by [persistDraft] and read
    back by [restoreDraft], in the same session or in a later one of the
    same user over the same storage, reproduces both sets: the same
    members, and for sets without repetition the same sequence. *)
Theorem draft_round_trip (w w' : World) (st st2 : Dashboard) :
  storageThrows w = false ->
  storageThrows w' = false ->
  localStorage st2 = localStorage (persistDraft w st) ->
  draftManager st2 = draftManager st ->
  let st' := restoreDraft w' st2 in
  (forall x,
     In x (members (activeCapabilities st')) <-> In x (members (activeCapabilities st)))
  /\ (forall c,
        In c (members (activeControls st')) <-> In c (members (activeControls st)))
  /\ (NoDup (members (activeCapabilities st)) ->
      activeCapabilities st' = Some (members (activeCapabilities st)))
  /\ (NoDup (members (activeControls st)) ->
      activeControls st' = Some (members (activeControls st))).
Proof.
  intros Hw Hw' Hstorage Hdm. cbv zeta.
  assert (R : DraftManager.restoreDraft w' (draftManager st2) (localStorage st2)
              = Some (members (activeCapabilities st), members (activeControls st))).
  { rewrite Hstorage, Hdm.
    unfold persistDraft, DraftManager.persistDraft, DraftManager.restoreDraft.
    rewrite Hw, Hw'. cbn [localStorage updateSaveStatus emit emits set_localStorage].
    rewrite getItem_setItem. reflexivity. }
  destruct (restoreDraft_selection w' st2 _ _ R) as [C K].
  rewrite C, K. cbn [members].
  split; [intros x; apply In_of_list |].
  split; [intros c; apply In_of_list |].
  split; intros H; f_equal; now apply of_list_NoDup.
Qed.

Lemma draft_round_trip_witness :
  activeCapabilities
    (restoreDraft sampleWorld
       (set_localStorage (localStorage (persistDraft sampleWorld bothActive))
          loadedState))
  = Some ["CAP-A"; "CAP-B"]
  /\ activeControls
       (restoreDraft sampleWorld
          (set_localStorage (localStorage (persistDraft sampleWorld bothActive))
             loadedState))
     = Some ["C-1"; "C-2"; "C-3"].
Proof.
  destruct (draft_round_trip sampleWorld sampleWorld bothActive
              (set_localStorage (localStorage (persistDraft sampleWorld bothActive))
                 loadedState)
              eq_refl eq_refl eq_refl eq_refl) as [_ [_ [C K]]].
  split; [apply C | apply K]; vm_compute; repeat constructor; simpl; intuition discriminate.
Defined.

(** *** One key per user *)








(** ** Saving a bound scenario *)

Lemma serializeSelections_emits (es : list Event) (st : Dashboard) :
  serializeSelections (emits es st)
  = (fst (serializeSelections st), emits es (snd (serializeSelections st))).
Proof.
  destruct st as [tree caps ctrls prev mgr cur uid dm storage timer lg].
  unfold serializeSelections, serializeControlSelections, ensureActiveCapabilities,
    ensureActiveControls, emits.
  destruct caps, tree, ctrls; reflexivity.
Qed.

Lemma serializeSelections_frame (st : Dashboard) :
  let st2 := snd (serializeSelections st) in
  log st2 = log st
  /\ localStorage st2 = localStorage st
  /\ draftManager st2 = draftManager st
  /\ scenarioManager st2 = scenarioManager st
  /\ treeData st2 = treeData st
  /\ members (activeCapabilities st2) = members (activeCapabilities st)
  /\ members (activeControls st2) = members (activeControls st).
Proof.
  destruct st as [tree caps ctrls prev mgr cur uid dm storage timer lg].
  unfold serializeSelections, serializeControlSelections, ensureActiveCapabilities,
    ensureActiveControls.
  destruct caps, tree, ctrls; cbn; repeat split.
Qed.

Lemma boundScenario_manager (st : Dashboard) (id : Z) :
  boundScenario st = Some id ->
  exists m, scenarioManager st = Some m
            /\ ScenarioManager.getCurrentScenarioId m = Some id.
Proof.
  unfold boundScenario. destruct (scenarioManager st) as [m |]; [| discriminate].
  destruct (truthy_num (ScenarioManager.getCurrentScenarioId m)); [| discriminate].
  intros H. now exists m.
Qed.

Lemma messageOr_nonempty (message fallback : string) :
  fallback <> EmptyString -> messageOr message fallback <> EmptyString.
Proof.
  unfold messageOr, truthy. intros H.
  destruct (String.eqb_spec message EmptyString); simpl; assumption.
Qed.

(** X20: saving a bound scenario that the server accepts.  The request
    is one PUT to the bound id whose body is the serialized selection of
    the session; the icon goes from saving to saved, the success message is
    shown, and the user's local draft is removed.  Selection and binding
    stay as they were. *)
Theorem save_bound_scenario_puts_selection (w : World) (st : Dashboard) (id : Z) :
  boundScenario st = Some id ->
  scenarioUpdate w id (fst (serializeSelections st)) = Ok tt ->
  let st' := saveScenario w st in
  let key := DraftManager.getDraftKey (draftManager st) in
  log st'
  = log st ++ [SaveStatusUpdate saving;
               Fetch (PutScenario id (fst (serializeSelections st)));
               SaveStatusUpdate saved;
               StatusMessage "Scenario saved successfully" success;
               StorageRemoveItem key]
  /\ (storageThrows w = false -> DraftManager.getItem (localStorage st') key = None)
  /\ members (activeCapabilities st') = members (activeCapabilities st)
  /\ members (activeControls st') = members (activeControls st)
  /\ boundScenario st' = Some id.
Proof.
  intros Hbound Hput. cbv zeta.
  destruct (boundScenario_manager st id Hbound) as [m [Hm Hcur]].
  unfold saveScenario. rewrite Hbound, Hm.
  unfold updateSaveStatus, emit. rewrite serializeSelections_emits.
  unfold ScenarioManager.updateScenario. rewrite Hput.
  destruct (serializeSelections_frame st) as [L [S [D [M [_ [C K]]]]]].
  cbv zeta in L, S, D, M, C, K.
  unfold showStatusMessage, emit, clearDraft, DraftManager.clearDraft.
  destruct (storageThrows w);
    cbn [log localStorage draftManager activeCapabilities activeControls
           scenarioManager emits set_scenarioManager set_localStorage fst snd];
    rewrite ?L, ?S, ?D, ?C, ?K, <- ?app_assoc; cbn [app];
    (split; [reflexivity |]);
    (split; [try discriminate; intros _; apply getItem_removeItem |]);
    (split; [reflexivity |]); (split; [reflexivity |]);
    unfold boundScenario; cbn [scenarioManager set_localStorage emits set_scenarioManager];
    rewrite Hcur;
    unfold boundScenario in Hbound; rewrite Hm, Hcur in Hbound; exact Hbound.
Qed.

Lemma save_bound_scenario_puts_selection_witness :
  log (saveScenario sampleWorld boundState)
  = [SaveStatusUpdate saving;
     Fetch (PutScenario 7
              {| selections :=
                   [{| CapSel.capability_id := "CAP-A"; CapSel.is_active := true |};
                    {| CapSel.capability_id := "CAP-B"; CapSel.is_active := false |};
                    {| CapSel.capability_id := "CAP-C"; CapSel.is_active := false |}];
                 control_selections :=
                   [{| CtlSel.control_id := "C-1"; CtlSel.is_active := true |};
                    {| CtlSel.control_id := "C-2"; CtlSel.is_active := true |}] |});
     SaveStatusUpdate saved;
     StatusMessage "Scenario saved successfully" success;
     StorageRemoveItem "capabilityWorksheetDraft:v1:user:1"].
Proof.
  exact (proj1 (save_bound_scenario_puts_selection sampleWorld boundState 7
                  eq_refl eq_refl)).
Defined.

(** X21: saving a bound scenario that the server does not accept.  After
    the PUT the icon shows the error state and one error-level message with
    a non-empty text is shown; the local draft, the selection and the
    binding are untouched, and no success message appears. *)
Theorem save_failure_keeps_draft (w : World) (st : Dashboard) (id : Z) :
  boundScenario st = Some id ->
  scenarioUpdate w id (fst (serializeSelections st)) <> Ok tt ->
  let st' := saveScenario w st in
  (exists message,
     message <> EmptyString
     /\ log st'
        = log st ++ [SaveStatusUpdate saving;
                     Fetch (PutScenario id (fst (serializeSelections st)));
                     SaveStatusUpdate save_error;
                     StatusMessage message error])
  /\ localStorage st' = localStorage st
  /\ members (activeCapabilities st') = members (activeCapabilities st)
  /\ members (activeControls st') = members (activeControls st)
  /\ boundScenario st' = Some id.
Proof.
  intros Hbound Hput. cbv zeta.
  destruct (boundScenario_manager st id Hbound) as [m [Hm Hcur]].
  unfold saveScenario. rewrite Hbound, Hm.
  unfold updateSaveStatus, emit. rewrite serializeSelections_emits.
  unfold ScenarioManager.updateScenario.
  destruct (serializeSelections_frame st) as [L [S [D [M [_ [C K]]]]]].
  cbv zeta in L, S, D, M, C, K.
  assert (B : forall st0, scenarioManager st0 = Some m -> boundScenario st0 = Some id).
  { intros st0 H0. unfold boundScenario in *. rewrite Hm in Hbound.
    rewrite H0. exact Hbound. }
  destruct (scenarioUpdate w id (fst (serializeSelections st))) as [[] | status detail | message];
    [contradiction | |];
    unfold showStatusMessage, emit;
    cbn [log localStorage draftManager activeCapabilities activeControls
           scenarioManager emits set_scenarioManager set_localStorage fst snd];
    rewrite ?L, ?S, ?D, ?C, ?K, <- ?app_assoc; cbn [app];
    (split; [eexists; split; [| reflexivity] |]);
    try (apply messageOr_nonempty; discriminate);
    (split; [reflexivity |]); (split; [reflexivity |]); (split; [reflexivity |]);
    apply B; reflexivity.
Qed.

Lemma save_failure_keeps_draft_witness :
  localStorage (saveScenario serverDown boundState) = localStorage boundState.
Proof.
  refine (proj1 (proj2 (save_failure_keeps_draft serverDown boundState 7 eq_refl _))).
  vm_compute. discriminate.
Defined.

(** ** Deleting, when the server does not cooperate *)

Lemma httpErrorMessage_nonempty (status : Z) : httpErrorMessage status <> EmptyString.
Proof. unfold httpErrorMessage. simpl. discriminate. Qed.

(** X22: a refused DELETE.  After the user confirms, the only request is
    the DELETE; one error-level message with a non-empty text is shown, and
    the session is exactly as before: both sets, the draft storage, the
    manager with its binding and scenario list. *)
Theorem delete_refused_changes_nothing (w : World) (st : Dashboard) (id : Z) :
  boundScenario st = Some id ->
  confirmAnswer w = true ->
  scenarioDelete w id <> Ok tt ->
  let st' := deleteScenario w st in
  (exists message,
     message <> EmptyString
     /\ log st' = log st ++ [Fetch (DeleteScenario id); StatusMessage message error])
  /\ sameSession st st'
  /\ previousMetrics st' = previousMetrics st.
Proof.
  intros Hbound Hconfirm Hdelete. cbv zeta.
  destruct (boundScenario_manager st id Hbound) as [m [Hm Hcur]].
  unfold deleteScenario. rewrite Hbound, Hm, Hconfirm. cbn [negb].
  unfold ScenarioManager.deleteScenario.
  destruct (scenarioDelete w id) as [[] | status detail | message];
    [contradiction | |];
    unfold showStatusMessage, emit; cbn [log emits set_scenarioManager];
    rewrite <- ?app_assoc; cbn [app];
    (split; [eexists; split; [| reflexivity];
             apply messageOr_nonempty; discriminate |]);
    (split; [| reflexivity]);
    unfold sameSession; cbn; rewrite Hm; repeat split.
Qed.

Lemma delete_refused_changes_nothing_witness :
  sameSession boundState (deleteScenario serverDown boundState).
Proof.
  refine (proj1 (proj2 (delete_refused_changes_nothing serverDown boundState 7
                          eq_refl eq_refl _))).
  vm_compute. discriminate.
Defined.

(** X23: a DELETE that succeeds while the scenario list cannot be
    reloaded.  The scenario is gone on the server and the manager has
    dropped its binding, yet the dashboard reports an error and skips the
    rest: the capability selection, the controls, the local draft and the
    dashboard's own [currentScenarioId] are left as they were. *)
Theorem delete_with_failed_reload_unbinds
    (w : World) (st : Dashboard) (m : ScenarioManager.t) (id : Z) :
  scenarioManager st = Some m ->
  ScenarioManager.getCurrentScenarioId m = Some id ->
  id <> 0%Z ->
  confirmAnswer w = true ->
  scenarioDelete w id = Ok tt ->
  (forall l, scenarioList w (ScenarioManager.userId m) <> Ok l) ->
  let st' := deleteScenario w st in
  boundScenario st' = None
  /\ currentScenarioId st' = currentScenarioId st
  /\ activeCapabilities st' = activeCapabilities st
  /\ activeControls st' = activeControls st
  /\ localStorage st' = localStorage st
  /\ exists message,
       message <> EmptyString
       /\ log st'
          = log st ++ [Fetch (DeleteScenario id);
                       Fetch (GetScenarios (ScenarioManager.userId m));
                       StatusMessage message error].
Proof.
  intros Hm Hcur Hid Hconfirm Hdelete Hlist. cbv zeta.
  assert (Hbound : boundScenario st = Some id).
  { unfold boundScenario. rewrite Hm, Hcur. cbn [truthy_num].
    apply Z.eqb_neq in Hid. now rewrite Hid. }
  unfold deleteScenario. rewrite Hbound, Hm, Hconfirm. cbn [negb].
  unfold ScenarioManager.deleteScenario. rewrite Hdelete.
  unfold ScenarioManager.getCurrentScenarioId in Hcur. rewrite Hcur, Z.eqb_refl.
  unfold ScenarioManager.loadScenarios.
  cbn [ScenarioManager.userId ScenarioManager.setCurrentScenarioId].
  destruct (scenarioList w (ScenarioManager.userId m)) as [l | status detail | message] eqn:L;
    [now destruct (Hlist l) | |];
    unfold showStatusMessage, emit, boundScenario;
    cbn [log emits set_scenarioManager scenarioManager currentScenarioId
           activeCapabilities activeControls localStorage
           ScenarioManager.getCurrentScenarioId ScenarioManager.currentScenarioId
           ScenarioManager.setCurrentScenarioId truthy_num app];
    rewrite <- ?app_assoc; cbn [app];
    repeat (split; [reflexivity |]);
    eexists; (split; [| reflexivity]);
    apply messageOr_nonempty; discriminate.
Qed.

Lemma delete_with_failed_reload_unbinds_witness :
  boundScenario (deleteScenario listDown boundState) = None
  /\ activeCapabilities (deleteScenario listDown boundState) = Some ["CAP-A"].
Proof.
  pose proof (delete_with_failed_reload_unbinds listDown boundState _ 7
                eq_refl eq_refl) as H.
  destruct H as [B [_ [C _]]];
    [discriminate | reflexivity | reflexivity | intros l; discriminate |].
  split; [exact B | exact C].
Defined.

(** ** Opening the page *)

(** X24: start-up without a valid user.  When the current-user endpoint
    gives no usable id, initialisation resolves after that single request
    with one non-empty error message, and sets up nothing: no manager, no
    other request, the session as it was. *)
Theorem initialize_without_user_sets_up_nothing (w : World) (st : Dashboard) :
  (forall uid, currentUser w = Ok (Some uid) -> uid = 0%Z) ->
  let result := initializeScenarioManagement w st in
  fst result = Resolved tt
  /\ (exists message,
        message <> EmptyString
        /\ log (snd result)
           = log st ++ [Fetch GetCurrentUser; StatusMessage message error])
  /\ sameSession st (snd result)
  /\ previousMetrics (snd result) = previousMetrics st.
Proof.
  intros Huser. cbv zeta. unfold initializeScenarioManagement, fetchUserId.
  destruct (currentUser w) as [[uid |] | status detail | message] eqn:U;
    [rewrite (Huser uid eq_refl); cbn [Z.eqb] | | destruct (Z.eqb status 401) |];
    unfold showStatusMessage, emit; cbn [fst snd log emits];
    rewrite <- ?app_assoc; cbn [app];
    (split; [reflexivity |]);
    (split; [eexists; split; [| reflexivity];
             apply messageOr_nonempty; discriminate |]);
    (split; [| reflexivity]);
    unfold sameSession; cbn; repeat split.
Qed.

Lemma initialize_without_user_sets_up_nothing_witness :
  scenarioManager (snd (initializeScenarioManagement serverDown (newDashboard [])))
  = None.
Proof.
  refine (proj1 (proj2 (proj2 (proj2 (proj1 (proj2 (proj2
            (initialize_without_user_sets_up_nothing serverDown (newDashboard []) _)))))))).
  intros uid H. discriminate.
Defined.

Lemma recalculateMetrics_selection (w : World) (st : Dashboard) :
  activeCapabilities (recalculateMetrics w st) = activeCapabilities st
  /\ activeControls (recalculateMetrics w st) = activeControls st
  /\ scenarioManager (recalculateMetrics w st) = scenarioManager st
  /\ userId (recalculateMetrics w st) = userId st
  /\ draftManager (recalculateMetrics w st) = draftManager st
  /\ localStorage (recalculateMetrics w st) = localStorage st.
Proof.
  destruct (sameSession_recalculateMetrics w st)
    as [_ [C [K [M [_ [U [D [S _]]]]]]]].
  repeat split; assumption.
Qed.

(** X25: start-up without a default scenario.  With a valid user and a
    scenario list without a default, the managers are created for that
    user, no scenario is bound and the capability set is emptied.  A draft
    stored for that user is restored only if the user confirms: then both
    sets are those of the draft and the icon shows unsaved; otherwise the
    capability set stays empty and the control set is not touched. *)
Theorem initialize_offers_draft
    (w : World) (st : Dashboard) (uid : Z) (l : list Scenario.t) (caps : JSSet.t) :
  currentUser w = Ok (Some uid) ->
  uid <> 0%Z ->
  scenarioList w uid = Ok l ->
  find Scenario.is_default l = None ->
  activeCapabilities st = Some caps ->
  let result := initializeScenarioManagement w st in
  let st' := snd result in
  let key := DraftManager.getDraftKey {| DraftManager.userId := uid |} in
  fst result = Resolved tt
  /\ userId st' = Some uid
  /\ draftManager st' = {| DraftManager.userId := uid |}
  /\ boundScenario st' = None
  /\ (forall d,
        storageThrows w = false ->
        DraftManager.getItem (localStorage st) key = Some d ->
        confirmAnswer w = true ->
        activeCapabilities st' = Some (JSSet.of_list (activeCapabilityIds d))
        /\ activeControls st' = Some (JSSet.of_list (activeControlIds d))
        /\ exists before, log st' = before ++ [SaveStatusUpdate unsaved])
  /\ (storageThrows w = true
      \/ DraftManager.getItem (localStorage st) key = None
      \/ confirmAnswer w = false ->
      activeCapabilities st' = Some JSSet.empty
      /\ activeControls st' = activeControls st).
Proof.
  intros Huser Huid Hlist Hdefault Hcaps. cbv zeta.
  unfold initializeScenarioManagement, fetchUserId. rewrite Huser.
  apply Z.eqb_neq in Huid. rewrite Huid.
  unfold ScenarioManager.loadScenarios, ScenarioManager.new.
  cbn [ScenarioManager.userId]. rewrite Hlist.
  unfold ScenarioManager.getDefaultScenario. cbn [ScenarioManager.scenarios].
  rewrite Hdefault.
  cbn [activeCapabilities set_scenarioManager emits set_draftManager set_userId].
  rewrite Hcaps.
  set (st4 := set_activeCapabilities _ _).
  destruct (recalculateMetrics_selection w st4) as [C5 [K5 [M5 [U5 [D5 S5]]]]].
  set (st5 := recalculateMetrics w st4) in *.
  assert (B : forall s, scenarioManager s = scenarioManager st5 -> boundScenario s = None).
  { intros s Hs. unfold boundScenario. rewrite Hs, M5. reflexivity. }
  cbn [ScenarioManager.getCurrentScenarioId ScenarioManager.currentScenarioId
         truthy_num negb]. rewrite andb_true_r.
  unfold DraftManager.hasDraft. rewrite D5, S5.
  change (draftManager st4) with {| DraftManager.userId := uid |}.
  change (localStorage st4) with (localStorage st).
  assert (R : forall d,
             storageThrows w = false ->
             DraftManager.getItem (localStorage st)
               (DraftManager.getDraftKey {| DraftManager.userId := uid |}) = Some d ->
             DraftManager.restoreDraft w (draftManager st5) (localStorage st5)
             = Some (activeCapabilityIds d, activeControlIds d)).
  { intros d Hs Hd. unfold DraftManager.restoreDraft. rewrite Hs, D5, S5.
    change (draftManager st4) with {| DraftManager.userId := uid |}.
    change (localStorage st4) with (localStorage st). now rewrite Hd. }
  assert (F : forall s, sameSession st5 s ->
                        userId s = Some uid
                        /\ draftManager s = {| DraftManager.userId := uid |}
                        /\ boundScenario s = None).
  { intros s [_ [_ [_ [Ms [_ [Us [Ds _]]]]]]].
    rewrite Us, U5, Ds, D5. repeat split. now apply B. }
  destruct (storageThrows w) eqn:Hthrows.
  - cbn [fst snd]. split; [reflexivity |].
    destruct (F st5 (sameSession_refl st5)) as [? [? ?]].
    repeat (split; [assumption |]).
    split; [intros d Hs; discriminate |].
    intros _. rewrite C5, K5. split; reflexivity.
  - destruct (DraftManager.getItem (localStorage st)
                (DraftManager.getDraftKey {| DraftManager.userId := uid |}))
      as [d |] eqn:Hd.
    + destruct (confirmAnswer w) eqn:Hconfirm; cbn [fst snd].
      * split; [reflexivity |].
        destruct (restoreDraft_selection w st5 _ _ (R d eq_refl eq_refl)) as [Cr Kr].
        unfold updateSaveStatus, emit.
        cbn [userId draftManager activeCapabilities activeControls log emits].
        assert (Sr : userId (restoreDraft w st5) = userId st5
                     /\ draftManager (restoreDraft w st5) = draftManager st5
                     /\ scenarioManager (restoreDraft w st5) = scenarioManager st5).
        { unfold restoreDraft. rewrite (R d eq_refl eq_refl).
          match goal with
          | |- context [recalculateMetrics w (createVerticalTree ?s)] =>
              destruct (sameSession_recalculateMetrics w (createVerticalTree s))
                as [_ [_ [_ [M1 [_ [U1 [D1 _]]]]]]];
              destruct (sameSession_createVerticalTree s)
                as [_ [_ [_ [M2 [_ [U2 [D2 _]]]]]]]
          end.
          rewrite M1, U1, D1, M2, U2, D2. repeat split. }
        destruct Sr as [Ur [Dr Mr]].
        rewrite Ur, U5, Dr, D5.
        split; [reflexivity |]. split; [reflexivity |].
        split; [apply B; exact Mr |].
        split.
        -- intros d' _ Hd' _. inversion Hd'; subst d'.
           split; [exact Cr |]. split; [exact Kr |].
           eexists. reflexivity.
        -- intros [H | [H | H]]; discriminate.
      * split; [reflexivity |].
        destruct (F st5 (sameSession_refl st5)) as [? [? ?]].
        repeat (split; [assumption |]).
        split; [intros d' _ _ H'; discriminate |].
        intros _. rewrite C5, K5. split; reflexivity.
    + cbn [fst snd]. split; [reflexivity |].
      destruct (F st5 (sameSession_refl st5)) as [? [? ?]].
      repeat (split; [assumption |]).
      split; [intros d' _ H'; discriminate |].
      intros _. rewrite C5, K5. split; reflexivity.
Qed.

Lemma initialize_offers_draft_witness :
  activeCapabilities (snd (initializeScenarioManagement sampleWorld withOldDraft))
  = Some ["CAP-B"]
  /\ activeControls (snd (initializeScenarioManagement sampleWorld withOldDraft))
     = Some ["C-3"].
Proof.
  pose proof (initialize_offers_draft sampleWorld withOldDraft 1 [] []
                eq_refl) as H.
  destruct H as [_ [_ [_ [_ [H _]]]]];
    [discriminate | reflexivity | reflexivity | reflexivity |].
  destruct (H {| activeCapabilityIds := ["CAP-B"]; activeControlIds := ["C-3"];
                 updatedAt := "2024-12-31T00:00:00.000Z" |}
              eq_refl eq_refl eq_refl) as [C [K _]].
  split; [exact C | exact K].
Defined.

(** X26: start-up with a default scenario.  With a valid user, a scenario
    list holding a default and a server that returns it, initialisation
    binds that scenario, manager and dashboard alike, and the active
    capabilities are exactly those the scenario saved as active. *)
Theorem initialize_loads_default
    (w : World) (st : Dashboard) (uid : Z) (l : list Scenario.t)
    (chosen scenario : Scenario.t) :
  currentUser w = Ok (Some uid) ->
  uid <> 0%Z ->
  scenarioList w uid = Ok l ->
  find Scenario.is_default l = Some chosen ->
  Scenario.scenario_id chosen <> 0%Z ->
  scenarioById w (Scenario.scenario_id chosen) = Ok scenario ->
  let result := initializeScenarioManagement w st in
  let st' := snd result in
  fst result = Resolved tt
  /\ boundScenario st' = Some (Scenario.scenario_id chosen)
  /\ currentScenarioId st' = Some (Scenario.scenario_id chosen)
  /\ (forall x,
        In x (members (activeCapabilities st'))
        <-> exists sel,
              In sel (Scenario.selections scenario)
              /\ CapSel.is_active sel = true /\ CapSel.capability_id sel = x).
Proof.
  intros Huser Huid Hlist Hdefault Hid Hscenario. cbv zeta.
  unfold initializeScenarioManagement, fetchUserId. rewrite Huser.
  pose proof Huid as Huid'. apply Z.eqb_neq in Huid'. rewrite Huid'.
  unfold ScenarioManager.loadScenarios, ScenarioManager.new.
  cbn [ScenarioManager.userId]. rewrite Hlist.
  unfold ScenarioManager.getDefaultScenario. cbn [ScenarioManager.scenarios].
  rewrite Hdefault.
  set (st3 := set_scenarioManager _ _).
  assert (Hknown : userKnown w st3).
  { left. subst st3. cbn. now rewrite Huid'. }
  destruct (loadScenario_found w st3 _ scenario Hknown Hid Hscenario)
    as [st1 [m [E [_ [Hm Hcur]]]]].
  rewrite E. cbn [fst snd].
  destruct (applyScenario_selection w (Scenario.scenario_id chosen) scenario st1)
    as [_ [C [_ [M I]]]].
  cbv zeta in C, M, I.
  split; [reflexivity |].
  split.
  { unfold boundScenario. rewrite M, Hm, Hcur. cbn [truthy_num].
    apply Z.eqb_neq in Hid. now rewrite Hid. }
  split; [exact I |].
  intros x. rewrite C. cbn [members]. rewrite In_applySelections.
  split; [intros [[] | H]; exact H | intros H; now right].
Qed.

Lemma initialize_loads_default_witness :
  boundScenario (snd (initializeScenarioManagement defaultWorld (newDashboard [])))
  = Some 7%Z.
Proof.
  refine (proj1 (proj2 (initialize_loads_default defaultWorld (newDashboard []) 1
                          [defaultScenario] defaultScenario defaultScenario
                          eq_refl _ eq_refl eq_refl _ eq_refl)));
    discriminate.
Defined.

(** ** From an edit to the auto-save *)

Lemma toggleCapability_frame (w : World) (capability : Capability) (st : Dashboard) :
  truthy (capability_id capability) = true ->
  let st' := toggleCapability w (Some capability) st in
  scenarioManager st' = scenarioManager st
  /\ draftManager st' = draftManager st
  /\ localStorage st' = localStorage st
  /\ autoSaveTimer st' = true
  /\ (exists caps, activeCapabilities st' = Some caps)
  /\ (exists ctrls, activeControls st' = Some ctrls).
Proof.
  intros T. cbv zeta.
  destruct (toggleCapability_selection w capability st T) as [_ [C K]].
  cbv zeta in C, K. rewrite C, K.
  unfold toggleCapability. rewrite T. cbn [negb].
  unfold scheduleAutoSave, updateSaveStatus, emit.
  cbn [scenarioManager draftManager localStorage autoSaveTimer set_autoSaveTimer emits].
  match goal with
  | |- context [recalculateMetrics w (createVerticalTree ?s)] =>
      destruct (sameSession_recalculateMetrics w (createVerticalTree s))
        as [_ [_ [_ [M1 [_ [_ [D1 [S1 _]]]]]]]];
      destruct (sameSession_createVerticalTree s)
        as [_ [_ [_ [M2 [_ [_ [D2 [S2 _]]]]]]]]
  end.
  rewrite M1, D1, S1, M2, D2, S2. clear.
  unfold ensureActiveCapabilities, ensureActiveControls.
  destruct st as [tree caps ctrls prev mgr cur uid dm storage timer lg].
  destruct caps, ctrls; simpl;
    destruct (controls capability);
    repeat match goal with
           | |- context [JSSet.has ?s ?x] => destruct (JSSet.has s x)
           end;
    simpl; repeat split; eexists; reflexivity.
Qed.

(** X27: from an edit to the auto-save.  Toggling a capability leaves the
    timer armed; when it fires in a session without a bound scenario, the
    draft written is the selection as it is after the toggle, and nothing
    is sent; with a scenario bound, the next request is the PUT of that
    scenario with the serialized selection after the toggle. *)
Theorem toggle_then_autosave_stores_new_selection
    (w : World) (capability : Capability) (st : Dashboard) :
  truthy (capability_id capability) = true ->
  let st1 := toggleCapability w (Some capability) st in
  let st2 := autoSaveTimeout w st1 in
  autoSaveTimer st1 = true
  /\ (boundScenario st = None ->
      log st2
      = log st1
          ++ [StorageSetItem (DraftManager.getDraftKey (draftManager st))
                {| activeCapabilityIds := members (activeCapabilities st1);
                   activeControlIds := members (activeControls st1);
                   updatedAt := clock w |};
              SaveStatusUpdate (if storageThrows w then save_error else saved)])
  /\ (forall id,
        boundScenario st = Some id ->
        exists rest,
          log st2
          = log st1
              ++ SaveStatusUpdate saving
                 :: Fetch (PutScenario id (fst (serializeSelections st1))) :: rest).
Proof.
  intros T. cbv zeta.
  destruct (toggleCapability_frame w capability st T)
    as [M [D [S [A [[caps C] [ctrls K]]]]]].
  cbv zeta in M, D, S, A, C, K.
  set (st1 := toggleCapability w (Some capability) st) in *.
  assert (B : boundScenario st1 = boundScenario st).
  { unfold boundScenario. now rewrite M. }
  split; [exact A |]. split.
  - intros Hunbound. unfold autoSaveTimeout. rewrite B, Hunbound.
    unfold persistDraft, DraftManager.persistDraft. rewrite D, C, K.
    destruct (storageThrows w); simpl; now rewrite <- app_assoc.
  - intros id Hbound. unfold autoSaveTimeout. rewrite B, Hbound.
    rewrite <- B in Hbound.
    destruct (boundScenario_manager st1 id Hbound) as [m [Hm Hcur]].
    unfold saveScenario. rewrite Hbound, Hm.
    unfold updateSaveStatus, emit. rewrite serializeSelections_emits.
    destruct (serializeSelections_frame st1) as [L _]. cbv zeta in L.
    unfold ScenarioManager.updateScenario, showStatusMessage, emit, clearDraft,
      DraftManager.clearDraft.
    destruct (scenarioUpdate w id (fst (serializeSelections st1)));
      try destruct (storageThrows w);
      cbn [log emits set_scenarioManager set_localStorage fst snd];
      rewrite L, <- ?app_assoc; cbn [app]; eexists; reflexivity.
Qed.

Lemma toggle_then_autosave_stores_new_selection_witness :
  autoSaveTimer (toggleCapability sampleWorld (Some capC) bothActive) = true.
Proof.
  exact (proj1 (toggle_then_autosave_stores_new_selection sampleWorld capC bothActive
                  eq_refl)).
Defined.
